(** * The KIM calculator dispatcher (ase/calculators/kim/kim.py)

    A shallow embedding of the module that selects and configures an ASE
    calculator for an OpenKIM model, and the properties of its option
    validator, its LAMMPS parameter builder, its ASAP builder and its
    dispatcher.

    Conventions of the embedding:
    - a Python [dict] with string keys is a [gmap string _]; a Python [set]
      of strings is a [gset string];
    - a Python [str] is a [string]: its characters are the code points
      below 256 (ASCII and Latin-1), which is where the names, the units and
      the model definitions of the knowledgebase live;
    - an exception is a value of [exn]; a function that can raise or that
      talks to an external library lives in the monad [M], which pairs the
      result with the trace of the external calls made so far;
    - what the module imports from elsewhere (the kimpy wrappers, the
      periodic table of ase.data, the unit conversion of
      ase.calculators.lammps, the platform's line separator, the calculator
      classes) is a field of the record [World] or a constructor of
      [calculator] that records the arguments of the call; these external
      calls are taken to return: what a constructor or a knowledgebase
      lookup raises by itself is not part of the module. *)

From Stdlib Require Import String Ascii Decimal DecimalString DecimalNat ZArith Lia List.
From stdpp Require Import base gmap strings list fin_maps.

Set Warnings "-register-all,-clear-no-such-hyp".

(** ** Python values, exceptions and calculators *)

(** The values that travel through keyword arguments.  [PSeq] stands for a
    list or a tuple: the module never tells them apart. *)
Inductive pyval : Type :=
| PNone
| PBool (b : bool)
| PInt (n : Z)
| PStr (s : string)
| PSeq (l : list pyval)
| PDict (d : gmap string pyval).

(** The exceptions that the code of the module can end with.  The first two
    are raised by [raise] statements of the module; the others are raised by
    the Python runtime while it executes a statement of the module.

    [TypeError_multiple_values] is the TypeError of a call that receives a
    keyword twice (got multiple values for keyword argument ...).  Its
    message names one keyword: the first repeated one in the order of the
    dict that is being unpacked.  A [gmap] does not record that order, so
    the keyword is [Some k] when [k] is the only repeated keyword and [None]
    when several are repeated. *)
Inductive exn : Type :=
| KIMCalculatorError (msg : string)
| ImportError (msg : string)
| TypeError_multiple_values (key : option string)
| UnboundLocalError (var : string)
| KeyError (key : string)
| IndexError.

(** asap3's parameter providers for its EMT potential. *)
Inductive emt_parameters : Type :=
| EMTRasmussenParameters
| EMTMetalGlassParameters.

(** A constructed calculator is the record of the constructor call that
    made it (and, for EMT, of the one setter called on it afterwards). *)
Inductive calculator : Type :=
| KIMModelCalculator (model_name : string) (kwargs : gmap string pyval)
| LAMMPS (kwargs : gmap string pyval)
| LAMMPSlib (kwargs : gmap string pyval)
| OpenKIMcalculator (kwargs : gmap string pyval)
| EMT (parameters : option emt_parameters) (subtractE0 : option bool).

(** ** External calls and the monad *)

Inductive event : Type :=
| EvGetItemType (model_name : string)
| EvSimulatorModel (model_name : string)
| EvSupportedSpecies (model_name : string)
| EvImportAsap3
| EvConstruct (c : calculator).

Definition M (A : Type) : Type := list event * (exn + A).

Definition ret {A} (a : A) : M A := ([], inr a).
Definition raise {A} (e : exn) : M A := ([], inl e).
Definition emit (ev : event) : M unit := ([ev], inr tt).
Definition bind {A B} (m : M A) (f : A → M B) : M B :=
  match m with
  | (t, inl e) => (t, inl e)
  | (t, inr a) => let '(t', r) := f a in (t ++ t', r)
  end.

Notation "'let!' x ':=' m 'in' k" := (bind m (λ x, k))
  (at level 10, x name, m at level 100, k at level 200).
Notation "'let!' ' p ':=' m 'in' k" := (bind m (λ x, match x with p => k end))
  (at level 10, p pattern, m at level 100, k at level 200).
Notation "'run' m 'then' k" := (bind m (λ _, k))
  (at level 10, m at level 100, k at level 200).

Definition trace {A} (m : M A) : list event := fst m.
Definition outcome {A} (m : M A) : exn + A := snd m.

Definition is_construct (ev : event) : bool :=
  match ev with EvConstruct _ => true | _ => false end.

(** Every external call of the run satisfies [P]. *)
Definition trace_all (P : event → Prop) {A} (m : M A) : Prop :=
  Forall P (trace m).

(** No calculator of any kind was constructed during the run. *)
Definition constructs_nothing {A} (m : M A) : Prop :=
  trace_all (λ ev, is_construct ev = false) m.

(** The metadata of no Simulator Model was read during the run. *)
Definition no_metadata_extraction {A} (m : M A) : Prop :=
  trace_all (λ ev, ∀ model_name, ev ≠ EvSimulatorModel model_name) m.

(** Every exception that the run can end with satisfies [P]. *)
Definition fails_only (P : exn → Prop) {A} (m : M A) : Prop :=
  ∀ e, outcome m = inl e → P e.

(** ** Strings *)

(** The double-quote character, as a one-character string. *)
Definition dq : string := String "034"%char EmptyString.

(** [needle in hay] on Python strings. *)
Definition substring_of (needle hay : string) : Prop :=
  ∃ pre post, hay = pre +:+ needle +:+ post.

(** [str(n)] for a non-negative Python int. *)
Definition str_nat (n : nat) : string := NilZero.string_of_uint (Nat.to_uint n).

(** [int(s)] on a string of decimal digits. *)
Definition int_of_str (s : string) : option nat :=
  Nat.of_uint <$> NilZero.uint_of_string s.

(** [str(x)] for an argument that is [None] or a string, as [str.format]
    renders it in a replacement field. *)
Definition str_opt (x : option string) : string :=
  match x with None => "None" | Some s => s end.

(** ** The option validator *)

(** [_check_conflict_options(options, not_allowed_options, simulator)].
    [set(options)] is the set of the keys of the dict; [if common:] holds
    when the set is not empty; the keys are listed in the iteration order
    of the set, which [elements] stands for. *)
Definition _check_conflict_options
    (options : gmap string pyval) (not_allowed_options : list string)
    (simulator : option string) : M unit :=
  let s1 : gset string := dom options in
  let s2 : gset string := list_to_set not_allowed_options in
  let common := s1 ∩ s2 in
  if decide (common = ∅) then ret tt
  else
    let options_in_not_allowed :=
      String.concat ", " ((λ s, dq +:+ s +:+ dq) <$> elements common) in
    let msg :=
      "Simulator " +:+ dq +:+ str_opt simulator +:+ dq
      +:+ " does not support argument(s): " +:+ options_in_not_allowed
      +:+ " provided in " +:+ dq +:+ "options" +:+ dq
      +:+ ", because it is (they are) determined internally within the KIM calculator" in
    raise (KIMCalculatorError msg).

(** ** The world outside the module *)

(** kimpy's collection item types. *)
Inductive collection_item_type : Type :=
| collection_item_type_modelDriver
| collection_item_type_portableModel
| collection_item_type_simulatorModel.

Global Instance collection_item_type_eq_dec : EqDecision collection_item_type.
Proof. solve_decision. Defined.

(** The five fields read from a [kimpy_wrappers.SimulatorModel]. *)
Record SimulatorModel : Type := {
  simulator_name : string;
  supported_species : list string;
  supported_units : string;
  atom_style : option string;
  model_defn : list string
}.

(** What the module imports.  [Mass] is the type of the floating-point
    numbers of the mass table; the module only looks a mass up, converts it
    and prints it. *)
Record World (Mass : Type) : Type := {
  (** [os.linesep] *)
  linesep : string;
  (** [ModelCollections().get_item_type(model_name)] *)
  get_item_type : string → collection_item_type;
  (** [SimulatorModel(model_name)] *)
  simulator_model : string → SimulatorModel;
  (** [KIMModelCalculator(model_name).get_model_supported_species_and_codes()] *)
  get_model_supported_species_and_codes : string → list string * list Z;
  (** [import asap3]: [None] when the import succeeds, [Some e] when it
      raises an ImportError whose text is [e] *)
  import_asap3 : option string;
  (** [ase.data.atomic_numbers] and [ase.data.atomic_masses] *)
  atomic_numbers : gmap string nat;
  atomic_masses : nat → Mass;
  (** [ase.calculators.lammps.convert(value, quantity, fromunits, tounits)] *)
  convert : Mass → string → string → string → Mass;
  (** [str] of a mass *)
  str_float : Mass → string
}.

Arguments linesep {Mass} _.
Arguments get_item_type {Mass} _ _.
Arguments simulator_model {Mass} _ _.
Arguments get_model_supported_species_and_codes {Mass} _ _.
Arguments import_asap3 {Mass} _.
Arguments atomic_numbers {Mass} _.
Arguments atomic_masses {Mass} _ _.
Arguments convert {Mass} _ _ _ _ _.
Arguments str_float {Mass} _ _.

(** The same world with another simulator-model store. *)
Definition with_simulator_model {Mass} (w : World Mass)
    (store : string → SimulatorModel) : World Mass :=
  {| linesep := linesep w;
     get_item_type := get_item_type w;
     simulator_model := store;
     get_model_supported_species_and_codes := get_model_supported_species_and_codes w;
     import_asap3 := import_asap3 w;
     atomic_numbers := atomic_numbers w;
     atomic_masses := atomic_masses w;
     convert := convert w;
     str_float := str_float w |}.

(** ** Calling with keyword arguments *)

(** The keyword that the TypeError of a repeated keyword names, as far as
    the set of the repeated keywords determines it. *)
Definition repeated_keyword (clash : gset string) : option string :=
  match elements clash with
  | [k] => Some k
  | _ => None
  end.

(** A call that unpacks dicts into keyword arguments next to explicit
    ones: the groups of keyword arguments are merged from left to right,
    and the first group that repeats a keyword of the groups before it ends
    the call with a TypeError (got multiple values for keyword argument). *)
Fixpoint merge_kwargs (acc : gmap string pyval) (groups : list (gmap string pyval))
    : exn + gmap string pyval :=
  match groups with
  | [] => inr acc
  | g :: rest =>
      let clash : gset string := dom acc ∩ dom g in
      if decide (clash = ∅) then merge_kwargs (acc ∪ g) rest
      else inl (TypeError_multiple_values (repeated_keyword clash))
  end.

Definition call_kwargs (groups : list (gmap string pyval)) : M (gmap string pyval) :=
  match merge_kwargs ∅ groups with
  | inl e => raise e
  | inr kw => ret kw
  end.

(** A constructor call: the call is recorded in the trace and the
    calculator is returned. *)
Definition construct (c : calculator) : M calculator :=
  run emit (EvConstruct c) then ret c.

Definition py_strs (l : list string) : pyval := PSeq (PStr <$> l).

(** [enumerate(l)] *)
Fixpoint enumerate_from {A} (start : nat) (l : list A) : list (nat * A) :=
  match l with
  | [] => []
  | x :: rest => (start, x) :: enumerate_from (S start) rest
  end.
Definition enumerate {A} (l : list A) : list (nat * A) := enumerate_from 0 l.

(** The truth value of an argument that is [None] or a string. *)
Definition truthy (x : option string) : bool :=
  match x with
  | None => false
  | Some s => if decide (s = EmptyString) then false else true
  end.

(** ** Lookups in the knowledgebase *)

(** [_is_portable_model(model_name)] *)
Definition _is_portable_model {Mass} (w : World Mass) (model_name : string) : M bool :=
  run emit (EvGetItemType model_name) then
  let model_type := get_item_type w model_name in
  ret (bool_decide (model_type = collection_item_type_portableModel)).

(** [_get_simulator_model_info(model_name)] *)
Definition _get_simulator_model_info {Mass} (w : World Mass) (model_name : string)
    : M (string * list string * string * list string * option string) :=
  run emit (EvSimulatorModel model_name) then
  let sm := simulator_model w model_name in
  ret (simulator_name sm, supported_species sm, supported_units sm,
        model_defn sm, atom_style sm).

(** [_get_kim_pm_supported_species(model_name)]: a KIMModelCalculator is
    constructed for the model, with no option, and asked for its species. *)
Definition _get_kim_pm_supported_species {Mass} (w : World Mass) (model_name : string)
    : M (list string) :=
  run construct (KIMModelCalculator model_name ∅) then
  run emit (EvSupportedSpecies model_name) then
  let '(supported_species, _) := get_model_supported_species_and_codes w model_name in
  ret supported_species.

(** [get_model_supported_species(model_name)] *)
Definition get_model_supported_species {Mass} (w : World Mass) (model_name : string)
    : M (list string) :=
  let! portable := _is_portable_model w model_name in
  if portable then _get_kim_pm_supported_species w model_name
  else
    let! '(_, supported_species, _, _, _) := _get_simulator_model_info w model_name in
    ret supported_species.

(** ** The parameters of the lammpsrun calculator *)

(** The loop that fills [parameters["masses"]]: [masses] is the list built
    so far. *)
Fixpoint masses_loop {Mass} (w : World Mass) (supported_units : string)
    (items : list (nat * string)) (masses : list string) : M (list string) :=
  match items with
  | [] => ret masses
  | (i, species) :: rest =>
      match atomic_numbers w !! species with
      | None =>
          raise (KIMCalculatorError ("Unknown element species " +:+ species +:+ "."))
      | Some number =>
          let massstr :=
            str_float w
              (convert w (atomic_masses w number) "mass" "ASE" supported_units) in
          masses_loop w supported_units rest
            (masses ++ [str_nat (i + 1) +:+ " " +:+ massstr])
      end
  end.

(** [_get_params_for_LAMMPS_calculator(model_name, supported_units,
    supported_species, atom_style)] *)
Definition _get_params_for_LAMMPS_calculator {Mass} (w : World Mass)
    (model_name supported_units : string) (supported_species : list string)
    (atom_style : option string) : M (gmap string pyval) :=
  let parameters : gmap string pyval := ∅ in
  let parameters :=
    if truthy atom_style
    then <["atom_style" := PStr (str_opt atom_style)]> parameters
    else parameters in
  let parameters := <["units" := PStr supported_units]> parameters in
  let parameters :=
    <["model_init" :=
        py_strs ["kim_init " +:+ model_name +:+ " " +:+ supported_units +:+ linesep w]]>
      parameters in
  let parameters :=
    <["kim_interactions" :=
        PStr ("kim_interactions " +:+ String.concat " " supported_species +:+ linesep w)]>
      parameters in
  let! masses := masses_loop w supported_units (enumerate supported_species) [] in
  ret (<["masses" := py_strs masses]> parameters).

(** ** The ASAP calculators *)

Inductive asap_model_type : Type := pm | sm.

(** The keyword arguments that [_asap_calculator] reads from [kwargs]. *)
Record asap_kwargs : Type := {
  kw_verbose : option bool;
  kw_options : option (gmap string pyval);
  kw_model_defn : option (list string);
  kw_supported_units : option string
}.

(** [kwargs[key]] *)
Definition getitem {A} (field : option A) (key : string) : M A :=
  match field with
  | Some v => ret v
  | None => raise (KeyError key)
  end.

(** Python's [str.isspace] on the code points below 256: the ASCII white
    space (tab to carriage return, the four separators 0x1c to 0x1f, the
    space), the next-line control U+0085 and the no-break space U+00A0. *)
Definition is_space (c : ascii) : bool :=
  let n := nat_of_ascii c in
  ((9 <=? n) && (n <=? 13)) || ((28 <=? n) && (n <=? 32))
  || (n =? 133) || (n =? 160).

Fixpoint lstrip (s : string) : string :=
  match s with
  | EmptyString => EmptyString
  | String c rest => if is_space c then lstrip rest else s
  end.

Fixpoint rstrip (s : string) : string :=
  match s with
  | EmptyString => EmptyString
  | String c rest =>
      match rstrip rest with
      | EmptyString => if is_space c then EmptyString else String c EmptyString
      | rest' => String c rest'
      end
  end.

(** [s.strip()] *)
Definition strip (s : string) : string := rstrip (lstrip s).

(** [s.startswith(p)] *)
Definition startswith (s p : string) : bool := String.prefix p s.

(** The character class [A-Za-z0-9_()] of the regular expression. *)
Definition param_char (c : ascii) : bool :=
  let n := nat_of_ascii c in
  ((65 <=? n) && (n <=? 90)) || ((97 <=? n) && (n <=? 122))
  || ((48 <=? n) && (n <=? 57)) || (n =? 95) || (n =? 40) || (n =? 41).

Definition starts_with_close (s : string) : bool :=
  match s with
  | String c _ => bool_decide (c = ")"%char)
  | EmptyString => false
  end.

(** The group and the closing parenthesis of the pattern, matched at the
    start of [s]: one or more characters of the class, as many as possible
    (a longer run is tried first, and one character is given back at a time
    until a closing parenthesis follows), then [")"].  The result is the
    text of the group. *)
Fixpoint match_group (s : string) : option string :=
  match s with
  | EmptyString => None
  | String c rest =>
      if param_char c then
        match match_group rest with
        | Some g => Some (String c g)
        | None => if starts_with_close rest then Some (String c EmptyString) else None
        end
      else None
  end.

(** [re.search(pattern, s)] for the pattern of [_asap_calculator], an
    opening parenthesis, the group, a closing parenthesis: the leftmost
    match, and [group(1)] of it. *)
Fixpoint re_search_group1 (s : string) : option string :=
  match s with
  | EmptyString => None
  | String c rest =>
      if bool_decide (c = "("%char) then
        match match_group rest with
        | Some g => Some g
        | None => re_search_group1 rest
        end
      else re_search_group1 rest
  end.

(** [asap_calc.set_subtractE0(flag)] *)
Definition set_subtractE0 (c : calculator) (flag : bool) : calculator :=
  match c with
  | EMT parameters _ => EMT parameters (Some flag)
  | _ => c
  end.

(** [_asap_calculator(model_name, model_type, **kwargs)].  [model_type] is
    one of the two literals that the callers pass.  In the branch for a
    Simulator Model the local variable [asap_calc] is bound only when the
    model definition starts with EMT: [None] below is the unbound
    variable, and reading it is an UnboundLocalError. *)
Definition _asap_calculator {Mass} (w : World Mass) (model_name : string)
    (model_type : asap_model_type) (kwargs : asap_kwargs) : M calculator :=
  run emit EvImportAsap3 then
  match import_asap3 w with
  | Some e => raise (ImportError (e +:+ " You need to install asap3 first."))
  | None =>
      match model_type with
      | pm =>
          let! verbose := getitem (kw_verbose kwargs) "verbose" in
          let! options := getitem (kw_options kwargs) "options" in
          let! kw :=
            call_kwargs
              [ {[ "name" := PStr model_name; "verbose" := PBool verbose ]};
                options ] in
          construct (OpenKIMcalculator kw)
      | sm =>
          let! model_defn := getitem (kw_model_defn kwargs) "model_defn" in
          let! supported_units :=
            getitem (kw_supported_units kwargs) "supported_units" in
          if decide (supported_units ≠ "ase") then
            raise (KIMCalculatorError
              ("KIM Simulator Model units are " +:+ dq +:+ supported_units +:+ dq
               +:+ ", but expected to be " +:+ dq +:+ "ase" +:+ dq +:+ " for ASAP."))
          else if decide (length model_defn = 0) then
            raise (KIMCalculatorError
              ("model-defn is an empty list in metadata file of Simulator Model "
               +:+ model_name))
          else if decide (1 < length model_defn) then
            raise (KIMCalculatorError
              ("model-defn should contain only one entry for an ASAP model (found "
               +:+ str_nat (length model_defn) +:+ " lines)"))
          else if decide (EmptyString ∈ model_defn) then
            raise (KIMCalculatorError
              ("model-defn contains an empty string in metadata file of Simulator Model "
               +:+ model_name))
          else
            let! first :=
              match model_defn with
              | d :: _ => ret d
              | [] => raise IndexError
              end in
            let model_defn := strip first in
            let! asap_calc :=
              if startswith model_defn "EMT" then
                match re_search_group1 model_defn with
                | None =>
                    let! c := construct (EMT None None) in ret (Some c)
                | Some pp =>
                    if startswith pp "EMTRasmussenParameters" then
                      let! c := construct (EMT (Some EMTRasmussenParameters) None) in
                      ret (Some c)
                    else if startswith pp "EMTMetalGlassParameters" then
                      let! c := construct (EMT (Some EMTMetalGlassParameters) None) in
                      ret (Some c)
                    else
                      raise (KIMCalculatorError
                        ("Unknown model " +:+ dq +:+ model_defn +:+ dq
                         +:+ " for simulator ASAP."))
                end
              else ret None in
            match asap_calc with
            | None => raise (UnboundLocalError "asap_calc")
            | Some c => ret (set_subtractE0 c false)
            end
      end
  end.

(** ** The dispatcher *)

(** The header lines of the lammpslib calculator, as [KIM] builds them. *)
Definition lammpslib_model_init {Mass} (w : World Mass)
    (model_name supported_units : string) : list string :=
  let model_init := ["units " +:+ supported_units +:+ linesep w] in
  let model_init :=
    model_init
    ++ ["kim_init " +:+ model_name +:+ " " +:+ supported_units +:+ linesep w] in
  model_init ++ ["atom_modify map array sort 0 0" +:+ linesep w].

(** The loop of [KIM] that assigns atom types to species. *)
Definition lammpslib_atom_types (supported_species : list string) : gmap string pyval :=
  foldl (λ atom_types '(i_s, s), <[s := PInt (Z.of_nat (i_s + 1))]> atom_types)
        ∅ (enumerate supported_species).

(** The [kim_interactions] list of the lammpslib calculator. *)
Definition lammpslib_kim_interactions (supported_species : list string) : list string :=
  ["kim_interactions " +:+ String.concat " " supported_species].

(** [KIM(model_name, simulator=None, options=None, debug=False)] *)
Definition KIM {Mass} (w : World Mass) (model_name : string)
    (simulator : option string) (options : option (gmap string pyval))
    (debug : bool) : M calculator :=
  let kimmodel_not_allowed_options := ["modelname"; "debug"] in
  let lammpsrun_not_allowed_options :=
    ["parameters"; "files"; "specorder"; "keep_tmp_files"] in
  let lammpslib_not_allowed_options :=
    ["lammps_header"; "lmpcmds"; "atom_types"; "log_file"; "keep_alive"] in
  let asap_kimpm_not_allowed_options := ["name"; "verbose"] in
  let asap_kimsm_not_allowed_options := ["Params"] in
  let options : gmap string pyval := default ∅ options in
  let! portable := _is_portable_model w model_name in
  if portable then
    let simulator :=
      match simulator with None => Some "kimmodel" | Some _ => simulator end in
    if decide (simulator = Some "kimmodel") then
      run _check_conflict_options options kimmodel_not_allowed_options simulator then
      let! kw := call_kwargs [ {[ "debug" := PBool debug ]}; options ] in
      construct (KIMModelCalculator model_name kw)
    else if decide (simulator = Some "asap") then
      run _check_conflict_options options asap_kimpm_not_allowed_options simulator then
      _asap_calculator w model_name pm
        {| kw_verbose := Some debug; kw_options := Some options;
           kw_model_defn := None; kw_supported_units := None |}
    else if decide (simulator = Some "lammpsrun") then
      run _check_conflict_options options lammpsrun_not_allowed_options simulator then
      let! supported_species := _get_kim_pm_supported_species w model_name in
      let! parameters :=
        _get_params_for_LAMMPS_calculator w model_name "metal" supported_species None in
      let! kw :=
        call_kwargs
          [ parameters;
            {[ "specorder" := py_strs supported_species;
               "keep_tmp_files" := PBool debug ]};
            options ] in
      construct (LAMMPS kw)
    else if decide (simulator = Some "lammpslib") then
      raise (KIMCalculatorError
        (dq +:+ "lammpslib" +:+ dq
         +:+ " calculator does not support KIM Portable Models. Try using the "
         +:+ dq +:+ "lammpsrun" +:+ dq +:+ " calculator."))
    else
      raise (KIMCalculatorError
        ("Unsupported simulator " +:+ dq +:+ str_opt simulator +:+ dq
         +:+ " requested to run KIM Portable Model."))
  else
    let! '(simulator_name, supported_species, supported_units, model_defn, atom_style) :=
      _get_simulator_model_info w model_name in
    let simulator :=
      match simulator with
      | None =>
          if decide (simulator_name = "ASAP") then Some "asap"
          else if decide (simulator_name = "LAMMPS") then Some "lammpslib"
          else None
      | Some _ => simulator
      end in
    if decide (simulator_name = "ASAP") then
      run _check_conflict_options options asap_kimsm_not_allowed_options simulator then
      _asap_calculator w model_name sm
        {| kw_verbose := None; kw_options := None;
           kw_model_defn := Some model_defn;
           kw_supported_units := Some supported_units |}
    else if decide (simulator_name = "LAMMPS") then
      if decide (simulator = Some "lammpsrun") then
        run _check_conflict_options options lammpsrun_not_allowed_options simulator then
        let! parameters :=
          _get_params_for_LAMMPS_calculator w model_name supported_units
            supported_species atom_style in
        let! kw :=
          call_kwargs
            [ parameters;
              {[ "specorder" := py_strs supported_species;
                 "keep_tmp_files" := PBool debug ]} ] in
        construct (LAMMPS kw)
      else if decide (simulator = Some "lammpslib") then
        run _check_conflict_options options lammpslib_not_allowed_options simulator then
        let model_init := lammpslib_model_init w model_name supported_units in
        let atom_types := lammpslib_atom_types supported_species in
        let kim_interactions := lammpslib_kim_interactions supported_species in
        let! kw :=
          call_kwargs
            [ {[ "lammps_header" := py_strs model_init;
                 "lammps_name" := PNone;
                 "lmpcmds" := py_strs kim_interactions;
                 "atom_types" := PDict atom_types;
                 "log_file" := PStr "lammps.log";
                 "keep_alive" := PBool true ]};
              options ] in
        construct (LAMMPSlib kw)
      else
        raise (KIMCalculatorError
          ("Unknown LAMMPS calculator: " +:+ dq +:+ str_opt simulator +:+ dq +:+ "."))
    else
      raise (KIMCalculatorError
        ("Unsupported simulator: " +:+ dq +:+ simulator_name +:+ dq +:+ ".")).

(** ** Reading the generated text back *)

(** The mass string that [_get_params_for_LAMMPS_calculator] computes for
    the element of atomic number [number]. *)
Definition massstr_of {Mass} (w : World Mass) (supported_units : string)
    (number : nat) : string :=
  str_float w (convert w (atomic_masses w number) "mass" "ASE" supported_units).

Fixpoint no_space (s : string) : bool :=
  match s with
  | EmptyString => true
  | String c rest => negb (bool_decide (c = " "%char)) && no_space rest
  end.

(** [s.split(" ")]: the fields between single spaces. *)
Fixpoint split_spaces (s : string) : list string :=
  match s with
  | EmptyString => [EmptyString]
  | String c rest =>
      if bool_decide (c = " "%char) then EmptyString :: split_spaces rest
      else
        match split_spaces rest with
        | field :: fields => String c field :: fields
        | [] => [String c EmptyString]
        end
  end.

(** [s.split(" ", 1)]: the text before the first space and the text after
    it; [None] when there is no space. *)
Fixpoint split_first_space (s : string) : option (string * string) :=
  match s with
  | EmptyString => None
  | String c rest =>
      if bool_decide (c = " "%char) then Some (EmptyString, rest)
      else
        match split_first_space rest with
        | Some (before, after) => Some (String c before, after)
        | None => None
        end
  end.

(** Reading a line of the mass table back: the type index and the mass,
    given a reader [float_of_str] for the mass. *)
Definition parse_mass_line {Mass} (float_of_str : string → option Mass)
    (line : string) : option (nat * Mass) :=
  match split_first_space line with
  | None => None
  | Some (index, mass) =>
      match int_of_str index, float_of_str mass with
      | Some i, Some m => Some (i, m)
      | _, _ => None
      end
  end.

(** The species is in the table of atomic numbers. *)
Definition known {Mass} (w : World Mass) (species : string) : Prop :=
  is_Some (atomic_numbers w !! species).

(** The keys that [_get_params_for_LAMMPS_calculator] can set. *)
Definition lammps_parameter_keys : gset string :=
  {[ "atom_style"; "units"; "model_init"; "kim_interactions"; "masses" ]}.

(** The keyword arguments that [KIM] writes out in its calls of [LAMMPS]
    and of [LAMMPSlib]. *)
Definition lammpsrun_kwargs (supported_species : list string) (debug : bool)
    : gmap string pyval :=
  {[ "specorder" := py_strs supported_species; "keep_tmp_files" := PBool debug ]}.

Definition lammpslib_kwargs {Mass} (w : World Mass) (model_name : string)
    (supported_units : string) (supported_species : list string) : gmap string pyval :=
  {[ "lammps_header" := py_strs (lammpslib_model_init w model_name supported_units);
     "lammps_name" := PNone;
     "lmpcmds" := py_strs (lammpslib_kim_interactions supported_species);
     "atom_types" := PDict (lammpslib_atom_types supported_species);
     "log_file" := PStr "lammps.log";
     "keep_alive" := PBool true ]}.

Definition lammpsrun_not_allowed : list string :=
  ["parameters"; "files"; "specorder"; "keep_tmp_files"].
Definition lammpslib_not_allowed : list string :=
  ["lammps_header"; "lmpcmds"; "atom_types"; "log_file"; "keep_alive"].

(** The options pass the validator for the list [not_allowed]. *)
Definition allowed (options : option (gmap string pyval)) (not_allowed : list string) : Prop :=
  dom (default ∅ options) ∩ list_to_set not_allowed = (∅ : gset string).

(** ** Kinds of errors *)

(** The three messages of [_asap_calculator] about a model definition that
    is not exactly one non-empty line. *)
Definition malformed_model_defn_error (model_name : string)
    (model_defn : list string) (e : exn) : Prop :=
  e = KIMCalculatorError
        ("model-defn is an empty list in metadata file of Simulator Model "
         +:+ model_name)
  ∨ e = KIMCalculatorError
        ("model-defn should contain only one entry for an ASAP model (found "
         +:+ str_nat (length model_defn) +:+ " lines)")
  ∨ e = KIMCalculatorError
        ("model-defn contains an empty string in metadata file of Simulator Model "
         +:+ model_name).

(** The message of [_asap_calculator] about the units of the model. *)
Definition unit_mismatch_error (supported_units : string) (e : exn) : Prop :=
  e = KIMCalculatorError
        ("KIM Simulator Model units are " +:+ dq +:+ supported_units +:+ dq
         +:+ ", but expected to be " +:+ dq +:+ "ase" +:+ dq +:+ " for ASAP.").

(** The exceptions that a [raise] statement of the module raises, as
    opposed to those of the Python runtime. *)
Definition raised_by_module (e : exn) : bool :=
  match e with
  | KIMCalculatorError _ | ImportError _ => true
  | _ => false
  end.

(** A failure that tells the caller what went wrong: a KIMCalculatorError
    with a message, or the ImportError about asap3, whose message is the
    text of the failed import followed by the advice to install asap3. *)
Definition descriptive {Mass} (w : World Mass) (e : exn) : Prop :=
  (∃ msg, e = KIMCalculatorError msg ∧ msg ≠ EmptyString)
  ∨ (∃ text, import_asap3 w = Some text
       ∧ e = ImportError (text +:+ " You need to install asap3 first.")).

(** What [_asap_calculator] does for a Simulator Model once the units and
    the shape of the model definition are checked: the statements from
    [model_defn = model_defn[0].strip()] to the end, for the one line
    [first] of the definition. *)
Definition asap_emt (first : string) : M calculator :=
  let model_defn := strip first in
  let! asap_calc :=
    if startswith model_defn "EMT" then
      match re_search_group1 model_defn with
      | None =>
          let! c := construct (EMT None None) in ret (Some c)
      | Some pp =>
          if startswith pp "EMTRasmussenParameters" then
            let! c := construct (EMT (Some EMTRasmussenParameters) None) in
            ret (Some c)
          else if startswith pp "EMTMetalGlassParameters" then
            let! c := construct (EMT (Some EMTMetalGlassParameters) None) in
            ret (Some c)
          else
            raise (KIMCalculatorError
              ("Unknown model " +:+ dq +:+ model_defn +:+ dq
               +:+ " for simulator ASAP."))
      end
    else ret None in
  match asap_calc with
  | None => raise (UnboundLocalError "asap_calc")
  | Some c => ret (set_subtractE0 c false)
  end.

(** The parameter set that a stripped model definition selects: [None]
    when the definition is not one that the builder accepts. *)
Definition emt_selection (model_defn : string) : option (option emt_parameters) :=
  if startswith model_defn "EMT" then
    match re_search_group1 model_defn with
    | None => Some None
    | Some pp =>
        if startswith pp "EMTRasmussenParameters" then Some (Some EMTRasmussenParameters)
        else if startswith pp "EMTMetalGlassParameters" then Some (Some EMTMetalGlassParameters)
        else None
    end
  else None.

(** The keyword arguments of the call of [_asap_calculator] for a Simulator
    Model. *)
Definition sm_kwargs (model_defn : list string) (supported_units : string) : asap_kwargs :=
  {| kw_verbose := None; kw_options := None;
     kw_model_defn := Some model_defn;
     kw_supported_units := Some supported_units |}.

(** ** A small world for examples

    Two elements, a Portable Model, a LAMMPS Simulator Model and an ASAP
    Simulator Model; a mass is written as its decimal text, and the
    conversion keeps the value (as from ASE units to metal units). *)
Definition example_pm : string := "EAM_Dynamo_X__MO_000000000000_000".
Definition example_asap_sm : string := "Sim_ASAP_EMT__SM_000000000000_000".
Definition example_lammps_sm : string := "Sim_LAMMPS_EAM__SM_000000000000_000".

Definition example_world (asap3 : option string) : World string :=
  {| linesep := String "010"%char EmptyString;
     get_item_type := λ name,
       if decide (name = example_pm)
       then collection_item_type_portableModel
       else collection_item_type_simulatorModel;
     simulator_model := λ name,
       if decide (name = example_asap_sm) then
         {| simulator_name := "ASAP"; supported_species := ["Al"; "Ni"];
            supported_units := "ase"; atom_style := None;
            model_defn := ["EMT(EMTRasmussenParameters())"] |}
       else
         {| simulator_name := "LAMMPS"; supported_species := ["Al"; "Ni"];
            supported_units := "metal"; atom_style := None;
            model_defn := ["pair_style eam"] |};
     get_model_supported_species_and_codes := λ _, (["Al"; "Ni"], [1%Z; 2%Z]);
     import_asap3 := asap3;
     atomic_numbers := {[ "Al" := 13; "Ni" := 28 ]};
     atomic_masses := λ number,
       if decide (number = 13) then "26.9815385" else "58.6934";
     convert := λ value _ _ _, value;
     str_float := λ value, value |}.

(** ** More about runs and texts *)

(** Every value that the run can return satisfies [R]. *)
Definition returns_only {A} (R : A → Prop) (m : M A) : Prop :=
  ∀ a, outcome m = inr a → R a.

(** The run ends with an exception. *)
Definition fails {A} (m : M A) : Prop := ∃ e, outcome m = inl e.

(** The only calculator that the event can be the construction of is the
    KIMModelCalculator that [_get_kim_pm_supported_species] makes to ask
    for the species of [model_name]. *)
Definition only_species_handle (model_name : string) (ev : event) : Prop :=
  ∀ c, ev = EvConstruct c → c = KIMModelCalculator model_name ∅.

(** The disallow-lists of [KIM] that have no name yet. *)
Definition kimmodel_not_allowed : list string := ["modelname"; "debug"].
Definition asap_kimpm_not_allowed : list string := ["name"; "verbose"].
Definition asap_kimsm_not_allowed : list string := ["Params"].

(** Every character of the text is in the class of the pattern of
    [_asap_calculator]. *)
Fixpoint all_param_chars (s : string) : bool :=
  match s with
  | EmptyString => true
  | String c rest => param_char c && all_param_chars rest
  end.

(** The text has no opening parenthesis. *)
Fixpoint no_open_paren (s : string) : bool :=
  match s with
  | EmptyString => true
  | String c rest => negb (bool_decide (c = "("%char)) && no_open_paren rest
  end.

(** The keys that [_get_params_for_LAMMPS_calculator] always sets. *)
Definition lammps_fixed_keys : gset string :=
  {[ "units"; "model_init"; "kim_interactions"; "masses" ]}.

(** The example world with a store in which every model is bound to a
    simulator that the dispatcher does not know. *)
Definition example_world_other_simulator : World string :=
  with_simulator_model (example_world None)
    (λ _, {| simulator_name := "GULP"; supported_species := ["Al"];
             supported_units := "metal"; atom_style := None;
             model_defn := [] |}).

(** ** Where the Python runtime ends the dispatcher

    Three kinds of inputs pass every check of the module and then make a
    statement of the module fail in the Python runtime. *)

(** A Portable Model sent to the lammpsrun calculator with options that
    pass the validator, species that are known, and an option with the
    name of one of the parameters that the builder sets: the call of
    [LAMMPS] gets that keyword twice. *)
Definition repeats_lammps_parameter {Mass} (w : World Mass) (model_name : string)
    (simulator : option string) (options : option (gmap string pyval)) : Prop :=
  get_item_type w model_name = collection_item_type_portableModel
  ∧ simulator = Some "lammpsrun"
  ∧ allowed options lammpsrun_not_allowed
  ∧ Forall (known w) (get_model_supported_species_and_codes w model_name).1
  ∧ dom (default ∅ options) ∩ lammps_fixed_keys ≠ ∅.

(** A LAMMPS Simulator Model sent to the lammpslib calculator with options
    that pass the validator, one of them called lammps_name: the call of
    [LAMMPSlib] gets that keyword twice. *)
Definition repeats_lammps_name {Mass} (w : World Mass) (model_name : string)
    (simulator : option string) (options : option (gmap string pyval)) : Prop :=
  get_item_type w model_name ≠ collection_item_type_portableModel
  ∧ simulator_name (simulator_model w model_name) = "LAMMPS"
  ∧ (simulator = None ∨ simulator = Some "lammpslib")
  ∧ allowed options lammpslib_not_allowed
  ∧ "lammps_name" ∈ dom (default ∅ options).

(** An ASAP Simulator Model with options that pass the validator, asap3
    imported, the units ase, and a model definition of one non-empty line
    that, stripped, does not start with EMT: the variable [asap_calc] is
    read without having been bound. *)
Definition asap_definition_not_emt {Mass} (w : World Mass) (model_name : string)
    (options : option (gmap string pyval)) : Prop :=
  get_item_type w model_name ≠ collection_item_type_portableModel
  ∧ simulator_name (simulator_model w model_name) = "ASAP"
  ∧ allowed options asap_kimsm_not_allowed
  ∧ import_asap3 w = None
  ∧ supported_units (simulator_model w model_name) = "ase"
  ∧ ∃ first,
      model_defn (simulator_model w model_name) = [first]
      ∧ first ≠ EmptyString
      ∧ startswith (strip first) "EMT" = false.

(** * Properties *)

(** ** Strings *)

Lemma append_nil_l (s : string) : EmptyString +:+ s = s.
Proof. reflexivity. Qed.

Lemma append_cons (c : ascii) (s t : string) : String c s +:+ t = String c (s +:+ t).
Proof. reflexivity. Qed.

Lemma append_nil_r (s : string) : s +:+ EmptyString = s.
Proof. induction s as [|c s IH]; [done|]. by rewrite append_cons, IH. Qed.

Lemma append_assoc (s t u : string) : (s +:+ t) +:+ u = s +:+ (t +:+ u).
Proof. induction s as [|c s IH]; [done|]. by rewrite !append_cons, IH. Qed.

Lemma substring_of_refl (s : string) : substring_of s s.
Proof. exists EmptyString, EmptyString. by rewrite append_nil_l, append_nil_r. Qed.

Lemma substring_of_app_r (x s t : string) : substring_of x t → substring_of x (s +:+ t).
Proof.
  intros (pre & post & ->). exists (s +:+ pre), post. by rewrite append_assoc.
Qed.

Lemma substring_of_app_l (x s t : string) : substring_of x s → substring_of x (s +:+ t).
Proof.
  intros (pre & post & ->). exists pre, (post +:+ t). by rewrite !append_assoc.
Qed.

(** Every joined string is a part of the result of [sep.join(l)]. *)
Lemma substring_of_concat (sep x : string) (l : list string) :
  x ∈ l → substring_of x (String.concat sep l).
Proof.
  induction l as [|y l IH]; [by intros ?%elem_of_nil|].
  intros [->|Hin]%elem_of_cons.
  - destruct l as [|z l]; simpl; [apply substring_of_refl|].
    apply substring_of_app_l, substring_of_refl.
  - destruct l as [|z l]; [by apply elem_of_nil in Hin|].
    change (String.concat sep (y :: z :: l))
      with (y +:+ sep +:+ String.concat sep (z :: l)).
    by apply substring_of_app_r, substring_of_app_r, IH.
Qed.

(** ** The monad *)

Lemma bind_ret_l {A B} (a : A) (f : A → M B) : bind (ret a) f = f a.
Proof. unfold bind, ret. by destruct (f a). Qed.

Lemma trace_bind {A B} (m : M A) (f : A → M B) :
  trace (bind m f)
  = match outcome m with
    | inl _ => trace m
    | inr a => trace m ++ trace (f a)
    end.
Proof. destruct m as [t [e|a]]; simpl; [done|]. by destruct (f a). Qed.

Lemma outcome_bind {A B} (m : M A) (f : A → M B) :
  outcome (bind m f)
  = match outcome m with
    | inl e => inl e
    | inr a => outcome (f a)
    end.
Proof. destruct m as [t [e|a]]; simpl; [done|]. by destruct (f a). Qed.

Lemma outcome_pair {A} (t : list event) (r : exn + A) : outcome (t, r) = r.
Proof. reflexivity. Qed.

(** Follow the outcome of a sequence of steps as far as the steps are
    known. *)
Ltac run_outcome :=
  repeat progress (rewrite ?outcome_bind, ?outcome_pair; cbv beta iota).
Ltac run_outcome_in H :=
  repeat progress (rewrite ?outcome_bind, ?outcome_pair in H; cbv beta iota in H).

(** ** The option validator *)

(** What the validator does, case by case. *)
Lemma check_conflict_options_disjoint O D simulator :
  dom O ∩ list_to_set D = (∅ : gset string) →
  _check_conflict_options O D simulator = ret tt.
Proof. intros H. unfold _check_conflict_options. by rewrite decide_True. Qed.

Lemma check_conflict_options_clash O D simulator :
  dom O ∩ list_to_set D ≠ (∅ : gset string) →
  ∃ msg, _check_conflict_options O D simulator = raise (KIMCalculatorError msg)
         ∧ msg ≠ EmptyString
         ∧ ∀ k, k ∈ dom O → k ∈ D → substring_of (dq +:+ k +:+ dq) msg.
Proof.
  intros H. unfold _check_conflict_options. rewrite decide_False by done.
  eexists. split; [reflexivity|]. split; [done|].
  intros k HO HD.
  do 5 apply substring_of_app_r. apply substring_of_app_l.
  apply substring_of_concat, list_elem_of_fmap.
  exists k. split; [done|]. apply elem_of_elements. set_solver.
Qed.

Lemma keys_intersect_iff (O : gmap string pyval) (D : list string) :
  dom O ∩ list_to_set D ≠ (∅ : gset string) ↔ ∃ k, k ∈ dom O ∧ k ∈ D.
Proof.
  split.
  - intros H. destruct (set_choose_L (dom O ∩ list_to_set D)) as [k Hk]; [done|].
    exists k. set_solver.
  - intros (k & ? & ?). set_solver.
Qed.

(** C1.  For every options dict [O], every list [D] of disallowed keys and
    every simulator argument, [_check_conflict_options] raises (a
    KIMCalculatorError) exactly when a key of [O] is in [D]; the message of
    the error then contains every such key, between double quotes; and
    when no key of [O] is in [D] the call returns [None] and has made no
    external call.  The embedding passes [O] by value: the source builds
    two fresh sets and never assigns to [options]. *)
Theorem check_conflict_options_spec
    (O : gmap string pyval) (D : list string) (simulator : option string) :
  ((∃ e, outcome (_check_conflict_options O D simulator) = inl e)
     ↔ ∃ k, k ∈ dom O ∧ k ∈ D)
  ∧ (∀ e, outcome (_check_conflict_options O D simulator) = inl e →
       ∃ msg, e = KIMCalculatorError msg
              ∧ ∀ k, k ∈ dom O → k ∈ D → substring_of (dq +:+ k +:+ dq) msg)
  ∧ ((¬ ∃ k, k ∈ dom O ∧ k ∈ D) →
       _check_conflict_options O D simulator = ([], inr tt))
  ∧ trace (_check_conflict_options O D simulator) = [].
Proof.
  destruct (decide (dom O ∩ list_to_set D = (∅ : gset string))) as [Hd|Hc].
  - rewrite (check_conflict_options_disjoint _ _ _ Hd).
    assert (¬ ∃ k, k ∈ dom O ∧ k ∈ D) as Hno.
    { intros Hk%keys_intersect_iff. done. }
    repeat split; try done.
    intros [e He]. done.
  - destruct (check_conflict_options_clash O D simulator Hc) as (msg & -> & _ & Hmsg).
    pose proof (proj1 (keys_intersect_iff O D) Hc) as Hk.
    repeat split; try done.
    + intros _. by exists (KIMCalculatorError msg).
    + intros e [= <-]. by exists msg.
Qed.

(** ** Decimal text *)

Lemma no_space_string_of_uint (d : uint) : no_space (NilEmpty.string_of_uint d) = true.
Proof. induction d; simpl; auto. Qed.

Lemma no_space_str_nat (n : nat) : no_space (str_nat n) = true.
Proof.
  unfold str_nat, NilZero.string_of_uint.
  destruct (Nat.to_uint n) eqn:E; try done;
    rewrite <- E; apply no_space_string_of_uint.
Qed.

Lemma int_of_str_str_nat (n : nat) : int_of_str (str_nat n) = Some n.
Proof.
  unfold int_of_str, str_nat.
  pose proof (DecimalNat.Unsigned.of_to n) as Hn.
  destruct (Nat.to_uint n) eqn:E.
  { rewrite <- Hn. reflexivity. }
  all: rewrite NilZero.usu by done; unfold fmap, option_fmap, option_map;
    f_equal; exact Hn.
Qed.

(** ** Splitting at spaces *)

Lemma split_first_space_app (index rest : string) :
  no_space index = true →
  split_first_space (index +:+ " " +:+ rest) = Some (index, rest).
Proof.
  induction index as [|c index IH]; intros Hns; [done|].
  simpl in Hns. apply andb_true_iff in Hns as [Hc Hns].
  rewrite append_cons. simpl.
  destruct (bool_decide (c = " "%char)); [done|].
  by rewrite IH.
Qed.

Lemma split_spaces_no_space (s : string) :
  no_space s = true → split_spaces s = [s].
Proof.
  induction s as [|c s IH]; intros Hns; [done|].
  simpl in Hns. apply andb_true_iff in Hns as [Hc Hns]. simpl.
  destruct (bool_decide (c = " "%char)); [done|].
  by rewrite IH.
Qed.

Lemma split_spaces_app (field rest : string) :
  no_space field = true →
  split_spaces (field +:+ " " +:+ rest) = field :: split_spaces rest.
Proof.
  induction field as [|c field IH]; intros Hns; [done|].
  simpl in Hns. apply andb_true_iff in Hns as [Hc Hns].
  rewrite append_cons. simpl.
  destruct (bool_decide (c = " "%char)); [done|].
  by rewrite IH.
Qed.

(** Splitting a joined list gives the list back. *)
Lemma split_spaces_concat (fields : list string) :
  fields ≠ [] → Forall (λ f, no_space f = true) fields →
  split_spaces (String.concat " " fields) = fields.
Proof.
  induction fields as [|f fields IH]; [done|]. intros _ Hall.
  apply Forall_cons in Hall as [Hf Hall].
  destruct fields as [|g fields]; simpl.
  - by apply split_spaces_no_space.
  - change (f ++ String " " (String.concat " " (g :: fields)))%string
      with (f +:+ " " +:+ String.concat " " (g :: fields)).
    rewrite split_spaces_app by done. f_equal. by apply IH.
Qed.

(** ** The mass table *)

Section masses.
Context {Mass : Type} (w : World Mass) (units : string).

Local Abbreviation known := (known w).

(** The loop succeeds on known species and appends one line per species. *)
Lemma masses_loop_known (l : list string) :
  Forall known l →
  ∀ n acc, ∃ lines,
    masses_loop w units (enumerate_from n l) acc = ret (acc ++ lines)
    ∧ length lines = length l
    ∧ ∀ i sp number, l !! i = Some sp → atomic_numbers w !! sp = Some number →
        lines !! i = Some (str_nat (n + i + 1) +:+ " " +:+ massstr_of w units number).
Proof.
  induction 1 as [|sp l [number HS] Hall IH]; intros n acc.
  - exists []. rewrite app_nil_r. by split_and!.
  - simpl. rewrite HS.
    destruct (IH (S n) (acc ++ [str_nat (n + 1) +:+ " " +:+ massstr_of w units number]))
      as (lines & Heq & Hlen & Hlines).
    exists ((str_nat (n + 1) +:+ " " +:+ massstr_of w units number) :: lines).
    split_and!.
    + unfold massstr_of in *. rewrite Heq. by rewrite <- app_assoc.
    + simpl. by rewrite Hlen.
    + intros [|i] sp' number' Hi HS'; simpl in *.
      * simplify_eq. by rewrite Nat.add_0_r.
      * rewrite (Hlines i sp' number' Hi HS'). do 3 f_equal. lia.
Qed.

(** The loop stops at the first species that is not in the table. *)
Lemma masses_loop_unknown (known_prefix : list string) (sp : string) (rest : list string) :
  Forall known known_prefix → atomic_numbers w !! sp = None →
  ∀ n acc,
    masses_loop w units (enumerate_from n (known_prefix ++ sp :: rest)) acc
    = raise (KIMCalculatorError ("Unknown element species " +:+ sp +:+ ".")).
Proof.
  induction 1 as [|sp' l [number HS'] Hall IH]; intros HS n acc; simpl.
  - by rewrite HS.
  - rewrite HS'. by apply IH.
Qed.

(** A list of species is all known, or splits at its first unknown one. *)
Lemma first_unknown (l : list string) :
  Forall known l
  ∨ ∃ known_prefix sp rest,
      l = known_prefix ++ sp :: rest ∧ Forall known known_prefix
      ∧ atomic_numbers w !! sp = None.
Proof.
  induction l as [|sp l IH]; [by left|].
  destruct (atomic_numbers w !! sp) as [number|] eqn:HS.
  - destruct IH as [Hall | (p & sp' & rest & -> & Hp & HS')].
    + left. constructor; [by exists number | done].
    + right. exists (sp :: p), sp', rest. split_and!; [done| |done].
      constructor; [by exists number | done].
  - right. by exists [], sp, l.
Qed.
End masses.

(** ** The parameters of the lammpsrun calculator *)

Section lammps_parameters.
Context {Mass : Type} (w : World Mass).
Implicit Types (model_name units : string) (species : list string)
  (style : option string).

(** On known species the builder returns a dict with these entries. *)
Lemma get_params_known model_name units species style :
  Forall (known w) species →
  ∃ params masses,
    _get_params_for_LAMMPS_calculator w model_name units species style
      = ([], inr params)
    ∧ params !! "units" = Some (PStr units)
    ∧ params !! "model_init"
        = Some (py_strs ["kim_init " +:+ model_name +:+ " " +:+ units +:+ linesep w])
    ∧ params !! "kim_interactions"
        = Some (PStr ("kim_interactions " +:+ String.concat " " species +:+ linesep w))
    ∧ params !! "masses" = Some (py_strs masses)
    ∧ dom params ⊆ lammps_parameter_keys
    ∧ length masses = length species
    ∧ ∀ i sp number, species !! i = Some sp → atomic_numbers w !! sp = Some number →
        masses !! i = Some (str_nat (i + 1) +:+ " " +:+ massstr_of w units number).
Proof.
  intros Hall.
  destruct (masses_loop_known w units species Hall 0 []) as (masses & Heq & Hlen & Hl).
  unfold _get_params_for_LAMMPS_calculator, enumerate.
  rewrite Heq, bind_ret_l. simpl.
  eexists _, masses. split; [reflexivity|].
  split_and!; try done.
  - by simplify_map_eq.
  - by simplify_map_eq.
  - by simplify_map_eq.
  - by simplify_map_eq.
  - unfold lammps_parameter_keys. rewrite !dom_insert.
    destruct (truthy style); [rewrite dom_insert|]; rewrite dom_empty; set_solver.
Qed.

(** At the first unknown species the builder raises. *)
Lemma get_params_unknown model_name units style known_prefix sp rest :
  Forall (known w) known_prefix → atomic_numbers w !! sp = None →
  _get_params_for_LAMMPS_calculator w model_name units (known_prefix ++ sp :: rest) style
    = ([], inl (KIMCalculatorError ("Unknown element species " +:+ sp +:+ "."))).
Proof.
  intros Hp Hsp. unfold _get_params_for_LAMMPS_calculator, enumerate.
  by rewrite (masses_loop_unknown w units known_prefix sp rest Hp Hsp).
Qed.

(** The builder returns only when every species is known. *)
Lemma get_params_returns name units species style params :
  outcome (_get_params_for_LAMMPS_calculator w name units species style) = inr params →
  Forall (known w) species.
Proof.
  intros Hret.
  destruct (first_unknown w species) as [Hall | (p & sp & rest & -> & Hp & Hsp)]; [done|].
  by rewrite (get_params_unknown name units style p sp rest Hp Hsp) in Hret.
Qed.

Lemma lookup_known species i sp :
  Forall (known w) species → species !! i = Some sp →
  ∃ number, atomic_numbers w !! sp = Some number.
Proof.
  intros Hall Hi. rewrite Forall_lookup in Hall. exact (Hall i sp Hi).
Qed.

(** The builder makes no external call. *)
Lemma get_params_trace name units species style :
  trace (_get_params_for_LAMMPS_calculator w name units species style) = [].
Proof.
  destruct (first_unknown w species) as [Hall | (p & sp & rest & -> & Hp & Hsp)].
  - by destruct (get_params_known name units species style Hall) as (? & ? & -> & _).
  - by rewrite (get_params_unknown name units style p sp rest Hp Hsp).
Qed.
End lammps_parameters.

(** ** Calls with keyword arguments *)

Lemma repeated_keyword_singleton (k : string) :
  repeated_keyword {[k]} = Some k.
Proof. unfold repeated_keyword. by rewrite elements_singleton. Qed.

Lemma repeated_keyword_Some (clash : gset string) (k : string) :
  repeated_keyword clash = Some k ↔ clash = {[k]}.
Proof.
  split; [|intros ->; apply repeated_keyword_singleton].
  unfold repeated_keyword. intros Hk.
  destruct (elements clash) as [|k' [|]] eqn:He; try done.
  injection Hk as ->.
  apply set_eq. intros x. rewrite <- elem_of_elements, He. set_solver.
Qed.

Lemma call_kwargs_2 (g o : gmap string pyval) :
  call_kwargs [g; o]
  = if decide (dom g ∩ dom o = (∅ : gset string)) then ret (g ∪ o)
    else raise (TypeError_multiple_values (repeated_keyword (dom g ∩ dom o))).
Proof.
  unfold call_kwargs, merge_kwargs.
  rewrite decide_True by set_solver.
  rewrite (left_id_L ∅ (∪) g).
  by destruct (decide (dom g ∩ dom o = ∅)).
Qed.

Lemma call_kwargs_3 (p g o : gmap string pyval) :
  call_kwargs [p; g; o]
  = if decide (dom p ∩ dom g = (∅ : gset string)) then
      if decide (dom (p ∪ g) ∩ dom o = (∅ : gset string)) then ret (p ∪ g ∪ o)
      else raise (TypeError_multiple_values (repeated_keyword (dom (p ∪ g) ∩ dom o)))
    else raise (TypeError_multiple_values (repeated_keyword (dom p ∩ dom g))).
Proof.
  unfold call_kwargs, merge_kwargs.
  rewrite decide_True by set_solver.
  rewrite (left_id_L ∅ (∪) p).
  destruct (decide (dom p ∩ dom g = ∅)); [|done].
  by destruct (decide (dom (p ∪ g) ∩ dom o = ∅)).
Qed.

(** ** The dispatcher, path by path *)

Section paths.
Context {Mass : Type} (w : World Mass).
Implicit Types (name : string) (simulator : option string)
  (options : option (gmap string pyval)) (debug : bool).

Lemma bind_emit_ret {A B} (ev : event) (a : A) (f : A → M B) :
  bind (run emit ev then ret a) f = run emit ev then f a.
Proof. unfold bind, emit, ret. by destruct (f a). Qed.

Lemma is_portable_eq name :
  _is_portable_model w name
  = ([EvGetItemType name],
     inr (bool_decide (get_item_type w name = collection_item_type_portableModel))).
Proof. reflexivity. Qed.

Lemma kim_pm_supported_species_eq name :
  _get_kim_pm_supported_species w name
  = ([EvConstruct (KIMModelCalculator name ∅); EvSupportedSpecies name],
     inr (get_model_supported_species_and_codes w name).1).
Proof.
  unfold _get_kim_pm_supported_species.
  by destruct (get_model_supported_species_and_codes w name).
Qed.

(** A Portable Model sent to the lammpsrun calculator. *)
Lemma KIM_pm_lammpsrun name options debug :
  get_item_type w name = collection_item_type_portableModel →
  KIM w name (Some "lammpsrun") options debug =
    run emit (EvGetItemType name) then
    run _check_conflict_options (default ∅ options)
          ["parameters"; "files"; "specorder"; "keep_tmp_files"]
          (Some "lammpsrun") then
    let! supported_species := _get_kim_pm_supported_species w name in
    let! parameters :=
      _get_params_for_LAMMPS_calculator w name "metal" supported_species None in
    let! kw :=
      call_kwargs
        [ parameters;
          {[ "specorder" := py_strs supported_species;
             "keep_tmp_files" := PBool debug ]};
          default ∅ options ] in
    construct (LAMMPS kw).
Proof.
  intros Hpm. unfold KIM, _is_portable_model. rewrite Hpm.
  rewrite bool_decide_true by done. cbv zeta.
  do 2 rewrite decide_False by done. rewrite decide_True by done.
  reflexivity.
Qed.

(** A LAMMPS Simulator Model sent to the lammpsrun calculator. *)
Lemma KIM_sm_lammpsrun name options debug :
  get_item_type w name ≠ collection_item_type_portableModel →
  simulator_name (simulator_model w name) = "LAMMPS" →
  KIM w name (Some "lammpsrun") options debug =
    run emit (EvGetItemType name) then
    run emit (EvSimulatorModel name) then
    run _check_conflict_options (default ∅ options)
          ["parameters"; "files"; "specorder"; "keep_tmp_files"]
          (Some "lammpsrun") then
    let! parameters :=
      _get_params_for_LAMMPS_calculator w name
        (supported_units (simulator_model w name))
        (supported_species (simulator_model w name))
        (atom_style (simulator_model w name)) in
    let! kw :=
      call_kwargs
        [ parameters;
          {[ "specorder" := py_strs (supported_species (simulator_model w name));
             "keep_tmp_files" := PBool debug ]} ] in
    construct (LAMMPS kw).
Proof.
  intros Hsm Hname. unfold KIM, _is_portable_model, _get_simulator_model_info.
  rewrite bool_decide_false by done. cbv zeta.
  rewrite !bind_emit_ret. cbv beta iota. rewrite Hname.
  rewrite decide_False by done. do 2 rewrite decide_True by done.
  reflexivity.
Qed.

(** A LAMMPS Simulator Model sent to the lammpslib calculator, which is
    also the default for it. *)
Lemma KIM_sm_lammpslib name simulator options debug :
  get_item_type w name ≠ collection_item_type_portableModel →
  simulator_name (simulator_model w name) = "LAMMPS" →
  simulator = None ∨ simulator = Some "lammpslib" →
  KIM w name simulator options debug =
    run emit (EvGetItemType name) then
    run emit (EvSimulatorModel name) then
    run _check_conflict_options (default ∅ options)
          ["lammps_header"; "lmpcmds"; "atom_types"; "log_file"; "keep_alive"]
          (Some "lammpslib") then
    let! kw :=
      call_kwargs
        [ {[ "lammps_header" :=
               py_strs (lammpslib_model_init w name
                          (supported_units (simulator_model w name)));
             "lammps_name" := PNone;
             "lmpcmds" :=
               py_strs (lammpslib_kim_interactions
                          (supported_species (simulator_model w name)));
             "atom_types" :=
               PDict (lammpslib_atom_types
                        (supported_species (simulator_model w name)));
             "log_file" := PStr "lammps.log";
             "keep_alive" := PBool true ]};
          default ∅ options ] in
    construct (LAMMPSlib kw).
Proof.
  intros Hsm Hname Hsim. unfold KIM, _is_portable_model, _get_simulator_model_info.
  rewrite bool_decide_false by done. cbv zeta.
  rewrite !bind_emit_ret. cbv beta iota. rewrite Hname.
  destruct Hsim as [-> | ->].
  - rewrite decide_False by done. rewrite decide_True by done.
    rewrite decide_False by done. rewrite decide_True by done.
    rewrite decide_False by done. rewrite decide_True by done.
    reflexivity.
  - rewrite decide_False by done. rewrite decide_True by done.
    rewrite decide_False by done. rewrite decide_True by done.
    reflexivity.
Qed.
(** *** What the paths return *)

Lemma check_conflict_options_cases options not_allowed simulator :
  (allowed options not_allowed
     ∧ _check_conflict_options (default ∅ options) not_allowed simulator = ([], inr tt))
  ∨ (¬ allowed options not_allowed
     ∧ ∃ msg, msg ≠ EmptyString
         ∧ _check_conflict_options (default ∅ options) not_allowed simulator
           = ([], inl (KIMCalculatorError msg))).
Proof.
  unfold allowed.
  destruct (decide (dom (default ∅ options) ∩ list_to_set not_allowed
                    = (∅ : gset string))) as [Hd|Hc].
  - left. split; [done|]. by apply check_conflict_options_disjoint.
  - right. split; [done|].
    destruct (check_conflict_options_clash _ _ simulator Hc) as (msg & -> & Hne & _).
    by exists msg.
Qed.

Lemma KIM_sm_lammpslib_inv name simulator options debug c :
  get_item_type w name ≠ collection_item_type_portableModel →
  simulator_name (simulator_model w name) = "LAMMPS" →
  simulator = None ∨ simulator = Some "lammpslib" →
  outcome (KIM w name simulator options debug) = inr c →
  allowed options lammpslib_not_allowed
  ∧ c = LAMMPSlib
          (lammpslib_kwargs w name (supported_units (simulator_model w name))
             (supported_species (simulator_model w name))
           ∪ default ∅ options).
Proof.
  intros Hsm Hname Hsim.
  rewrite (KIM_sm_lammpslib name simulator options debug Hsm Hname Hsim).
  unfold emit. run_outcome.
  destruct (check_conflict_options_cases options lammpslib_not_allowed
              (Some "lammpslib")) as [[Hok Heq] | [_ (msg & _ & Heq)]];
    unfold lammpslib_not_allowed in Heq; rewrite Heq; run_outcome; [|done].
  rewrite call_kwargs_2. case_decide; [|done].
  unfold ret. run_outcome. by intros [= <-].
Qed.

Lemma KIM_sm_lammpslib_returns name simulator options debug :
  get_item_type w name ≠ collection_item_type_portableModel →
  simulator_name (simulator_model w name) = "LAMMPS" →
  simulator = None ∨ simulator = Some "lammpslib" →
  allowed options lammpslib_not_allowed →
  "lammps_name" ∉ dom (default ∅ options) →
  ∃ kw,
    kw = lammpslib_kwargs w name (supported_units (simulator_model w name))
           (supported_species (simulator_model w name))
         ∪ default ∅ options
    ∧ KIM w name simulator options debug
      = ([EvGetItemType name; EvSimulatorModel name; EvConstruct (LAMMPSlib kw)],
         inr (LAMMPSlib kw)).
Proof.
  intros Hsm Hname Hsim Hok Hln.
  rewrite (KIM_sm_lammpslib name simulator options debug Hsm Hname Hsim).
  rewrite (check_conflict_options_disjoint _ _ _ Hok).
  rewrite call_kwargs_2. rewrite decide_True.
  - eexists. split; reflexivity.
  - unfold allowed, lammpslib_not_allowed in Hok.
    rewrite !dom_insert_L, dom_singleton_L. set_solver.
Qed.

Lemma KIM_sm_lammpsrun_inv name options debug c :
  get_item_type w name ≠ collection_item_type_portableModel →
  simulator_name (simulator_model w name) = "LAMMPS" →
  outcome (KIM w name (Some "lammpsrun") options debug) = inr c →
  allowed options lammpsrun_not_allowed
  ∧ ∃ params,
      _get_params_for_LAMMPS_calculator w name
        (supported_units (simulator_model w name))
        (supported_species (simulator_model w name))
        (atom_style (simulator_model w name)) = ([], inr params)
      ∧ c = LAMMPS (params
                    ∪ lammpsrun_kwargs (supported_species (simulator_model w name)) debug).
Proof.
  intros Hsm Hname.
  rewrite (KIM_sm_lammpsrun name options debug Hsm Hname).
  unfold emit. run_outcome.
  destruct (check_conflict_options_cases options lammpsrun_not_allowed
              (Some "lammpsrun")) as [[Hok Heq] | [_ (msg & _ & Heq)]];
    unfold lammpsrun_not_allowed in Heq; rewrite Heq; run_outcome; [|done].
  destruct (_get_params_for_LAMMPS_calculator _ _ _ _ _) as [t [e|params]] eqn:Hp;
    run_outcome; [done|].
  assert (t = []) as ->.
  { pose proof (get_params_trace w name (supported_units (simulator_model w name))
                  (supported_species (simulator_model w name))
                  (atom_style (simulator_model w name))) as Ht.
    by rewrite Hp in Ht. }
  rewrite call_kwargs_2. case_decide; [|done].
  unfold ret. run_outcome. intros [= <-]. split; [done|]. by exists params.
Qed.

Lemma KIM_pm_lammpsrun_inv name options debug c :
  get_item_type w name = collection_item_type_portableModel →
  outcome (KIM w name (Some "lammpsrun") options debug) = inr c →
  allowed options lammpsrun_not_allowed
  ∧ ∃ params,
      _get_params_for_LAMMPS_calculator w name "metal"
        (get_model_supported_species_and_codes w name).1 None = ([], inr params)
      ∧ c = LAMMPS (params
                    ∪ lammpsrun_kwargs (get_model_supported_species_and_codes w name).1 debug
                    ∪ default ∅ options).
Proof.
  intros Hpm.
  rewrite (KIM_pm_lammpsrun name options debug Hpm).
  unfold emit. run_outcome.
  destruct (check_conflict_options_cases options lammpsrun_not_allowed
              (Some "lammpsrun")) as [[Hok Heq] | [_ (msg & _ & Heq)]];
    unfold lammpsrun_not_allowed in Heq; rewrite Heq; run_outcome; [|done].
  rewrite kim_pm_supported_species_eq. run_outcome.
  destruct (_get_params_for_LAMMPS_calculator _ _ _ _ _) as [t [e|params]] eqn:Hp;
    run_outcome; [done|].
  assert (t = []) as ->.
  { pose proof (get_params_trace w name "metal"
                  (get_model_supported_species_and_codes w name).1 None) as Ht.
    by rewrite Hp in Ht. }
  rewrite call_kwargs_3.
  case_decide; [|done]. case_decide; [|done].
  unfold ret. run_outcome. intros [= <-]. split; [done|]. by exists params.
Qed.

Lemma KIM_pm_lammpsrun_returns name options debug :
  get_item_type w name = collection_item_type_portableModel →
  allowed options lammpsrun_not_allowed →
  Forall (known w) (get_model_supported_species_and_codes w name).1 →
  dom (default ∅ options) ∩ lammps_parameter_keys = ∅ →
  ∃ c, outcome (KIM w name (Some "lammpsrun") options debug) = inr c.
Proof.
  intros Hpm Hok Hall Hkeys.
  rewrite (KIM_pm_lammpsrun name options debug Hpm).
  rewrite (check_conflict_options_disjoint _ _ _ Hok).
  rewrite kim_pm_supported_species_eq.
  destruct (get_params_known w name "metal" _ None Hall)
    as (params & masses & Heq & _ & _ & _ & _ & Hdom & _).
  unfold emit. run_outcome. rewrite Heq. run_outcome.
  rewrite call_kwargs_3.
  unfold allowed, lammpsrun_not_allowed in Hok. unfold lammps_parameter_keys in *.
  rewrite decide_True.
  2: { rewrite !dom_insert_L, dom_singleton_L. set_solver. }
  rewrite decide_True.
  2: { rewrite dom_union_L, !dom_insert_L, dom_singleton_L. set_solver. }
  by eexists.
Qed.

End paths.

(** ** Species order, mass table and initialization commands *)

(** The atom types of the lammpslib calculator: later species do not
    touch the entry of an earlier one. *)
Lemma atom_types_loop_other (l : list string) (sp : string) :
  sp ∉ l →
  ∀ n (acc : gmap string pyval),
    foldl (λ atom_types '(i_s, s), <[s := PInt (Z.of_nat (i_s + 1))]> atom_types)
          acc (enumerate_from n l) !! sp
    = acc !! sp.
Proof.
  induction l as [|x l IH]; intros Hnin n acc; [done|].
  apply not_elem_of_cons in Hnin as [Hne Hnin]. simpl.
  rewrite IH by done. by rewrite lookup_insert_ne.
Qed.

Lemma atom_types_loop_lookup (l : list string) :
  NoDup l →
  ∀ n (acc : gmap string pyval) i sp, l !! i = Some sp →
    foldl (λ atom_types '(i_s, s), <[s := PInt (Z.of_nat (i_s + 1))]> atom_types)
          acc (enumerate_from n l) !! sp
    = Some (PInt (Z.of_nat (n + i + 1))).
Proof.
  induction 1 as [|x l Hnin Hnd IH]; intros n acc i sp Hi; [done|].
  destruct i as [|i]; simpl in *.
  - simplify_eq. rewrite atom_types_loop_other by done.
    rewrite lookup_insert_eq. do 3 f_equal. lia.
  - rewrite (IH (S n) _ i sp Hi). do 3 f_equal. lia.
Qed.

(** With distinct species, the species at position [i] has the atom type
    [i + 1]. *)
Lemma lammpslib_atom_types_lookup (species : list string) i sp :
  NoDup species → species !! i = Some sp →
  lammpslib_atom_types species !! sp = Some (PInt (Z.of_nat (i + 1))).
Proof.
  intros Hnd Hi. unfold lammpslib_atom_types, enumerate.
  by rewrite (atom_types_loop_lookup species Hnd 0 ∅ i sp Hi).
Qed.

Section lammps_claims.
Context {Mass : Type} (w : World Mass).
Implicit Types (name units : string) (species : list string)
  (style : option string).

(** C2.  The [kim_interactions] command of the lammpsrun parameters is
    the word kim_interactions followed by the species joined by single
    spaces, in the order of [supported_species] (and then the line
    separator); the mass table has one line per species, in the same
    order, and the line at position [i] starts with the index [i + 1] and
    carries the mass of the species at position [i]; the lammpslib
    calculator gets the same command as its only [lmpcmds] entry, and atom
    types that give the type [i + 1] to the species at position [i] when
    the species are distinct; and for a non-empty list of species without
    spaces in their symbols, cutting the command at its spaces gives the
    species back in their order. *)
Theorem species_order_preserved name units species style :
  (Forall (known w) species →
     ∃ params masses,
       _get_params_for_LAMMPS_calculator w name units species style = ([], inr params)
       ∧ params !! "kim_interactions"
           = Some (PStr ("kim_interactions " +:+ String.concat " " species +:+ linesep w))
       ∧ params !! "masses" = Some (py_strs masses)
       ∧ length masses = length species
       ∧ ∀ i sp, species !! i = Some sp →
           ∃ number, atomic_numbers w !! sp = Some number
             ∧ masses !! i = Some (str_nat (i + 1) +:+ " " +:+ massstr_of w units number))
  ∧ (∀ simulator options debug c,
       get_item_type w name ≠ collection_item_type_portableModel →
       simulator_name (simulator_model w name) = "LAMMPS" →
       supported_species (simulator_model w name) = species →
       simulator = None ∨ simulator = Some "lammpslib" →
       outcome (KIM w name simulator options debug) = inr c →
       ∃ kw atom_types, c = LAMMPSlib kw
         ∧ kw !! "lmpcmds"
             = Some (py_strs ["kim_interactions " +:+ String.concat " " species])
         ∧ kw !! "atom_types" = Some (PDict atom_types)
         ∧ (NoDup species → ∀ i sp, species !! i = Some sp →
              atom_types !! sp = Some (PInt (Z.of_nat (i + 1)))))
  ∧ (∀ simulator options debug,
       get_item_type w name ≠ collection_item_type_portableModel →
       simulator_name (simulator_model w name) = "LAMMPS" →
       supported_species (simulator_model w name) = species →
       simulator = None ∨ simulator = Some "lammpslib" →
       allowed options lammpslib_not_allowed →
       "lammps_name" ∉ dom (default ∅ options) →
       ∃ kw, outcome (KIM w name simulator options debug) = inr (LAMMPSlib kw))
  ∧ (species ≠ [] → Forall (λ sp, no_space sp = true) species →
       split_spaces ("kim_interactions " +:+ String.concat " " species)
       = "kim_interactions" :: species).
Proof.
  split_and!.
  - intros Hall.
    destruct (get_params_known w name units species style Hall)
      as (params & masses & Heq & _ & _ & Hki & Hm & _ & Hlen & Hlines).
    exists params, masses. split_and!; try done.
    intros i sp Hi. destruct (lookup_known w species i sp Hall Hi) as [number Hn].
    exists number. split; [done|]. by apply (Hlines i sp).
  - intros simulator options debug c Hsm Hname Hsp Hsim Hret.
    destruct (KIM_sm_lammpslib_inv w name simulator options debug c
                Hsm Hname Hsim Hret) as [_ ->].
    rewrite Hsp. eexists _, (lammpslib_atom_types species).
    split; [reflexivity|]. split_and!.
    + apply lookup_union_Some_l. by simplify_map_eq.
    + apply lookup_union_Some_l. by simplify_map_eq.
    + intros Hnd i sp Hi. by apply lammpslib_atom_types_lookup.
  - intros simulator options debug Hsm Hname Hsp Hsim Hok Hln.
    destruct (KIM_sm_lammpslib_returns w name simulator options debug
                Hsm Hname Hsim Hok Hln) as (kw & _ & ->).
    by exists kw.
  - intros Hne Hns. destruct species as [|sp l]; [done|].
    change ("kim_interactions " +:+ String.concat " " (sp :: l))
      with (String.concat " " ("kim_interactions" :: sp :: l)).
    apply split_spaces_concat; [done|]. by constructor.
Qed.

(** C3.  When every species is known, the line of the mass table for the
    species at position [i] is the decimal text of [i + 1], one space,
    and the text of the mass of the species converted from ASE units to
    [units]; cutting the line at its first space and reading both parts
    gives [i + 1] and, with any reader that inverts the printing of a
    mass, that converted mass.  When a species of the list is not in the
    table of atomic numbers, the builder raises the error about an
    unknown species (for the first such species of the list) and returns
    no parameters. *)
Theorem mass_table_line_roundtrip name units species style :
  (Forall (known w) species →
     ∃ params masses,
       _get_params_for_LAMMPS_calculator w name units species style = ([], inr params)
       ∧ params !! "masses" = Some (py_strs masses)
       ∧ ∀ i sp, species !! i = Some sp →
           ∃ number line,
             atomic_numbers w !! sp = Some number
             ∧ masses !! i = Some line
             ∧ line = str_nat (i + 1) +:+ " "
                      +:+ str_float w
                            (convert w (atomic_masses w number) "mass" "ASE" units)
             ∧ ∀ float_of_str : string → option Mass,
                 (∀ m, float_of_str (str_float w m) = Some m) →
                 parse_mass_line float_of_str line
                 = Some (i + 1, convert w (atomic_masses w number) "mass" "ASE" units))
  ∧ (∀ sp, sp ∈ species → atomic_numbers w !! sp = None →
       ∃ sp', sp' ∈ species ∧ atomic_numbers w !! sp' = None
         ∧ _get_params_for_LAMMPS_calculator w name units species style
           = ([], inl (KIMCalculatorError
                         ("Unknown element species " +:+ sp' +:+ ".")))).
Proof.
  split.
  - intros Hall.
    destruct (get_params_known w name units species style Hall)
      as (params & masses & Heq & _ & _ & _ & Hm & _ & _ & Hlines).
    exists params, masses. split_and!; try done.
    intros i sp Hi. destruct (lookup_known w species i sp Hall Hi) as [number Hn].
    eexists number, _. split_and!; [done | by apply (Hlines i sp) | done |].
    intros float_of_str Hinv. unfold parse_mass_line, massstr_of.
    rewrite split_first_space_app by apply no_space_str_nat.
    by rewrite int_of_str_str_nat, Hinv.
  - intros sp Hin Hsp.
    destruct (first_unknown w species) as [Hall | (p & sp' & rest & -> & Hp & Hsp')].
    + rewrite Forall_forall in Hall. destruct (Hall sp Hin) as [? ?]. congruence.
    + exists sp'. split_and!; [set_solver | done |].
      by apply get_params_unknown.
Qed.

(** C4, as the code has it.  The lammpsrun parameters hold a list
    [model_init] of one command, the kim_init command with the model name
    and the units, ended by the line separator.  The header that the
    lammpslib calculator gets has three commands: the units command
    first, the kim_init command second, the atom_modify command third. *)
Theorem kim_init_position name units species style :
  (Forall (known w) species →
     ∃ params,
       _get_params_for_LAMMPS_calculator w name units species style = ([], inr params)
       ∧ params !! "model_init"
         = Some (py_strs ["kim_init " +:+ name +:+ " " +:+ units +:+ linesep w]))
  ∧ lammpslib_model_init w name units
    = [ "units " +:+ units +:+ linesep w;
        "kim_init " +:+ name +:+ " " +:+ units +:+ linesep w;
        "atom_modify map array sort 0 0" +:+ linesep w ]
  ∧ (∀ simulator options debug c,
       get_item_type w name ≠ collection_item_type_portableModel →
       simulator_name (simulator_model w name) = "LAMMPS" →
       supported_units (simulator_model w name) = units →
       simulator = None ∨ simulator = Some "lammpslib" →
       outcome (KIM w name simulator options debug) = inr c →
       ∃ kw, c = LAMMPSlib kw
         ∧ kw !! "lammps_header" = Some (py_strs (lammpslib_model_init w name units)))
  ∧ (∀ simulator options debug,
       get_item_type w name ≠ collection_item_type_portableModel →
       simulator_name (simulator_model w name) = "LAMMPS" →
       simulator = None ∨ simulator = Some "lammpslib" →
       allowed options lammpslib_not_allowed →
       "lammps_name" ∉ dom (default ∅ options) →
       ∃ kw, outcome (KIM w name simulator options debug) = inr (LAMMPSlib kw)).
Proof.
  split_and!.
  - intros Hall.
    destruct (get_params_known w name units species style Hall)
      as (params & masses & Heq & _ & Hmi & _).
    by exists params.
  - reflexivity.
  - intros simulator options debug c Hsm Hname Hu Hsim Hret.
    destruct (KIM_sm_lammpslib_inv w name simulator options debug c
                Hsm Hname Hsim Hret) as [_ ->].
    eexists. split; [reflexivity|].
    apply lookup_union_Some_l. rewrite Hu. by simplify_map_eq.
  - intros simulator options debug Hsm Hname Hsim Hok Hln.
    destruct (KIM_sm_lammpslib_returns w name simulator options debug
                Hsm Hname Hsim Hok Hln) as (kw & _ & ->).
    by exists kw.
Qed.
End lammps_claims.

(** ** Portable Models and the store of Simulator Models *)

Lemma bind_ext {A B} (m : M A) (f g : A → M B) :
  (∀ a, f a = g a) → bind m f = bind m g.
Proof. intros H. destruct m as [t [e|a]]; simpl; [done|]. by rewrite H. Qed.

Section store.
Context {Mass : Type} (w : World Mass) (store : string → SimulatorModel).

Lemma masses_loop_ignores_store units items masses :
  masses_loop (with_simulator_model w store) units items masses
  = masses_loop w units items masses.
Proof.
  revert masses. induction items as [|[i sp] items IH]; intros masses; [done|].
  simpl. destruct (atomic_numbers w !! sp); [|done]. apply IH.
Qed.

Lemma get_params_ignores_store name units species style :
  _get_params_for_LAMMPS_calculator (with_simulator_model w store) name units species style
  = _get_params_for_LAMMPS_calculator w name units species style.
Proof.
  unfold _get_params_for_LAMMPS_calculator.
  by rewrite masses_loop_ignores_store.
Qed.

(** For a Portable Model the dispatcher does the same, whatever the store
    of Simulator Models holds. *)
Lemma KIM_portable_ignores_store name simulator options debug :
  get_item_type w name = collection_item_type_portableModel →
  KIM (with_simulator_model w store) name simulator options debug
  = KIM w name simulator options debug.
Proof.
  intros Hpm. unfold KIM, _is_portable_model.
  change (get_item_type (with_simulator_model w store) name)
    with (get_item_type w name).
  rewrite Hpm, bool_decide_true by done. cbv zeta.
  rewrite !bind_emit_ret. apply bind_ext. intros _. cbv beta iota.
  repeat case_decide; try reflexivity.
  apply bind_ext. intros _.
  change (_get_kim_pm_supported_species (with_simulator_model w store) name)
    with (_get_kim_pm_supported_species w name).
  apply bind_ext. intros species.
  by rewrite get_params_ignores_store.
Qed.
End store.

Section portable_lammpsrun.
Context {Mass : Type} (w : World Mass).

(** C10.  For a Portable Model sent to the lammpsrun calculator, whenever
    the dispatcher returns, the calculator is a LAMMPS calculator whose
    [units] are metal, whose [model_init] is the kim_init command naming
    metal, and whose mass table holds, for the species at position [i],
    the index [i + 1] and the mass converted from ASE units to metal;
    the dispatcher does return when the options pass the validator, the
    species are known and no option has the name of a parameter; and
    nothing of this depends on the store of Simulator Models. *)
Theorem pm_lammpsrun_uses_metal (name : string)
    (options : option (gmap string pyval)) (debug : bool) :
  get_item_type w name = collection_item_type_portableModel →
  (∀ c, outcome (KIM w name (Some "lammpsrun") options debug) = inr c →
     ∃ kw masses,
       c = LAMMPS kw
       ∧ kw !! "units" = Some (PStr "metal")
       ∧ kw !! "model_init"
         = Some (py_strs ["kim_init " +:+ name +:+ " " +:+ "metal" +:+ linesep w])
       ∧ kw !! "masses" = Some (py_strs masses)
       ∧ length masses = length (get_model_supported_species_and_codes w name).1
       ∧ ∀ i sp, (get_model_supported_species_and_codes w name).1 !! i = Some sp →
           ∃ number, atomic_numbers w !! sp = Some number
             ∧ masses !! i
               = Some (str_nat (i + 1) +:+ " "
                       +:+ str_float w
                             (convert w (atomic_masses w number) "mass" "ASE" "metal")))
  ∧ (allowed options lammpsrun_not_allowed →
     Forall (known w) (get_model_supported_species_and_codes w name).1 →
     dom (default ∅ options) ∩ lammps_parameter_keys = ∅ →
     ∃ c, outcome (KIM w name (Some "lammpsrun") options debug) = inr c)
  ∧ (∀ store,
       KIM (with_simulator_model w store) name (Some "lammpsrun") options debug
       = KIM w name (Some "lammpsrun") options debug).
Proof.
  intros Hpm. split_and!.
  - intros c Hret.
    destruct (KIM_pm_lammpsrun_inv w name options debug c Hpm Hret)
      as (_ & params & Hp & ->).
    assert (Forall (known w) (get_model_supported_species_and_codes w name).1) as Hall.
    { apply (get_params_returns w name "metal" _ None params). by rewrite Hp. }
    destruct (get_params_known w name "metal" _ None Hall)
      as (params' & masses & Heq & Hu & Hmi & _ & Hm & _ & Hlen & Hlines).
    rewrite Hp in Heq. simplify_eq.
    eexists _, masses. split; [reflexivity|].
    split_and!; try done; try by do 2 apply lookup_union_Some_l.
    intros i sp Hi. destruct (lookup_known w _ i sp Hall Hi) as [number Hn].
    exists number. split; [done|]. by apply (Hlines i sp).
  - by apply KIM_pm_lammpsrun_returns.
  - intros store. by apply KIM_portable_ignores_store.
Qed.
End portable_lammpsrun.

(** ** The ASAP builder for a Simulator Model *)

Section asap.
Context {Mass : Type} (w : World Mass).
Implicit Types (name units : string) (defn : list string).

(** The import comes first. *)
Lemma asap_import_fails name model_type kwargs text :
  import_asap3 w = Some text →
  _asap_calculator w name model_type kwargs
  = ([EvImportAsap3],
     inl (ImportError (text +:+ " You need to install asap3 first."))).
Proof. intros H. unfold _asap_calculator. by rewrite H. Qed.

Local Ltac asap_start H :=
  unfold _asap_calculator, sm_kwargs; rewrite H;
  cbn [kw_model_defn kw_supported_units getitem]; rewrite !bind_ret_l.

(** Then the units. *)
Lemma asap_sm_unit_mismatch name defn units :
  import_asap3 w = None → units ≠ "ase" →
  _asap_calculator w name sm (sm_kwargs defn units)
  = ([EvImportAsap3],
     inl (KIMCalculatorError
            ("KIM Simulator Model units are " +:+ dq +:+ units +:+ dq
             +:+ ", but expected to be " +:+ dq +:+ "ase" +:+ dq +:+ " for ASAP."))).
Proof.
  intros H Hu. asap_start H.
  by rewrite decide_True.
Qed.

(** Then the shape of the model definition. *)
Lemma asap_sm_empty name :
  import_asap3 w = None →
  _asap_calculator w name sm (sm_kwargs [] "ase")
  = ([EvImportAsap3],
     inl (KIMCalculatorError
            ("model-defn is an empty list in metadata file of Simulator Model "
             +:+ name))).
Proof. intros H. asap_start H. reflexivity. Qed.

Lemma asap_sm_many name defn :
  import_asap3 w = None → 1 < length defn →
  _asap_calculator w name sm (sm_kwargs defn "ase")
  = ([EvImportAsap3],
     inl (KIMCalculatorError
            ("model-defn should contain only one entry for an ASAP model (found "
             +:+ str_nat (length defn) +:+ " lines)"))).
Proof.
  intros H Hlen. asap_start H.
  rewrite (decide_False (P := "ase" ≠ "ase")) by (intros ?; done).
  rewrite (decide_False (P := length defn = 0)) by lia.
  by rewrite (decide_True (P := 1 < length defn)).
Qed.

Lemma asap_sm_empty_string name :
  import_asap3 w = None →
  _asap_calculator w name sm (sm_kwargs [EmptyString] "ase")
  = ([EvImportAsap3],
     inl (KIMCalculatorError
            ("model-defn contains an empty string in metadata file of Simulator Model "
             +:+ name))).
Proof. intros H. asap_start H. reflexivity. Qed.

(** A single non-empty line goes on to the choice of the calculator. *)
Lemma asap_sm_line name first :
  import_asap3 w = None → first ≠ EmptyString →
  _asap_calculator w name sm (sm_kwargs [first] "ase")
  = run emit EvImportAsap3 then asap_emt first.
Proof.
  intros H Hne. asap_start H.
  rewrite (decide_False (P := "ase" ≠ "ase")) by (intros ?; done).
  rewrite (decide_False (P := length [first] = 0)) by done.
  rewrite (decide_False (P := 1 < length [first])) by (simpl; lia).
  rewrite (decide_False (P := EmptyString ∈ [first]))
    by (by intros ?%list_elem_of_singleton).
  reflexivity.
Qed.

(** The choice of the calculator, case by case. *)
Lemma asap_emt_cases first :
  match emt_selection (strip first) with
  | Some parameters =>
      asap_emt first
      = ([EvConstruct (EMT parameters None)], inr (EMT parameters (Some false)))
  | None =>
      asap_emt first = ([], inl (UnboundLocalError "asap_calc"))
      ∨ asap_emt first
        = ([], inl (KIMCalculatorError
                      ("Unknown model " +:+ dq +:+ strip first +:+ dq
                       +:+ " for simulator ASAP.")))
  end.
Proof.
  unfold emt_selection, asap_emt. cbv zeta.
  destruct (startswith (strip first) "EMT"); [|by left].
  destruct (re_search_group1 (strip first)) as [pp|]; [|done].
  destruct (startswith pp "EMTRasmussenParameters"); [done|].
  destruct (startswith pp "EMTMetalGlassParameters"); [done|].
  by right.
Qed.

(** A definition is one non-empty line, or has one of three defects. *)
Lemma model_defn_shape defn :
  defn = [] ∨ 1 < length defn ∨ defn = [EmptyString]
  ∨ ∃ first, defn = [first] ∧ first ≠ EmptyString.
Proof.
  destruct defn as [|first [|second rest]]; [by left | | right; left; simpl; lia].
  destruct (decide (first = EmptyString)) as [->|Hne].
  - right; right; by left.
  - right; right; right. by exists first.
Qed.

Lemma asap_emt_not_malformed name defn first e :
  outcome (asap_emt first) = inl e → ¬ malformed_model_defn_error name defn e.
Proof.
  intros He Hm. pose proof (asap_emt_cases first) as Hc.
  destruct (emt_selection (strip first)); [by rewrite Hc in He|].
  destruct Hc as [Hc|Hc]; rewrite Hc in He; simpl in He; simplify_eq;
    by destruct Hm as [?|[?|?]].
Qed.

Lemma asap_emt_not_unit_mismatch units first e :
  outcome (asap_emt first) = inl e → ¬ unit_mismatch_error units e.
Proof.
  intros He Hm. pose proof (asap_emt_cases first) as Hc.
  destruct (emt_selection (strip first)); [by rewrite Hc in He|].
  destruct Hc as [Hc|Hc]; rewrite Hc in He; simpl in He; simplify_eq; done.
Qed.

(** C6, as the code has it.  When asap3 is imported and the units of the
    model are ase: a model definition with no line, with more than one
    line or with an empty line makes the builder fail with one of the
    three errors about the model definition, having constructed
    nothing; and a definition of exactly one non-empty line passes the
    check: the builder goes on to choose the calculator for that line
    and, if it fails, does not fail with one of those errors. *)
Theorem asap_model_defn_check name defn :
  import_asap3 w = None →
  ((defn = [] ∨ 1 < length defn ∨ EmptyString ∈ defn) →
     ∃ e, _asap_calculator w name sm (sm_kwargs defn "ase") = ([EvImportAsap3], inl e)
       ∧ malformed_model_defn_error name defn e
       ∧ constructs_nothing (_asap_calculator w name sm (sm_kwargs defn "ase")))
  ∧ (∀ first, defn = [first] → first ≠ EmptyString →
       _asap_calculator w name sm (sm_kwargs defn "ase")
         = (run emit EvImportAsap3 then asap_emt first)
       ∧ ¬ ∃ e, outcome (_asap_calculator w name sm (sm_kwargs defn "ase")) = inl e
                ∧ malformed_model_defn_error name defn e)
  ∧ ((∃ e, outcome (_asap_calculator w name sm (sm_kwargs defn "ase")) = inl e
           ∧ malformed_model_defn_error name defn e)
     ↔ ¬ ∃ first, defn = [first] ∧ first ≠ EmptyString).
Proof.
  intros Himp.
  assert (∀ first, defn = [first] → first ≠ EmptyString →
            ¬ ∃ e, outcome (_asap_calculator w name sm (sm_kwargs defn "ase")) = inl e
                   ∧ malformed_model_defn_error name defn e) as Hpass.
  { intros first -> Hne (e & He & Hm).
    rewrite (asap_sm_line name first Himp Hne) in He.
    unfold emit in He. run_outcome_in He.
    by apply (asap_emt_not_malformed name [first] first e). }
  assert ((¬ ∃ first, defn = [first] ∧ first ≠ EmptyString) →
            ∃ e, _asap_calculator w name sm (sm_kwargs defn "ase")
                 = ([EvImportAsap3], inl e)
              ∧ malformed_model_defn_error name defn e
              ∧ constructs_nothing (_asap_calculator w name sm (sm_kwargs defn "ase")))
    as Hfail.
  { intros Hno.
    destruct (model_defn_shape defn) as [-> | [Hlen | [-> | Hone]]]; [| | |done].
    - rewrite (asap_sm_empty name Himp). eexists. split_and!; [done|by left|].
      by repeat constructor.
    - rewrite (asap_sm_many name defn Himp Hlen). eexists.
      split_and!; [done|by right; left|]. by repeat constructor.
    - rewrite (asap_sm_empty_string name Himp). eexists.
      split_and!; [done|by right; right|]. by repeat constructor. }
  split_and!.
  - intros Hbad. apply Hfail. intros (first & -> & Hne).
    destruct Hbad as [? | [Hlen | Hin]]; [done | simpl in Hlen; lia |].
    by apply list_elem_of_singleton in Hin.
  - intros first Hd Hne. split; [|by apply (Hpass first)].
    subst defn. by apply asap_sm_line.
  - split.
    + intros Hm (first & Hd & Hne). by apply (Hpass first Hd Hne).
    + intros Hno. destruct (Hfail Hno) as (e & Heq & Hm & _).
      exists e. by rewrite Heq.
Qed.

(** C7, as the code has it.  When asap3 is imported: with units other
    than ase the builder fails with the error about the units, having
    constructed nothing; with the units ase it never fails with that
    error, and it returns an EMT calculator, with the energy of an
    isolated atom as zero, whenever the model definition is one
    non-empty line that selects the default parameters or one of the two
    known parameter sets. *)
Theorem asap_unit_check name defn units :
  import_asap3 w = None →
  (units ≠ "ase" →
     ∃ e, _asap_calculator w name sm (sm_kwargs defn units) = ([EvImportAsap3], inl e)
       ∧ unit_mismatch_error units e
       ∧ constructs_nothing (_asap_calculator w name sm (sm_kwargs defn units)))
  ∧ (units = "ase" →
       (¬ ∃ e, outcome (_asap_calculator w name sm (sm_kwargs defn units)) = inl e
               ∧ unit_mismatch_error units e)
       ∧ ∀ first parameters,
           defn = [first] → first ≠ EmptyString →
           emt_selection (strip first) = Some parameters →
           _asap_calculator w name sm (sm_kwargs defn units)
           = ([EvImportAsap3; EvConstruct (EMT parameters None)],
              inr (EMT parameters (Some false)))).
Proof.
  intros Himp. split.
  - intros Hu. rewrite (asap_sm_unit_mismatch name defn units Himp Hu).
    eexists. split_and!; [done|done|]. by repeat constructor.
  - intros ->. split.
    + intros (e & He & Hm).
      destruct (model_defn_shape defn) as [-> | [Hlen | [-> | (first & -> & Hne)]]].
      * rewrite (asap_sm_empty name Himp) in He. simpl in He. by simplify_eq.
      * rewrite (asap_sm_many name defn Himp Hlen) in He. simpl in He. by simplify_eq.
      * rewrite (asap_sm_empty_string name Himp) in He. simpl in He. by simplify_eq.
      * rewrite (asap_sm_line name first Himp Hne) in He.
        unfold emit in He. run_outcome_in He.
        by apply (asap_emt_not_unit_mismatch "ase" first e).
    + intros first parameters -> Hne Hsel.
      rewrite (asap_sm_line name first Himp Hne).
      pose proof (asap_emt_cases first) as Hc. rewrite Hsel in Hc.
      by rewrite Hc.
Qed.
End asap.

(** ** Traces and failures, step by step *)

Section steps.
Context (P : event → Prop) (Q : exn → Prop).

Lemma trace_all_nil {A} (m : M A) : trace m = [] → trace_all P m.
Proof. unfold trace_all. intros ->. constructor. Qed.

Lemma trace_all_emit (ev : event) : P ev → trace_all P (emit ev).
Proof. intros H. by repeat constructor. Qed.

Lemma trace_all_construct (c : calculator) :
  P (EvConstruct c) → trace_all P (construct c).
Proof. intros H. by repeat constructor. Qed.

Lemma trace_all_bind {A B} (m : M A) (f : A → M B) :
  trace_all P m → (∀ a, outcome m = inr a → trace_all P (f a)) →
  trace_all P (bind m f).
Proof.
  unfold trace_all. intros Hm Hf. rewrite trace_bind.
  destruct (outcome m) as [e|a]; [done|].
  apply Forall_app. split; [done|]. by apply Hf.
Qed.

Lemma fails_only_ret {A} (a : A) : fails_only Q (ret a).
Proof. by intros e. Qed.

Lemma fails_only_raise {A} (e : exn) : Q e → fails_only Q (raise e : M A).
Proof. intros H e' [= <-]. done. Qed.

Lemma fails_only_emit (ev : event) : fails_only Q (emit ev).
Proof. by intros e. Qed.

Lemma fails_only_construct (c : calculator) : fails_only Q (construct c).
Proof. by intros e. Qed.

Lemma fails_only_bind {A B} (m : M A) (f : A → M B) :
  fails_only Q m → (∀ a, fails_only Q (f a)) → fails_only Q (bind m f).
Proof.
  unfold fails_only. intros Hm Hf e. rewrite outcome_bind.
  destruct (outcome m) as [e'|a] eqn:E.
  - intros [= <-]. by apply Hm.
  - apply Hf.
Qed.

Lemma fails_only_getitem {A} (field : option A) (key : string) :
  Q (KeyError key) → fails_only Q (getitem field key).
Proof. intros H. destruct field; [apply fails_only_ret | by apply fails_only_raise]. Qed.

Lemma fails_only_call_kwargs (groups : list (gmap string pyval)) :
  (∀ keys, Q (TypeError_multiple_values keys)) → fails_only Q (call_kwargs groups).
Proof.
  intros H. unfold call_kwargs.
  assert (∀ acc e, merge_kwargs acc groups = inl e →
            ∃ keys, e = TypeError_multiple_values keys) as Hm.
  { induction groups as [|g rest IH]; intros acc e; simpl; [done|].
    case_decide; [apply IH|]. intros [= <-]. by eexists. }
  destruct (merge_kwargs ∅ groups) as [e|kw] eqn:E; [|apply fails_only_ret].
  destruct (Hm _ _ E) as [keys ->]. by apply fails_only_raise.
Qed.

Lemma fails_only_check_conflict_options options not_allowed simulator :
  (∀ msg, msg ≠ EmptyString → Q (KIMCalculatorError msg)) →
  fails_only Q (_check_conflict_options (default ∅ options) not_allowed simulator).
Proof.
  intros H.
  destruct (check_conflict_options_cases options not_allowed simulator)
    as [[_ ->] | [_ (msg & Hne & ->)]]; [apply fails_only_ret|].
  apply fails_only_raise. by apply H.
Qed.

Lemma fails_only_get_params {Mass} (w : World Mass) name units species style :
  (∀ msg, msg ≠ EmptyString → Q (KIMCalculatorError msg)) →
  fails_only Q (_get_params_for_LAMMPS_calculator w name units species style).
Proof.
  intros H.
  destruct (first_unknown w species) as [Hall | (p & sp & rest & -> & Hp & Hsp)].
  - destruct (get_params_known w name units species style Hall) as (? & ? & -> & _).
    apply fails_only_ret.
  - rewrite (get_params_unknown w name units style p sp rest Hp Hsp).
    apply fails_only_raise. by apply H.
Qed.

Lemma trace_check_conflict_options options not_allowed simulator :
  trace (_check_conflict_options options not_allowed simulator) = [].
Proof. unfold _check_conflict_options. by case_decide. Qed.

Lemma trace_call_kwargs (groups : list (gmap string pyval)) :
  trace (call_kwargs groups) = [].
Proof. unfold call_kwargs. by destruct (merge_kwargs ∅ groups). Qed.

Lemma trace_getitem {A} (field : option A) (key : string) :
  trace (getitem field key) = [].
Proof. by destruct field. Qed.
End steps.

(** Take a run apart at its binds and branches; [tac] closes the steps
    that have a lemma of their own. *)
Ltac trace_steps_with tac :=
  repeat first
    [ tac
    | apply trace_all_nil;
        first [ reflexivity | apply trace_check_conflict_options
              | apply trace_call_kwargs | apply trace_getitem
              | apply get_params_trace ]
    | apply trace_all_construct
    | apply trace_all_emit
    | apply trace_all_bind; [|intros ? _]
    | match goal with
      | |- trace_all _ (if ?c then _ else _) => destruct c
      | |- trace_all _ (match ?x with _ => _ end) => destruct x
      end ].
Ltac trace_steps := trace_steps_with fail.

Ltac failure_steps_with tac :=
  repeat first
    [ tac
    | apply fails_only_ret
    | apply fails_only_emit
    | apply fails_only_construct
    | apply fails_only_getitem
    | apply fails_only_call_kwargs
    | apply fails_only_check_conflict_options
    | apply fails_only_get_params
    | apply fails_only_bind; [|intros ?]
    | match goal with
      | |- fails_only _ (if ?c then _ else _) => destruct c
      | |- fails_only _ (match ?x with _ => _ end) => destruct x eqn:?
      end ].
Ltac failure_steps := failure_steps_with fail.

(** Close what the steps leave: the exceptions of the runtime are not
    raised by the module, and the raised ones carry a message. *)
Ltac failure_leaves :=
  first
    [ done
    | by (intros msg ? _; left; exists msg)
    | apply fails_only_raise;
      first [ done
            | by (intros _; left; eexists; split; [reflexivity|done])
            | by (intros _; right; eexists; split; [eassumption|reflexivity]) ] ].

Section asap_steps.
Context {Mass : Type} (w : World Mass).

Lemma trace_all_asap_calculator (P : event → Prop) name model_type kwargs :
  P EvImportAsap3 → (∀ c, P (EvConstruct c)) →
  trace_all P (_asap_calculator w name model_type kwargs).
Proof.
  intros Himp Hc. unfold _asap_calculator. trace_steps; done.
Qed.

(** The failures of the builder that come from a [raise] statement are a
    KIMCalculatorError with a message or the ImportError about asap3. *)
Lemma fails_only_asap_calculator name model_type kwargs :
  fails_only (λ e, raised_by_module e = true → descriptive w e)
    (_asap_calculator w name model_type kwargs).
Proof.
  unfold _asap_calculator. failure_steps; unfold descriptive; failure_leaves.
Qed.
End asap_steps.

(** ** The dispatcher as a whole *)

Section dispatcher.
Context {Mass : Type} (w : World Mass).
Implicit Types (name : string) (simulator : option string)
  (options : option (gmap string pyval)) (debug : bool).

Lemma KIM_fails_only name simulator options debug :
  fails_only (λ e, raised_by_module e = true → descriptive w e)
    (KIM w name simulator options debug).
Proof.
  unfold KIM, _is_portable_model, _get_simulator_model_info,
    _get_kim_pm_supported_species.
  cbv zeta.
  failure_steps_with ltac:(apply fails_only_asap_calculator);
    unfold descriptive; failure_leaves.
Qed.

Lemma KIM_portable_trace name simulator options debug :
  get_item_type w name = collection_item_type_portableModel →
  no_metadata_extraction (KIM w name simulator options debug).
Proof.
  intros Hpm. unfold no_metadata_extraction, KIM. cbv zeta.
  apply trace_all_bind.
  { unfold _is_portable_model. trace_steps; done. }
  intros portable Hp. rewrite is_portable_eq, outcome_pair in Hp.
  rewrite bool_decide_true in Hp by done. simplify_eq.
  unfold _get_kim_pm_supported_species.
  trace_steps_with ltac:(apply trace_all_asap_calculator); done.
Qed.

(** C9.  For a Portable Model, whatever the simulator argument, the
    dispatcher never reads the metadata of a Simulator Model, and what it
    does (its external calls and its result or error) is the same for
    every content of the store of Simulator Models. *)
Theorem portable_never_extracts_metadata name simulator options debug :
  get_item_type w name = collection_item_type_portableModel →
  no_metadata_extraction (KIM w name simulator options debug)
  ∧ ∀ store,
      KIM (with_simulator_model w store) name simulator options debug
      = KIM w name simulator options debug.
Proof.
  intros Hpm. split; [by apply KIM_portable_trace|].
  intros store. by apply KIM_portable_ignores_store.
Qed.
End dispatcher.

(** ** Options on the way to the calculator *)

(** For a LAMMPS Simulator Model sent to the lammpsrun calculator, options
    that pass the validator change nothing: the calculator is built as if
    no option had been given. *)
Lemma KIM_sm_lammpsrun_ignores_options {Mass} (w : World Mass) name options debug :
  get_item_type w name ≠ collection_item_type_portableModel →
  simulator_name (simulator_model w name) = "LAMMPS" →
  allowed options lammpsrun_not_allowed →
  KIM w name (Some "lammpsrun") options debug
  = KIM w name (Some "lammpsrun") None debug.
Proof.
  intros Hsm Hname Hok. rewrite !KIM_sm_lammpsrun by done.
  rewrite (check_conflict_options_disjoint _ _ _ Hok).
  by rewrite check_conflict_options_disjoint by set_solver.
Qed.

(** C5, at a failing input.  The option [tmp_dir] passes the validator of
    the lammpsrun calculator.  Given for a LAMMPS Simulator Model, it is
    not among the keyword arguments of the LAMMPS calculator that the
    dispatcher returns; given for a Portable Model, it is. *)
Theorem sm_lammpsrun_options_not_passed :
  allowed (Some {[ "tmp_dir" := PStr "scratch" ]}) lammpsrun_not_allowed
  ∧ (∃ kw,
       outcome (KIM (example_world None) example_lammps_sm (Some "lammpsrun")
                  (Some {[ "tmp_dir" := PStr "scratch" ]}) false)
       = inr (LAMMPS kw)
       ∧ kw !! "tmp_dir" = None)
  ∧ (∃ kw,
       outcome (KIM (example_world None) example_pm (Some "lammpsrun")
                  (Some {[ "tmp_dir" := PStr "scratch" ]}) false)
       = inr (LAMMPS kw)
       ∧ kw !! "tmp_dir" = Some (PStr "scratch")).
Proof.
  split_and!.
  - by vm_compute.
  - match goal with
    | |- ∃ kw, ?r = _ ∧ _ =>
        let v := eval vm_compute in r in
        match v with inr (LAMMPS ?kw) => exists kw end
    end.
    split; by vm_compute.
  - match goal with
    | |- ∃ kw, ?r = _ ∧ _ =>
        let v := eval vm_compute in r in
        match v with inr (LAMMPS ?kw) => exists kw end
    end.
    split; by vm_compute.
Qed.

(** * Examples *)

(** Evaluate the outcome of a run and give its calculator as the witness. *)
Ltac exists_outcome :=
  match goal with
  | |- ∃ kw, ?r = _ ∧ _ =>
      let v := eval vm_compute in r in
      match v with
      | inr (LAMMPS ?kw) => exists kw
      | inr (LAMMPSlib ?kw) => exists kw
      | inl ?e => exists e
      end
  end.

(** The header of the lammpslib calculator starts with the units command,
    not with the kim_init command. *)
Lemma lammpslib_header_starts_with_units :
  ∃ kw,
    outcome (KIM (example_world None) example_lammps_sm None None false)
    = inr (LAMMPSlib kw)
    ∧ ∃ first rest,
        kw !! "lammps_header" = Some (py_strs (first :: rest))
        ∧ first = "units metal" +:+ linesep (example_world None)
        ∧ first ≠ "kim_init " +:+ example_lammps_sm +:+ " metal"
                  +:+ linesep (example_world None).
Proof.
  exists_outcome. split; [by vm_compute|].
  exists ("units metal" +:+ linesep (example_world None)),
    ["kim_init " +:+ example_lammps_sm +:+ " metal" +:+ linesep (example_world None);
     "atom_modify map array sort 0 0" +:+ linesep (example_world None)].
  split_and!; by vm_compute.
Qed.

(** With units other than ase, an empty model definition is answered with
    the error about the units; and without asap3, with the ImportError. *)
Lemma asap_empty_defn_other_errors :
  (∃ e,
     outcome (_asap_calculator (example_world None) example_asap_sm sm
                (sm_kwargs [] "metal")) = inl e
     ∧ unit_mismatch_error "metal" e
     ∧ ¬ malformed_model_defn_error example_asap_sm [] e)
  ∧ (∃ e,
       outcome (_asap_calculator (example_world (Some "No module named 'asap3'."))
                  example_asap_sm sm (sm_kwargs [] "ase")) = inl e
       ∧ e = ImportError "No module named 'asap3'. You need to install asap3 first."
       ∧ ¬ malformed_model_defn_error example_asap_sm [] e).
Proof.
  split.
  - exists_outcome. split_and!; [by vm_compute | by vm_compute |].
    intros [H|[H|H]]; vm_compute in H; discriminate H.
  - exists_outcome. split_and!; [by vm_compute | by vm_compute |].
    intros [H|[H|H]]; discriminate H.
Qed.

(** Without asap3, units other than ase are answered with the ImportError,
    not with the error about the units. *)
Lemma asap_units_without_asap3 :
  ∃ e,
    outcome (_asap_calculator (example_world (Some "No module named 'asap3'."))
               example_asap_sm sm (sm_kwargs ["EMT"] "metal")) = inl e
    ∧ e = ImportError "No module named 'asap3'. You need to install asap3 first."
    ∧ ¬ unit_mismatch_error "metal" e.
Proof.
  exists_outcome. split_and!; [by vm_compute | by vm_compute |].
  intros H. discriminate H.
Qed.

(** Without asap3, sending a Portable Model to the asap calculator fails
    with an ImportError, which is not a KIMCalculatorError. *)
Lemma missing_asap3_is_import_error :
  ∃ e,
    outcome (KIM (example_world (Some "No module named 'asap3'.")) example_pm
               (Some "asap") None false) = inl e
    ∧ e = ImportError "No module named 'asap3'. You need to install asap3 first."
    ∧ ∀ msg, e ≠ KIMCalculatorError msg.
Proof.
  exists_outcome. split_and!; [by vm_compute | by vm_compute |].
  intros msg H. discriminate H.
Qed.

(** An ASAP Simulator Model whose definition does not start with EMT ends
    in an UnboundLocalError. *)
Lemma asap_other_definition_unbound :
  outcome (_asap_calculator (example_world None) example_asap_sm sm
             (sm_kwargs ["LennardJones(1.0, 1.0)"] "ase"))
  = inl (UnboundLocalError "asap_calc").
Proof. by vm_compute. Qed.

(** The no-break space and the next-line control are white space for
    [strip]: a definition that starts with one of them before EMT selects
    EMT like any other. *)
Lemma asap_latin1_space_before_emt :
  strip (String "160"%char ("EMT" +:+ String "133"%char EmptyString)) = "EMT"
  ∧ outcome (_asap_calculator (example_world None) example_asap_sm sm
               (sm_kwargs [String "160"%char "EMT"] "ase"))
    = inr (EMT None (Some false)).
Proof. split; by vm_compute. Qed.

(** An option with the name of a parameter of the lammpsrun calculator
    passes the validator and ends in a TypeError. *)
Lemma units_option_is_type_error :
  allowed (Some {[ "units" := PStr "real" ]}) lammpsrun_not_allowed
  ∧ outcome (KIM (example_world None) example_pm (Some "lammpsrun")
               (Some {[ "units" := PStr "real" ]}) false)
    = inl (TypeError_multiple_values (Some "units")).
Proof. split; by vm_compute. Qed.

(** ** The theorems at concrete inputs *)

Lemma example_species_known :
  Forall (known (example_world None)) ["Al"; "Ni"].
Proof. repeat constructor; by eexists. Qed.

Lemma check_conflict_options_spec_witness :
  ∃ msg,
    _check_conflict_options {[ "debug" := PBool true ]} ["modelname"; "debug"]
      (Some "kimmodel")
    = ([], inl (KIMCalculatorError msg))
    ∧ substring_of (dq +:+ "debug" +:+ dq) msg.
Proof.
  destruct (check_conflict_options_spec {[ "debug" := PBool true ]}
              ["modelname"; "debug"] (Some "kimmodel"))
    as (Hiff & Hmsg & _ & Htrace).
  assert ("debug" ∈ dom ({[ "debug" := PBool true ]} : gmap string pyval)) as HO
    by (by vm_compute).
  assert ("debug" ∈ ["modelname"; "debug"]) as HD by (by repeat constructor).
  destruct (proj2 Hiff) as [e He]; [by exists "debug"|].
  destruct (Hmsg e He) as (msg & -> & Hsub).
  exists msg. split; [|by apply Hsub].
  destruct (_check_conflict_options _ _ _) as [t r]. simpl in *. by subst.
Defined.

Lemma species_order_preserved_witness :
  (∃ params masses,
     _get_params_for_LAMMPS_calculator (example_world None) example_lammps_sm
       "metal" ["Al"; "Ni"] None = ([], inr params)
     ∧ params !! "masses" = Some (py_strs masses)
     ∧ length masses = 2)
  ∧ split_spaces ("kim_interactions " +:+ String.concat " " ["Al"; "Ni"])
    = ["kim_interactions"; "Al"; "Ni"].
Proof.
  destruct (species_order_preserved (example_world None) example_lammps_sm
              "metal" ["Al"; "Ni"] None) as (Hrun & _ & _ & Hsplit).
  split.
  - destruct (Hrun example_species_known) as (params & masses & Heq & _ & Hm & Hlen & _).
    by exists params, masses.
  - apply Hsplit; [done|]. by repeat constructor.
Defined.

Lemma mass_table_line_roundtrip_witness :
  ∃ params masses line,
    _get_params_for_LAMMPS_calculator (example_world None) example_lammps_sm
      "metal" ["Al"; "Ni"] None = ([], inr params)
    ∧ params !! "masses" = Some (py_strs masses)
    ∧ masses !! 1 = Some line
    ∧ line = "2 58.6934"
    ∧ parse_mass_line Some line = Some (2, "58.6934").
Proof.
  destruct (mass_table_line_roundtrip (example_world None) example_lammps_sm
              "metal" ["Al"; "Ni"] None) as (Hrun & _).
  destruct (Hrun example_species_known) as (params & masses & Heq & Hm & Hlines).
  destruct (Hlines 1 "Ni" eq_refl) as (number & line & Hn & Hl & Hline & Hparse).
  vm_compute in Hn. injection Hn as <-.
  exists params, masses, line. split_and!; try done.
  by rewrite (Hparse Some (λ m, eq_refl)).
Defined.

Lemma kim_init_position_witness :
  (∃ params,
     _get_params_for_LAMMPS_calculator (example_world None) example_lammps_sm
       "metal" ["Al"; "Ni"] None = ([], inr params)
     ∧ params !! "model_init"
       = Some (py_strs ["kim_init " +:+ example_lammps_sm +:+ " metal"
                        +:+ linesep (example_world None)]))
  ∧ lammpslib_model_init (example_world None) example_lammps_sm "metal" !! 1
    = Some ("kim_init " +:+ example_lammps_sm +:+ " metal"
            +:+ linesep (example_world None)).
Proof.
  destruct (kim_init_position (example_world None) example_lammps_sm
              "metal" ["Al"; "Ni"] None) as (Hrun & Hheader & _).
  split.
  - destruct (Hrun example_species_known) as (params & Heq & Hmi). by exists params.
  - by rewrite Hheader.
Defined.

Lemma asap_model_defn_check_witness :
  (∃ e,
     _asap_calculator (example_world None) example_asap_sm sm (sm_kwargs [] "ase")
     = ([EvImportAsap3], inl e)
     ∧ malformed_model_defn_error example_asap_sm [] e)
  ∧ _asap_calculator (example_world None) example_asap_sm sm
      (sm_kwargs ["EMT(EMTRasmussenParameters())"] "ase")
    = ([EvImportAsap3; EvConstruct (EMT (Some EMTRasmussenParameters) None)],
       inr (EMT (Some EMTRasmussenParameters) (Some false))).
Proof.
  split.
  - destruct (asap_model_defn_check (example_world None) example_asap_sm []
                eq_refl) as (Hbad & _).
    destruct Hbad as (e & Heq & Hm & _); [by left|]. by exists e.
  - destruct (asap_model_defn_check (example_world None) example_asap_sm
                ["EMT(EMTRasmussenParameters())"] eq_refl) as (_ & Hgood & _).
    destruct (Hgood "EMT(EMTRasmussenParameters())" eq_refl) as [-> _]; [done|].
    by vm_compute.
Defined.

Lemma asap_unit_check_witness :
  (∃ e,
     _asap_calculator (example_world None) example_asap_sm sm
       (sm_kwargs ["EMT"] "metal") = ([EvImportAsap3], inl e)
     ∧ unit_mismatch_error "metal" e)
  ∧ _asap_calculator (example_world None) example_asap_sm sm (sm_kwargs ["EMT"] "ase")
    = ([EvImportAsap3; EvConstruct (EMT None None)], inr (EMT None (Some false))).
Proof.
  split.
  - destruct (asap_unit_check (example_world None) example_asap_sm ["EMT"] "metal"
                eq_refl) as (Hbad & _).
    destruct Hbad as (e & Heq & Hm & _); [done|]. by exists e.
  - destruct (asap_unit_check (example_world None) example_asap_sm ["EMT"] "ase"
                eq_refl) as (_ & Hgood).
    destruct (Hgood eq_refl) as (_ & Hemt).
    by apply (Hemt "EMT" None).
Defined.

Lemma portable_never_extracts_metadata_witness :
  no_metadata_extraction (KIM (example_world None) example_pm None None false)
  ∧ KIM (with_simulator_model (example_world None)
           (λ _, {| simulator_name := "ASAP"; supported_species := [];
                    supported_units := "ase"; atom_style := None;
                    model_defn := [] |}))
        example_pm None None false
    = KIM (example_world None) example_pm None None false.
Proof.
  destruct (portable_never_extracts_metadata (example_world None) example_pm
              None None false eq_refl) as [Htrace Hstore].
  split; [done|]. apply Hstore.
Defined.

Lemma pm_lammpsrun_uses_metal_witness :
  ∃ kw,
    outcome (KIM (example_world None) example_pm (Some "lammpsrun") None false)
    = inr (LAMMPS kw)
    ∧ kw !! "units" = Some (PStr "metal").
Proof.
  destruct (pm_lammpsrun_uses_metal (example_world None) example_pm None false
              eq_refl) as (Hshape & Hret & _).
  destruct Hret as [c Hc].
  - by vm_compute.
  - apply example_species_known.
  - by vm_compute.
  - destruct (Hshape c Hc) as (kw & masses & -> & Hu & _). by exists kw.
Defined.

(** * Further properties of the dispatcher *)

(** ** The remaining paths *)

Section more_paths.
Context {Mass : Type} (w : World Mass).
Implicit Types (name : string) (simulator : option string)
  (options : option (gmap string pyval)) (debug : bool).

(** A Portable Model sent to the kimmodel calculator, its default. *)
Lemma KIM_pm_kimmodel name simulator options debug :
  get_item_type w name = collection_item_type_portableModel →
  simulator = None ∨ simulator = Some "kimmodel" →
  KIM w name simulator options debug =
    run emit (EvGetItemType name) then
    run _check_conflict_options (default ∅ options) kimmodel_not_allowed
          (Some "kimmodel") then
    let! kw := call_kwargs [ {[ "debug" := PBool debug ]}; default ∅ options ] in
    construct (KIMModelCalculator name kw).
Proof.
  intros Hpm Hsim. unfold KIM, _is_portable_model. rewrite Hpm.
  rewrite bool_decide_true by done. cbv zeta.
  destruct Hsim as [-> | ->]; rewrite decide_True by done; reflexivity.
Qed.

(** A Portable Model sent to the asap calculator. *)
Lemma KIM_pm_asap name options debug :
  get_item_type w name = collection_item_type_portableModel →
  KIM w name (Some "asap") options debug =
    run emit (EvGetItemType name) then
    run _check_conflict_options (default ∅ options) asap_kimpm_not_allowed
          (Some "asap") then
    _asap_calculator w name pm
      {| kw_verbose := Some debug; kw_options := Some (default ∅ options);
         kw_model_defn := None; kw_supported_units := None |}.
Proof.
  intros Hpm. unfold KIM, _is_portable_model. rewrite Hpm.
  rewrite bool_decide_true by done. cbv zeta.
  rewrite decide_False by done. rewrite decide_True by done. reflexivity.
Qed.

(** A Portable Model sent to any other simulator. *)
Lemma KIM_pm_other name s options debug :
  get_item_type w name = collection_item_type_portableModel →
  s ≠ "kimmodel" → s ≠ "asap" → s ≠ "lammpsrun" →
  KIM w name (Some s) options debug =
    run emit (EvGetItemType name) then
    if decide (s = "lammpslib") then
      raise (KIMCalculatorError
        (dq +:+ "lammpslib" +:+ dq
         +:+ " calculator does not support KIM Portable Models. Try using the "
         +:+ dq +:+ "lammpsrun" +:+ dq +:+ " calculator."))
    else
      raise (KIMCalculatorError
        ("Unsupported simulator " +:+ dq +:+ s +:+ dq
         +:+ " requested to run KIM Portable Model.")).
Proof.
  intros Hpm H1 H2 H3. unfold KIM, _is_portable_model. rewrite Hpm.
  rewrite bool_decide_true by done. cbv zeta.
  rewrite (decide_False (P := Some s = Some "kimmodel")) by congruence.
  rewrite (decide_False (P := Some s = Some "asap")) by congruence.
  rewrite (decide_False (P := Some s = Some "lammpsrun")) by congruence.
  destruct (decide (s = "lammpslib")) as [-> | Hne].
  - rewrite decide_True by done. reflexivity.
  - rewrite (decide_False (P := Some s = Some "lammpslib")) by congruence.
    reflexivity.
Qed.

(** A Simulator Model, as far as the branch on its simulator name. *)
Lemma KIM_sm_asap name simulator options debug :
  get_item_type w name ≠ collection_item_type_portableModel →
  simulator_name (simulator_model w name) = "ASAP" →
  KIM w name simulator options debug =
    run emit (EvGetItemType name) then
    run emit (EvSimulatorModel name) then
    run _check_conflict_options (default ∅ options) asap_kimsm_not_allowed
          (match simulator with None => Some "asap" | Some _ => simulator end) then
    _asap_calculator w name sm
      (sm_kwargs (model_defn (simulator_model w name))
         (supported_units (simulator_model w name))).
Proof.
  intros Hsm Hname. unfold KIM, _is_portable_model, _get_simulator_model_info.
  rewrite bool_decide_false by done. cbv zeta.
  rewrite !bind_emit_ret. cbv beta iota. rewrite Hname.
  rewrite !(decide_True (P := "ASAP" = "ASAP")) by done.
  reflexivity.
Qed.

Lemma KIM_sm_lammps_other name s options debug :
  get_item_type w name ≠ collection_item_type_portableModel →
  simulator_name (simulator_model w name) = "LAMMPS" →
  s ≠ "lammpsrun" → s ≠ "lammpslib" →
  KIM w name (Some s) options debug =
    run emit (EvGetItemType name) then
    run emit (EvSimulatorModel name) then
    raise (KIMCalculatorError
      ("Unknown LAMMPS calculator: " +:+ dq +:+ s +:+ dq +:+ ".")).
Proof.
  intros Hsm Hname H1 H2. unfold KIM, _is_portable_model, _get_simulator_model_info.
  rewrite bool_decide_false by done. cbv zeta.
  rewrite !bind_emit_ret. cbv beta iota. rewrite Hname.
  rewrite (decide_False (P := "LAMMPS" = "ASAP")) by done.
  rewrite (decide_True (P := "LAMMPS" = "LAMMPS")) by done.
  rewrite (decide_False (P := Some s = Some "lammpsrun")) by congruence.
  rewrite (decide_False (P := Some s = Some "lammpslib")) by congruence.
  reflexivity.
Qed.

Lemma KIM_sm_other name simulator options debug :
  get_item_type w name ≠ collection_item_type_portableModel →
  simulator_name (simulator_model w name) ≠ "ASAP" →
  simulator_name (simulator_model w name) ≠ "LAMMPS" →
  KIM w name simulator options debug =
    run emit (EvGetItemType name) then
    run emit (EvSimulatorModel name) then
    raise (KIMCalculatorError
      ("Unsupported simulator: " +:+ dq
       +:+ simulator_name (simulator_model w name) +:+ dq +:+ ".")).
Proof.
  intros Hsm H1 H2. unfold KIM, _is_portable_model, _get_simulator_model_info.
  rewrite bool_decide_false by done. cbv zeta.
  rewrite !bind_emit_ret. cbv beta iota.
  rewrite !(decide_False (P := simulator_name (simulator_model w name) = "ASAP"))
    by done.
  rewrite !(decide_False (P := simulator_name (simulator_model w name) = "LAMMPS"))
    by done.
  reflexivity.
Qed.
End more_paths.

(** ** Options and flags on the way to the calculators *)

(** Options that share no key with the keywords written out in the call
    all arrive. *)
Lemma lookup_union_options (g o : gmap string pyval) k v :
  dom g ∩ dom o = (∅ : gset string) → o !! k = Some v → (g ∪ o) !! k = Some v.
Proof.
  intros Hd Hk. rewrite lookup_union_r; [done|].
  apply not_elem_of_dom. intros Hg.
  assert (k ∈ dom o) by (apply elem_of_dom; by eexists). set_solver.
Qed.

Section portable_paths.
Context {Mass : Type} (w : World Mass).
Implicit Types (name : string) (simulator : option string)
  (options : option (gmap string pyval)) (debug : bool).

(** X1.  For a Portable Model with no simulator argument or with the
    argument kimmodel: when no option is called modelname or debug, the
    dispatcher makes no other external call than the classification and
    returns a KIMModelCalculator for the model, whose keyword arguments
    are [debug] and every option, and nothing else; otherwise it fails
    with the error of the validator and has constructed nothing.  No
    other outcome is possible on this path. *)
Theorem pm_kimmodel_dispatch name simulator options debug :
  get_item_type w name = collection_item_type_portableModel →
  simulator = None ∨ simulator = Some "kimmodel" →
  (allowed options kimmodel_not_allowed →
     ∃ kw,
       KIM w name simulator options debug
       = ([EvGetItemType name; EvConstruct (KIMModelCalculator name kw)],
          inr (KIMModelCalculator name kw))
       ∧ kw !! "debug" = Some (PBool debug)
       ∧ (∀ k v, default ∅ options !! k = Some v → kw !! k = Some v)
       ∧ dom kw = {["debug"]} ∪ dom (default ∅ options))
  ∧ (¬ allowed options kimmodel_not_allowed →
     ∃ msg,
       KIM w name simulator options debug
       = ([EvGetItemType name], inl (KIMCalculatorError msg))).
Proof.
  intros Hpm Hsim. rewrite (KIM_pm_kimmodel w name simulator options debug Hpm Hsim).
  destruct (check_conflict_options_cases options kimmodel_not_allowed
              (Some "kimmodel")) as [[Hok ->] | [Hbad (msg & _ & ->)]].
  - split; [|done]. intros _.
    assert (dom ({[ "debug" := PBool debug ]} : gmap string pyval)
            ∩ dom (default ∅ options) = (∅ : gset string)) as Hd.
    { unfold allowed, kimmodel_not_allowed in Hok. rewrite dom_singleton_L.
      set_solver. }
    rewrite call_kwargs_2, decide_True by done.
    eexists. split; [reflexivity|]. split_and!.
    + apply lookup_union_Some_l. by simplify_map_eq.
    + intros k v. by apply lookup_union_options.
    + by rewrite dom_union_L, dom_singleton_L.
  - split; [done|]. intros _. by exists msg.
Qed.

(** X2.  For a Portable Model sent to the asap calculator: an option
    called name or verbose makes the dispatcher fail with the error of
    the validator before asap3 is imported; otherwise asap3 is imported
    and, when that succeeds, the dispatcher returns an OpenKIMcalculator
    whose keyword arguments are the model name, [verbose] with the value
    of [debug], and every option; when the import fails, the dispatcher
    fails with the ImportError and has constructed nothing. *)
Theorem pm_asap_dispatch name options debug :
  get_item_type w name = collection_item_type_portableModel →
  (¬ allowed options asap_kimpm_not_allowed →
     ∃ msg,
       KIM w name (Some "asap") options debug
       = ([EvGetItemType name], inl (KIMCalculatorError msg)))
  ∧ (allowed options asap_kimpm_not_allowed → import_asap3 w = None →
     ∃ kw,
       KIM w name (Some "asap") options debug
       = ([EvGetItemType name; EvImportAsap3; EvConstruct (OpenKIMcalculator kw)],
          inr (OpenKIMcalculator kw))
       ∧ kw !! "name" = Some (PStr name)
       ∧ kw !! "verbose" = Some (PBool debug)
       ∧ (∀ k v, default ∅ options !! k = Some v → kw !! k = Some v))
  ∧ (∀ text, allowed options asap_kimpm_not_allowed → import_asap3 w = Some text →
       KIM w name (Some "asap") options debug
       = ([EvGetItemType name; EvImportAsap3],
          inl (ImportError (text +:+ " You need to install asap3 first.")))).
Proof.
  intros Hpm. rewrite (KIM_pm_asap w name options debug Hpm).
  destruct (check_conflict_options_cases options asap_kimpm_not_allowed
              (Some "asap")) as [[Hok ->] | [Hbad (msg & _ & ->)]].
  - split_and!; [done | |].
    + intros _ Himp. unfold _asap_calculator. rewrite Himp.
      cbn [kw_verbose kw_options getitem]. rewrite !bind_ret_l.
      assert (dom ({[ "name" := PStr name; "verbose" := PBool debug ]}
                     : gmap string pyval)
              ∩ dom (default ∅ options) = (∅ : gset string)) as Hd.
      { unfold allowed, asap_kimpm_not_allowed in Hok.
        rewrite dom_insert_L, dom_singleton_L. set_solver. }
      rewrite call_kwargs_2, decide_True by done.
      eexists. split; [reflexivity|]. split_and!.
      * apply lookup_union_Some_l. by simplify_map_eq.
      * apply lookup_union_Some_l. by simplify_map_eq.
      * intros k v. by apply lookup_union_options.
    + intros text _ Himp. unfold _asap_calculator. by rewrite Himp.
  - split_and!; [|done|done]. intros _. by exists msg.
Qed.

(** X3.  For a Portable Model and a simulator argument other than
    kimmodel, asap and lammpsrun, the dispatcher fails with a
    KIMCalculatorError whose message names the argument between double
    quotes; the options are not looked at and nothing is constructed: the
    classification is the only external call. *)
Theorem pm_unsupported_simulator name s options debug :
  get_item_type w name = collection_item_type_portableModel →
  s ≠ "kimmodel" → s ≠ "asap" → s ≠ "lammpsrun" →
  ∃ msg,
    KIM w name (Some s) options debug
    = ([EvGetItemType name], inl (KIMCalculatorError msg))
    ∧ substring_of (dq +:+ s +:+ dq) msg.
Proof.
  intros Hpm H1 H2 H3. rewrite (KIM_pm_other w name s options debug Hpm H1 H2 H3).
  destruct (decide (s = "lammpslib")) as [-> | Hne].
  - eexists. split; [reflexivity|].
    exists EmptyString,
      (" calculator does not support KIM Portable Models. Try using the "
       +:+ dq +:+ "lammpsrun" +:+ dq +:+ " calculator.").
    reflexivity.
  - eexists. split; [reflexivity|].
    apply substring_of_app_r.
    exists EmptyString, (" requested to run KIM Portable Model.").
    by rewrite append_nil_l, !append_assoc.
Qed.
End portable_paths.

Section simulator_paths.
Context {Mass : Type} (w : World Mass).
Implicit Types (name : string) (simulator : option string)
  (options : option (gmap string pyval)) (debug : bool).

(** X4.  For a model that is not a Portable Model and whose metadata name
    a simulator other than ASAP and LAMMPS, the dispatcher fails, for
    every simulator argument, every options dict (allowed or not) and
    every debug flag, with the KIMCalculatorError that names the simulator
    of the metadata; its external calls are the classification and the
    reading of the metadata, and nothing is constructed. *)
Theorem sm_unsupported_simulator_name name simulator options debug :
  get_item_type w name ≠ collection_item_type_portableModel →
  simulator_name (simulator_model w name) ≠ "ASAP" →
  simulator_name (simulator_model w name) ≠ "LAMMPS" →
  KIM w name simulator options debug
  = ([EvGetItemType name; EvSimulatorModel name],
     inl (KIMCalculatorError
            ("Unsupported simulator: " +:+ dq
             +:+ simulator_name (simulator_model w name) +:+ dq +:+ ".")))
  ∧ constructs_nothing (KIM w name simulator options debug).
Proof.
  intros Hsm H1 H2. rewrite (KIM_sm_other w name simulator options debug Hsm H1 H2).
  split; [reflexivity|]. by repeat constructor.
Qed.

(** X5.  For a LAMMPS Simulator Model and a simulator argument other than
    lammpsrun and lammpslib, the dispatcher fails with the
    KIMCalculatorError that names the argument, without looking at the
    options and without constructing anything. *)
Theorem sm_lammps_unknown_calculator name s options debug :
  get_item_type w name ≠ collection_item_type_portableModel →
  simulator_name (simulator_model w name) = "LAMMPS" →
  s ≠ "lammpsrun" → s ≠ "lammpslib" →
  KIM w name (Some s) options debug
  = ([EvGetItemType name; EvSimulatorModel name],
     inl (KIMCalculatorError
            ("Unknown LAMMPS calculator: " +:+ dq +:+ s +:+ dq +:+ ".")))
  ∧ constructs_nothing (KIM w name (Some s) options debug).
Proof.
  intros Hsm Hname H1 H2.
  rewrite (KIM_sm_lammps_other w name s options debug Hsm Hname H1 H2).
  split; [reflexivity|]. by repeat constructor.
Qed.

(** X6.  For an ASAP Simulator Model the simulator argument selects
    nothing: with any simulator argument (also lammpsrun or kimmodel), any
    options without the key Params and any debug flag, the dispatcher does
    exactly what it does with no argument at all. *)
Theorem sm_asap_ignores_arguments name simulator options debug :
  get_item_type w name ≠ collection_item_type_portableModel →
  simulator_name (simulator_model w name) = "ASAP" →
  allowed options asap_kimsm_not_allowed →
  KIM w name simulator options debug = KIM w name None None false.
Proof.
  intros Hsm Hname Hok. rewrite !KIM_sm_asap by done.
  rewrite (check_conflict_options_disjoint _ _ _ Hok).
  by rewrite check_conflict_options_disjoint by set_solver.
Qed.

(** X7.  For a LAMMPS Simulator Model sent to the lammpslib calculator
    with options that pass the validator: if an option is called
    lammps_name, the call of LAMMPSlib gets that keyword twice and the
    dispatcher ends in a TypeError about it, having constructed nothing;
    otherwise the dispatcher returns a LAMMPSlib calculator with
    [lammps_name] None, the log file lammps.log, [keep_alive] set, and
    every option. *)
Theorem sm_lammpslib_options name simulator options debug :
  get_item_type w name ≠ collection_item_type_portableModel →
  simulator_name (simulator_model w name) = "LAMMPS" →
  simulator = None ∨ simulator = Some "lammpslib" →
  allowed options lammpslib_not_allowed →
  ("lammps_name" ∈ dom (default ∅ options) →
     KIM w name simulator options debug
     = ([EvGetItemType name; EvSimulatorModel name],
        inl (TypeError_multiple_values (Some "lammps_name"))))
  ∧ ("lammps_name" ∉ dom (default ∅ options) →
     ∃ kw,
       outcome (KIM w name simulator options debug) = inr (LAMMPSlib kw)
       ∧ kw !! "lammps_name" = Some PNone
       ∧ kw !! "log_file" = Some (PStr "lammps.log")
       ∧ kw !! "keep_alive" = Some (PBool true)
       ∧ ∀ k v, default ∅ options !! k = Some v → kw !! k = Some v).
Proof.
  intros Hsm Hname Hsim Hok. split.
  - intros Hin.
    rewrite (KIM_sm_lammpslib w name simulator options debug Hsm Hname Hsim).
    rewrite (check_conflict_options_disjoint _ _ _ Hok).
    rewrite call_kwargs_2.
    match goal with
    | |- context [decide (?d = ∅)] =>
        assert (d = {["lammps_name"]}) as ->
    end.
    { unfold allowed, lammpslib_not_allowed in Hok.
      rewrite !dom_insert_L, dom_singleton_L. set_solver. }
    rewrite decide_False by set_solver.
    by rewrite repeated_keyword_singleton.
  - intros Hnin.
    destruct (KIM_sm_lammpslib_returns w name simulator options debug
                Hsm Hname Hsim Hok Hnin) as (kw & -> & ->).
    eexists. split; [reflexivity|].
    assert (dom (lammpslib_kwargs w name (supported_units (simulator_model w name))
                   (supported_species (simulator_model w name)))
            ∩ dom (default ∅ options) = (∅ : gset string)) as Hd.
    { unfold allowed, lammpslib_not_allowed in Hok. unfold lammpslib_kwargs.
      rewrite !dom_insert_L, dom_singleton_L. set_solver. }
    split_and!.
    + apply lookup_union_Some_l. by simplify_map_eq.
    + apply lookup_union_Some_l. by simplify_map_eq.
    + apply lookup_union_Some_l. by simplify_map_eq.
    + intros k v. by apply lookup_union_options.
Qed.
End simulator_paths.

Section lammpsrun_options.
Context {Mass : Type} (w : World Mass).
Implicit Types (name units : string) (species : list string)
  (style : option string) (options : option (gmap string pyval)) (debug : bool).

Lemma get_params_dom name units species style :
  Forall (known w) species →
  ∃ params,
    _get_params_for_LAMMPS_calculator w name units species style = ([], inr params)
    ∧ dom params
      = lammps_fixed_keys ∪ (if truthy style then {["atom_style"]} else ∅)
    ∧ params !! "atom_style"
      = if truthy style then Some (PStr (str_opt style)) else None.
Proof.
  intros Hall.
  destruct (masses_loop_known w units species Hall 0 []) as (masses & Heq & _).
  unfold _get_params_for_LAMMPS_calculator, enumerate, lammps_fixed_keys.
  rewrite Heq, bind_ret_l. cbv zeta.
  eexists. split; [reflexivity|].
  destruct (truthy style); split.
  - rewrite !dom_insert_L, dom_empty_L. set_solver.
  - by simplify_map_eq.
  - rewrite !dom_insert_L, dom_empty_L. set_solver.
  - by simplify_map_eq.
Qed.

(** X8.  The dict that the builder returns for known species has the
    keys units, model_init, kim_interactions and masses, and the key
    atom_style exactly when the atom style is a string that is not empty,
    in which case it holds that string: an atom style that is None or the
    empty string leaves no entry. *)
Theorem lammps_parameters_keys name units species style :
  Forall (known w) species →
  ∃ params,
    _get_params_for_LAMMPS_calculator w name units species style = ([], inr params)
    ∧ lammps_fixed_keys ⊆ dom params
    ∧ dom params ⊆ lammps_fixed_keys ∪ {["atom_style"]}
    ∧ (style = None ∨ style = Some EmptyString → params !! "atom_style" = None)
    ∧ (∀ s, style = Some s → s ≠ EmptyString →
         params !! "atom_style" = Some (PStr s)).
Proof.
  intros Hall.
  destruct (get_params_dom name units species style Hall)
    as (params & Heq & Hdom & Hstyle).
  exists params. split; [done|]. split_and!.
  - rewrite Hdom. set_solver.
  - rewrite Hdom. destruct (truthy style); set_solver.
  - intros [-> | ->]; by rewrite Hstyle.
  - intros s -> Hne. rewrite Hstyle. simpl. by rewrite decide_False.
Qed.

(** X9.  For a Portable Model sent to the lammpsrun calculator with
    options that pass the validator and species that are known: if an
    option has the name of one of the four parameters that the builder
    sets, the call of LAMMPS gets a keyword twice and the dispatcher ends
    in the TypeError of a repeated keyword, the only calculator constructed
    being the one that was asked for the species; the TypeError is known
    to name an option exactly when that option is the only one with such
    a name.  Otherwise the dispatcher returns a LAMMPS calculator with the
    species as [specorder], [keep_tmp_files] with the value of [debug], and
    every option. *)
Theorem pm_lammpsrun_options name options debug :
  get_item_type w name = collection_item_type_portableModel →
  allowed options lammpsrun_not_allowed →
  Forall (known w) (get_model_supported_species_and_codes w name).1 →
  (dom (default ∅ options) ∩ lammps_fixed_keys ≠ ∅ →
     ∃ key,
       KIM w name (Some "lammpsrun") options debug
       = ([EvGetItemType name; EvConstruct (KIMModelCalculator name ∅);
           EvSupportedSpecies name],
          inl (TypeError_multiple_values key))
       ∧ ∀ k, key = Some k ↔ dom (default ∅ options) ∩ lammps_fixed_keys = {[k]})
  ∧ (dom (default ∅ options) ∩ lammps_fixed_keys = ∅ →
     ∃ kw,
       outcome (KIM w name (Some "lammpsrun") options debug) = inr (LAMMPS kw)
       ∧ kw !! "specorder"
         = Some (py_strs (get_model_supported_species_and_codes w name).1)
       ∧ kw !! "keep_tmp_files" = Some (PBool debug)
       ∧ ∀ k v, default ∅ options !! k = Some v → kw !! k = Some v).
Proof.
  intros Hpm Hok Hall.
  rewrite (KIM_pm_lammpsrun w name options debug Hpm).
  rewrite (check_conflict_options_disjoint _ _ _ Hok).
  rewrite kim_pm_supported_species_eq.
  destruct (get_params_dom name "metal" _ None Hall) as (params & Heq & Hdom & _).
  simpl in Hdom. rewrite (right_id_L ∅ (∪)) in Hdom.
  assert (dom params
          ∩ dom ({[ "specorder" :=
                      py_strs (get_model_supported_species_and_codes w name).1;
                    "keep_tmp_files" := PBool debug ]} : gmap string pyval)
          = (∅ : gset string)) as Hpg.
  { rewrite Hdom. unfold lammps_fixed_keys.
    rewrite dom_insert_L, dom_singleton_L. set_solver. }
  assert (dom (params
               ∪ ({[ "specorder" :=
                       py_strs (get_model_supported_species_and_codes w name).1;
                     "keep_tmp_files" := PBool debug ]} : gmap string pyval))
          ∩ dom (default ∅ options)
          = dom (default ∅ options) ∩ lammps_fixed_keys) as Hclash.
  { unfold allowed, lammpsrun_not_allowed in Hok.
    rewrite dom_union_L, Hdom, dom_insert_L, dom_singleton_L. set_solver. }
  split.
  - intros Hne. unfold emit. cbn [bind]. rewrite Heq. cbn [bind].
    rewrite call_kwargs_3.
    rewrite decide_True by done. rewrite Hclash, decide_False by done.
    eexists. split; [reflexivity|]. apply repeated_keyword_Some.
  - intros Hnone. run_outcome. unfold emit. run_outcome. rewrite Heq. run_outcome.
    rewrite call_kwargs_3. rewrite decide_True by done.
    rewrite Hclash, decide_True by done. unfold ret. run_outcome.
    eexists. split; [reflexivity|]. split_and!.
    + apply lookup_union_Some_l. rewrite lookup_union_r.
      * by simplify_map_eq.
      * apply not_elem_of_dom. rewrite Hdom. unfold lammps_fixed_keys. set_solver.
    + apply lookup_union_Some_l. rewrite lookup_union_r.
      * by simplify_map_eq.
      * apply not_elem_of_dom. rewrite Hdom. unfold lammps_fixed_keys. set_solver.
    + intros k v. apply lookup_union_options. by rewrite Hclash.
Qed.
End lammpsrun_options.

(** ** The pattern for the parameters of EMT *)

Lemma match_group_sound (s g : string) :
  match_group s = Some g →
  g ≠ EmptyString ∧ all_param_chars g = true
  ∧ ∃ post, s = g +:+ ")" +:+ post.
Proof.
  revert g. induction s as [|c s IH]; intros g; simpl; [done|].
  destruct (param_char c) eqn:Hc; [|done].
  destruct (match_group s) as [g'|].
  - intros [= <-]. destruct (IH g' eq_refl) as (_ & Hall & post & ->).
    split_and!; [done | by simpl; rewrite Hc | by exists post].
  - destruct s as [|c' s']; simpl; [done|].
    case_bool_decide as Hclose; [|done]. subst c'.
    intros [= <-]. split_and!; [done | by simpl; rewrite Hc | by exists s'].
Qed.

Lemma match_group_closed (pp : string) :
  pp ≠ EmptyString → all_param_chars pp = true →
  match_group (pp +:+ ")") = Some pp.
Proof.
  induction pp as [|c pp IH]; [done|]. intros _ Hall.
  simpl in Hall. apply andb_true_iff in Hall as [Hc Hall].
  rewrite append_cons. simpl. rewrite Hc.
  destruct pp as [|c' pp']; [done|].
  by rewrite IH.
Qed.

Lemma re_search_no_open_paren (s : string) :
  no_open_paren s = true → re_search_group1 s = None.
Proof.
  induction s as [|c s IH]; [done|]. simpl.
  intros [Hc Hs]%andb_true_iff.
  case_bool_decide; [done|]. by apply IH.
Qed.

Lemma re_search_after_prefix (pre s : string) :
  no_open_paren pre = true →
  re_search_group1 (pre +:+ "(" +:+ s)
  = match match_group s with
    | Some g => Some g
    | None => re_search_group1 s
    end.
Proof.
  induction pre as [|c pre IH]; [done|]. simpl.
  intros [Hc Hs]%andb_true_iff. rewrite append_cons. simpl.
  case_bool_decide; [done|]. by apply IH.
Qed.

(** X10.  Where the search for the parameters of EMT finds something, the
    text found is not empty, is made of letters, digits, underscores and
    parentheses only, and stands in the searched text between an opening
    and a closing parenthesis; and a text without an opening parenthesis
    gives no match. *)
Theorem re_search_group1_sound (s : string) :
  (∀ g, re_search_group1 s = Some g →
     g ≠ EmptyString ∧ all_param_chars g = true
     ∧ substring_of ("(" +:+ g +:+ ")") s)
  ∧ (no_open_paren s = true → re_search_group1 s = None).
Proof.
  split; [|apply re_search_no_open_paren].
  induction s as [|c s IH]; intros g; simpl; [done|].
  assert (re_search_group1 s = Some g →
          g ≠ EmptyString ∧ all_param_chars g = true
          ∧ substring_of ("(" +:+ g +:+ ")") (String c s)) as Hrest.
  { intros Hg. destruct (IH g Hg) as (Hne & Hall & Hsub). split_and!; [done..|].
    change (String c s) with (String c EmptyString +:+ s).
    by apply substring_of_app_r. }
  case_bool_decide as Hopen; [|done]. subst c.
  destruct (match_group s) as [g'|] eqn:Hm; [|done].
  intros [= <-]. destruct (match_group_sound s g' Hm) as (Hne & Hall & post & ->).
  split_and!; [done..|]. exists EmptyString, post.
  by rewrite append_nil_l, !append_assoc.
Qed.

Section asap_choice.
Context {Mass : Type} (w : World Mass).
Implicit Types (name first pp : string).

Lemma strip_not_empty first :
  strip first ≠ EmptyString → first ≠ EmptyString.
Proof. by intros H ->. Qed.

(** X11.  With asap3 imported and the units ase, a model definition of
    one line that, stripped, starts with EMT and has no opening
    parenthesis makes the builder construct EMT with its default
    parameters, and return it with the energy of an isolated atom as
    zero. *)
Theorem asap_emt_default_parameters name first :
  import_asap3 w = None →
  startswith (strip first) "EMT" = true →
  no_open_paren (strip first) = true →
  _asap_calculator w name sm (sm_kwargs [first] "ase")
  = ([EvImportAsap3; EvConstruct (EMT None None)], inr (EMT None (Some false))).
Proof.
  intros Himp Hemt Hparen.
  assert (first ≠ EmptyString) as Hne.
  { apply strip_not_empty. by intros Hs; rewrite Hs in Hemt. }
  rewrite (asap_sm_line w name first Himp Hne).
  unfold asap_emt. cbv zeta.
  by rewrite Hemt, (re_search_no_open_paren _ Hparen).
Qed.

(** X12.  With asap3 imported and the units ase, a model definition of
    one line that, stripped, is EMT, an opening parenthesis, a name made
    of letters, digits, underscores and parentheses, and a closing
    parenthesis, is decided by the start of that name: EMTRasmussenParameters
    and EMTMetalGlassParameters give EMT with those parameters and the
    energy of an isolated atom as zero; any other name makes the builder
    fail with the KIMCalculatorError about an unknown model, quoting the
    stripped line, having constructed nothing. *)
Theorem asap_emt_parameter_selection name first pp :
  import_asap3 w = None →
  strip first = "EMT(" +:+ pp +:+ ")" →
  pp ≠ EmptyString → all_param_chars pp = true →
  (startswith pp "EMTRasmussenParameters" = true →
     _asap_calculator w name sm (sm_kwargs [first] "ase")
     = ([EvImportAsap3; EvConstruct (EMT (Some EMTRasmussenParameters) None)],
        inr (EMT (Some EMTRasmussenParameters) (Some false))))
  ∧ (startswith pp "EMTRasmussenParameters" = false →
     startswith pp "EMTMetalGlassParameters" = true →
     _asap_calculator w name sm (sm_kwargs [first] "ase")
     = ([EvImportAsap3; EvConstruct (EMT (Some EMTMetalGlassParameters) None)],
        inr (EMT (Some EMTMetalGlassParameters) (Some false))))
  ∧ (startswith pp "EMTRasmussenParameters" = false →
     startswith pp "EMTMetalGlassParameters" = false →
     _asap_calculator w name sm (sm_kwargs [first] "ase")
     = ([EvImportAsap3],
        inl (KIMCalculatorError
               ("Unknown model " +:+ dq +:+ ("EMT(" +:+ pp +:+ ")") +:+ dq
                +:+ " for simulator ASAP.")))).
Proof.
  intros Himp Hstrip Hpp Hall.
  assert (first ≠ EmptyString) as Hne.
  { apply strip_not_empty. by rewrite Hstrip. }
  rewrite (asap_sm_line w name first Himp Hne).
  assert (re_search_group1 (strip first) = Some pp) as Hre.
  { rewrite Hstrip.
    change ("EMT(" +:+ pp +:+ ")") with ("EMT" +:+ "(" +:+ pp +:+ ")").
    rewrite (re_search_after_prefix "EMT" (pp +:+ ")")) by done.
    by rewrite match_group_closed. }
  unfold asap_emt. cbv zeta. rewrite Hre.
  assert (startswith (strip first) "EMT" = true) as -> by (by rewrite Hstrip).
  split_and!.
  - by intros ->.
  - by intros -> ->.
  - intros -> ->. by rewrite Hstrip.
Qed.

(** X13.  With asap3 imported and the units ase, a model definition of
    one non-empty line that, stripped, does not start with EMT makes the
    builder end in an UnboundLocalError for its variable asap_calc, not in
    a KIMCalculatorError; nothing is constructed. *)
Theorem asap_non_emt_unbound name first :
  import_asap3 w = None → first ≠ EmptyString →
  startswith (strip first) "EMT" = false →
  _asap_calculator w name sm (sm_kwargs [first] "ase")
  = ([EvImportAsap3], inl (UnboundLocalError "asap_calc")).
Proof.
  intros Himp Hne Hemt. rewrite (asap_sm_line w name first Himp Hne).
  unfold asap_emt. cbv zeta. by rewrite Hemt.
Qed.
End asap_choice.

(** ** What every run of the dispatcher keeps *)

Section more_steps.
Context {A B : Type}.

Lemma returns_only_bind (R : B → Prop) (m : M A) (f : A → M B) :
  (∀ a, returns_only R (f a)) → returns_only R (bind m f).
Proof.
  intros Hf b. rewrite outcome_bind. destruct (outcome m) as [e|a]; [done|].
  apply Hf.
Qed.

Lemma returns_only_raise (R : A → Prop) (e : exn) : returns_only R (raise e : M A).
Proof. by intros a. Qed.

Lemma returns_only_ret (R : A → Prop) (a : A) : R a → returns_only R (ret a).
Proof. intros H a' [= <-]. done. Qed.

(** A run that leaves only events with [P] when it fails. *)
Lemma clean_bind (P : event → Prop) (m : M A) (f : A → M B) :
  trace_all P m → (∀ a, fails (f a) → trace_all P (f a)) →
  fails (bind m f) → trace_all P (bind m f).
Proof.
  unfold fails, trace_all. intros Hm Hf [e He].
  rewrite outcome_bind in He. rewrite trace_bind.
  destruct (outcome m) as [e'|a]; [done|].
  apply Forall_app. split; [done|]. apply Hf. by exists e.
Qed.

Lemma clean_raise (P : event → Prop) (e : exn) :
  fails (raise e : M A) → trace_all P (raise e : M A).
Proof. intros _. constructor. Qed.
End more_steps.

Lemma returns_only_construct (R : calculator → Prop) (c : calculator) :
  R c → returns_only R (construct c).
Proof. intros H c' [= <-]. done. Qed.

Lemma clean_construct (P : event → Prop) (c : calculator) :
  fails (construct c) → trace_all P (construct c).
Proof. by intros [e He]. Qed.

Ltac returns_steps :=
  repeat first
    [ apply returns_only_raise
    | apply returns_only_bind; intros ?
    | match goal with
      | |- returns_only _ (if ?c then _ else _) => destruct c
      | |- returns_only _ (match ?x with _ => _ end) => destruct x
      end ].

Section clean_asap.
Context {Mass : Type} (w : World Mass).

Lemma clean_asap_pm (P : event → Prop) name verbose options :
  P EvImportAsap3 →
  fails (_asap_calculator w name pm
           {| kw_verbose := Some verbose; kw_options := Some options;
              kw_model_defn := None; kw_supported_units := None |}) →
  trace_all P (_asap_calculator w name pm
                 {| kw_verbose := Some verbose; kw_options := Some options;
                    kw_model_defn := None; kw_supported_units := None |}).
Proof.
  intros Himp. unfold _asap_calculator.
  apply clean_bind; [by apply trace_all_emit|]. intros _.
  destruct (import_asap3 w); [apply clean_raise|].
  cbn [kw_verbose kw_options getitem]. rewrite !bind_ret_l.
  apply clean_bind; [apply trace_all_nil, trace_call_kwargs|].
  intros kw. apply clean_construct.
Qed.

Lemma clean_asap_sm (P : event → Prop) name defn units :
  P EvImportAsap3 →
  fails (_asap_calculator w name sm (sm_kwargs defn units)) →
  trace_all P (_asap_calculator w name sm (sm_kwargs defn units)).
Proof.
  intros HP. destruct (import_asap3 w) as [text|] eqn:Himp.
  { rewrite (asap_import_fails w name sm _ text Himp). by repeat constructor. }
  destruct (decide (units = "ase")) as [->|Hu].
  2: { rewrite (asap_sm_unit_mismatch w name defn units Himp Hu).
       by repeat constructor. }
  destruct (model_defn_shape defn) as [-> | [Hlen | [-> | (first & -> & Hne)]]].
  - rewrite (asap_sm_empty w name Himp). by repeat constructor.
  - rewrite (asap_sm_many w name defn Himp Hlen). by repeat constructor.
  - rewrite (asap_sm_empty_string w name Himp). by repeat constructor.
  - rewrite (asap_sm_line w name first Himp Hne).
    pose proof (asap_emt_cases first) as Hc.
    destruct (emt_selection (strip first)).
    + rewrite Hc. by intros [e He].
    + destruct Hc as [-> | ->]; by repeat constructor.
Qed.

(** What the builder can return. *)
Lemma asap_pm_returns name verbose options c :
  outcome (_asap_calculator w name pm
             {| kw_verbose := Some verbose; kw_options := Some options;
                kw_model_defn := None; kw_supported_units := None |}) = inr c →
  ∃ kw, c = OpenKIMcalculator kw.
Proof.
  unfold _asap_calculator. cbn [kw_verbose kw_options getitem].
  revert c. change (returns_only (λ c, ∃ kw, c = OpenKIMcalculator kw)
    (run emit EvImportAsap3 then
     match import_asap3 w with
     | Some e => raise (ImportError (e +:+ " You need to install asap3 first."))
     | None =>
         let! verbose' := ret verbose in
         let! options' := ret options in
         let! kw :=
           call_kwargs
             [ {[ "name" := PStr name; "verbose" := PBool verbose' ]}; options' ] in
         construct (OpenKIMcalculator kw)
     end)).
  returns_steps. apply returns_only_construct. by eexists.
Qed.

Lemma asap_sm_returns name defn units c :
  outcome (_asap_calculator w name sm (sm_kwargs defn units)) = inr c →
  ∃ parameters, c = EMT parameters (Some false).
Proof.
  destruct (import_asap3 w) as [text|] eqn:Himp.
  { by rewrite (asap_import_fails w name sm _ text Himp). }
  destruct (decide (units = "ase")) as [->|Hu].
  2: { by rewrite (asap_sm_unit_mismatch w name defn units Himp Hu). }
  destruct (model_defn_shape defn) as [-> | [Hlen | [-> | (first & -> & Hne)]]].
  - by rewrite (asap_sm_empty w name Himp).
  - by rewrite (asap_sm_many w name defn Himp Hlen).
  - by rewrite (asap_sm_empty_string w name Himp).
  - rewrite (asap_sm_line w name first Himp Hne).
    pose proof (asap_emt_cases first) as Hc.
    destruct (emt_selection (strip first)) as [parameters|].
    + rewrite Hc. intros [= <-]. by exists parameters.
    + by destruct Hc as [-> | ->].
Qed.
End clean_asap.

(** An event of the classification, of the metadata or of the import is
    not the construction of a calculator, and the species handle is the
    species handle. *)
Ltac solve_handle :=
  unfold only_species_handle;
  first [ by intros ? [= <-] | by intros ? [=] ].

Ltac clean_steps :=
  repeat first
    [ apply clean_asap_sm; solve_handle
    | apply clean_asap_pm; solve_handle
    | apply clean_raise
    | apply clean_construct
    | apply clean_bind; [solve [trace_steps; solve_handle] | intros ?]
    | match goal with
      | |- fails (if ?c then _ else _) → _ => destruct c
      | |- fails (match ?x with _ => _ end) → _ => destruct x
      end ].

Section whole_dispatch.
Context {Mass : Type} (w : World Mass).
Implicit Types (name : string) (simulator : option string)
  (options : option (gmap string pyval)) (debug : bool).

Lemma KIM_portable_cases simulator :
  simulator = None ∨ simulator = Some "kimmodel" ∨ simulator = Some "asap"
  ∨ simulator = Some "lammpsrun"
  ∨ ∃ s, simulator = Some s ∧ s ≠ "kimmodel" ∧ s ≠ "asap" ∧ s ≠ "lammpsrun".
Proof.
  destruct simulator as [s|]; [|by left].
  destruct (decide (s = "kimmodel")) as [->|?]; [by right; left|].
  destruct (decide (s = "asap")) as [->|?]; [by right; right; left|].
  destruct (decide (s = "lammpsrun")) as [->|?]; [by right; right; right; left|].
  right; right; right; right. by exists s.
Qed.

Lemma KIM_lammps_cases simulator :
  simulator = None ∨ simulator = Some "lammpslib" ∨ simulator = Some "lammpsrun"
  ∨ ∃ s, simulator = Some s ∧ s ≠ "lammpsrun" ∧ s ≠ "lammpslib".
Proof.
  destruct simulator as [s|]; [|by left].
  destruct (decide (s = "lammpslib")) as [->|?]; [by right; left|].
  destruct (decide (s = "lammpsrun")) as [->|?]; [by right; right; left|].
  right; right; right. by exists s.
Qed.

(** X14.  The class of the calculator that the dispatcher returns follows
    the kind of the model and the simulator: for a Portable Model a
    KIMModelCalculator (no argument, or kimmodel), an OpenKIMcalculator
    (asap) or a LAMMPS calculator (lammpsrun); for an ASAP Simulator
    Model an EMT calculator with the energy of an isolated atom as zero,
    whatever the argument; for a LAMMPS Simulator Model a LAMMPS
    calculator (lammpsrun) or a LAMMPSlib calculator (no argument, or
    lammpslib).  Nothing else is ever returned. *)
Theorem dispatch_returns_by_kind name simulator options debug c :
  outcome (KIM w name simulator options debug) = inr c →
  (get_item_type w name = collection_item_type_portableModel
   ∧ ((simulator = None ∨ simulator = Some "kimmodel")
        ∧ (∃ kw, c = KIMModelCalculator name kw)
      ∨ simulator = Some "asap" ∧ (∃ kw, c = OpenKIMcalculator kw)
      ∨ simulator = Some "lammpsrun" ∧ (∃ kw, c = LAMMPS kw)))
  ∨ (get_item_type w name ≠ collection_item_type_portableModel
     ∧ (simulator_name (simulator_model w name) = "ASAP"
          ∧ (∃ parameters, c = EMT parameters (Some false))
        ∨ simulator_name (simulator_model w name) = "LAMMPS"
          ∧ simulator = Some "lammpsrun" ∧ (∃ kw, c = LAMMPS kw)
        ∨ simulator_name (simulator_model w name) = "LAMMPS"
          ∧ (simulator = None ∨ simulator = Some "lammpslib")
          ∧ (∃ kw, c = LAMMPSlib kw))).
Proof.
  destruct (decide (get_item_type w name = collection_item_type_portableModel))
    as [Hpm|Hsm].
  - intros Hret. left. split; [done|].
    destruct (KIM_portable_cases simulator)
      as [Hs | [Hs | [-> | [-> | (s & -> & H1 & H2 & H3)]]]].
    + left. split; [by left|]. revert c Hret.
      rewrite (KIM_pm_kimmodel w name simulator options debug Hpm (or_introl Hs)).
      fold (returns_only (λ c, ∃ kw, c = KIMModelCalculator name kw)).
      returns_steps. apply returns_only_construct. by eexists.
    + left. split; [by right|]. revert c Hret.
      rewrite (KIM_pm_kimmodel w name simulator options debug Hpm (or_intror Hs)).
      returns_steps. apply returns_only_construct. by eexists.
    + right; left. split; [done|]. revert c Hret.
      rewrite (KIM_pm_asap w name options debug Hpm).
      do 2 (apply returns_only_bind; intros ?).
      intros c. apply asap_pm_returns.
    + right; right. split; [done|].
      destruct (KIM_pm_lammpsrun_inv w name options debug c Hpm Hret)
        as (_ & params & _ & ->). by eexists.
    + rewrite (KIM_pm_other w name s options debug Hpm H1 H2 H3) in Hret.
      by case_decide.
  - intros Hret. right. split; [done|].
    destruct (decide (simulator_name (simulator_model w name) = "ASAP")) as [Ha|Hna].
    { left. split; [done|]. revert c Hret.
      rewrite (KIM_sm_asap w name simulator options debug Hsm Ha).
      do 3 (apply returns_only_bind; intros ?).
      intros c. apply asap_sm_returns. }
    destruct (decide (simulator_name (simulator_model w name) = "LAMMPS")) as [Hl|Hnl].
    2: { by rewrite (KIM_sm_other w name simulator options debug Hsm Hna Hnl) in Hret. }
    right.
    destruct (KIM_lammps_cases simulator) as [Hs | [Hs | [-> | (s & -> & H1 & H2)]]].
    + right. split_and!; [done | by left |].
      destruct (KIM_sm_lammpslib_inv w name simulator options debug c Hsm Hl
                  (or_introl Hs) Hret) as [_ ->]. by eexists.
    + right. split_and!; [done | by right |].
      destruct (KIM_sm_lammpslib_inv w name simulator options debug c Hsm Hl
                  (or_intror Hs) Hret) as [_ ->]. by eexists.
    + left. split_and!; [done..|].
      destruct (KIM_sm_lammpsrun_inv w name options debug c Hsm Hl Hret)
        as (_ & params & _ & ->). by eexists.
    + by rewrite (KIM_sm_lammps_other w name s options debug Hsm Hl H1 H2) in Hret.
Qed.

(** X15.  Whenever the dispatcher fails, with whatever exception, no
    calculator has been constructed, except the KIMModelCalculator that
    is made without options to ask a Portable Model for its species on
    the way to the lammpsrun calculator. *)
Theorem failed_dispatch_constructs_no_backend name simulator options debug :
  fails (KIM w name simulator options debug) →
  trace_all (only_species_handle name) (KIM w name simulator options debug).
Proof.
  unfold KIM, _get_kim_pm_supported_species, _is_portable_model,
    _get_simulator_model_info.
  cbv zeta. clean_steps.
Qed.
End whole_dispatch.

Section dispatch_order.
Context {Mass : Type} (w : World Mass).
Implicit Types (name : string) (simulator : option string)
  (options : option (gmap string pyval)) (debug : bool).

Lemma trace_pair' {A} (t : list event) (r : exn + A) : trace (t, r) = t.
Proof. reflexivity. Qed.

Lemma Forall_trace_all {A} (P : event → Prop) (m : M A) :
  trace_all P m → Forall P (trace m).
Proof. done. Qed.

Lemma simulator_model_info_eq' name :
  _get_simulator_model_info w name
  = ([EvSimulatorModel name],
     inr (simulator_name (simulator_model w name),
          supported_species (simulator_model w name),
          supported_units (simulator_model w name),
          model_defn (simulator_model w name),
          atom_style (simulator_model w name))).
Proof. reflexivity. Qed.

Lemma get_model_supported_species_eq name :
  get_model_supported_species w name
  = if bool_decide (get_item_type w name = collection_item_type_portableModel)
    then ([EvGetItemType name; EvConstruct (KIMModelCalculator name ∅);
           EvSupportedSpecies name],
          inr (get_model_supported_species_and_codes w name).1)
    else ([EvGetItemType name; EvSimulatorModel name],
          inr (supported_species (simulator_model w name))).
Proof.
  unfold get_model_supported_species. rewrite is_portable_eq.
  case_bool_decide.
  - by rewrite kim_pm_supported_species_eq.
  - reflexivity.
Qed.

(** X16.  asap3 is imported only on the way to an ASAP calculator: for a
    Portable Model with a simulator argument other than asap, and for a
    model that is not portable and whose metadata do not name ASAP, no
    import of asap3 is attempted, whether the dispatcher returns or
    fails. *)
Theorem asap3_imported_only_for_asap name simulator options debug :
  (get_item_type w name = collection_item_type_portableModel →
   simulator ≠ Some "asap") →
  (get_item_type w name ≠ collection_item_type_portableModel →
   simulator_name (simulator_model w name) ≠ "ASAP") →
  trace_all (λ ev, ev ≠ EvImportAsap3) (KIM w name simulator options debug).
Proof.
  intros Hpm Hsm. unfold KIM. cbv zeta.
  apply trace_all_bind; [unfold _is_portable_model; trace_steps; done|].
  intros portable Hp. rewrite is_portable_eq, outcome_pair in Hp.
  injection Hp as <-. case_bool_decide as Hkind.
  - specialize (Hpm Hkind). unfold _get_kim_pm_supported_species.
    trace_steps; try done.
    destruct simulator; simplify_eq.
  - specialize (Hsm Hkind).
    apply trace_all_bind; [unfold _get_simulator_model_info; trace_steps; done|].
    intros [[[[sn sp] su] md] st] Hinfo.
    rewrite simulator_model_info_eq', outcome_pair in Hinfo. simplify_eq.
    trace_steps; done.
Qed.

(** X17.  The dispatcher classifies the model first and only once; for a
    model that is not portable it reads the metadata next, and only
    once. *)
Theorem dispatch_classifies_first name simulator options debug :
  ∃ rest,
    trace (KIM w name simulator options debug) = EvGetItemType name :: rest
    ∧ Forall (λ ev, ∀ other, ev ≠ EvGetItemType other) rest
    ∧ (get_item_type w name ≠ collection_item_type_portableModel →
       ∃ rest',
         rest = EvSimulatorModel name :: rest'
         ∧ Forall (λ ev, ∀ other, ev ≠ EvSimulatorModel other) rest').
Proof.
  unfold KIM. cbv zeta. rewrite trace_bind, is_portable_eq, outcome_pair, trace_pair'.
  eexists. split; [reflexivity|].
  case_bool_decide as Hkind.
  - split; [|done]. unfold _get_kim_pm_supported_species.
    apply Forall_trace_all.
    trace_steps_with ltac:(apply trace_all_asap_calculator); done.
  - rewrite trace_bind, simulator_model_info_eq', outcome_pair, trace_pair'.
    cbv beta iota. split.
    + constructor; [done|].
      apply Forall_trace_all.
      trace_steps_with ltac:(apply trace_all_asap_calculator); done.
    + intros _. eexists. split; [reflexivity|].
      apply Forall_trace_all.
      trace_steps_with ltac:(apply trace_all_asap_calculator); done.
Qed.
End dispatch_order.

Section lammpsrun_species.
Context {Mass : Type} (w : World Mass).
Implicit Types (name : string) (options : option (gmap string pyval)) (debug : bool).

Lemma lammpsrun_kwargs_lookup (params o : gmap string pyval) species debug masses :
  dom params ⊆ lammps_parameter_keys →
  params !! "masses" = Some (py_strs masses) →
  (params ∪ lammpsrun_kwargs species debug ∪ o) !! "specorder" = Some (py_strs species)
  ∧ (params ∪ lammpsrun_kwargs species debug ∪ o) !! "keep_tmp_files"
    = Some (PBool debug)
  ∧ (params ∪ lammpsrun_kwargs species debug ∪ o) !! "masses" = Some (py_strs masses).
Proof.
  intros Hdom Hm. unfold lammps_parameter_keys in Hdom. split_and!.
  - apply lookup_union_Some_l. rewrite lookup_union_r.
    + by unfold lammpsrun_kwargs; simplify_map_eq.
    + apply not_elem_of_dom. set_solver.
  - apply lookup_union_Some_l. rewrite lookup_union_r.
    + by unfold lammpsrun_kwargs; simplify_map_eq.
    + apply not_elem_of_dom. set_solver.
  - by do 2 apply lookup_union_Some_l.
Qed.

(** X18.  Whenever the dispatcher, asked for the lammpsrun calculator,
    returns a LAMMPS calculator, for a Portable Model or for a Simulator
    Model, its [specorder] is the list of species that
    [get_model_supported_species] gives for the same model, its mass table
    has one line for each of these species, and its [keep_tmp_files] is
    the debug flag. *)
Theorem lammpsrun_specorder_matches_species name options debug kw :
  outcome (KIM w name (Some "lammpsrun") options debug) = inr (LAMMPS kw) →
  ∃ species masses,
    outcome (get_model_supported_species w name) = inr species
    ∧ kw !! "specorder" = Some (py_strs species)
    ∧ kw !! "keep_tmp_files" = Some (PBool debug)
    ∧ kw !! "masses" = Some (py_strs masses)
    ∧ length masses = length species.
Proof.
  intros Hret. rewrite get_model_supported_species_eq.
  case_bool_decide as Hkind.
  - destruct (KIM_pm_lammpsrun_inv w name options debug _ Hkind Hret)
      as (_ & params & Hp & Hkw).
    assert (Forall (known w) (get_model_supported_species_and_codes w name).1) as Hall.
    { apply (get_params_returns w name "metal" _ None params). by rewrite Hp. }
    destruct (get_params_known w name "metal" _ None Hall)
      as (params' & masses & Heq & _ & _ & _ & Hm & Hdom & Hlen & _).
    rewrite Hp in Heq. simplify_eq.
    destruct (lammpsrun_kwargs_lookup params' (default ∅ options)
                (get_model_supported_species_and_codes w name).1 debug masses
                Hdom Hm) as (H1 & H2 & H3).
    by eexists _, masses.
  - destruct (decide (simulator_name (simulator_model w name) = "ASAP")) as [Ha|Hna].
    { rewrite (KIM_sm_asap w name _ options debug Hkind Ha) in Hret.
      unfold emit in Hret. run_outcome_in Hret.
      destruct (_check_conflict_options _ _ _) as [t [e|[]]]; run_outcome_in Hret;
        [done|].
      by destruct (asap_sm_returns w name _ _ _ Hret). }
    destruct (decide (simulator_name (simulator_model w name) = "LAMMPS")) as [Hl|Hnl].
    2: { by rewrite (KIM_sm_other w name _ options debug Hkind Hna Hnl) in Hret. }
    destruct (KIM_sm_lammpsrun_inv w name options debug _ Hkind Hl Hret)
      as (_ & params & Hp & Hkw).
    assert (Forall (known w) (supported_species (simulator_model w name))) as Hall.
    { apply (get_params_returns w name (supported_units (simulator_model w name)) _
               (atom_style (simulator_model w name)) params). by rewrite Hp. }
    destruct (get_params_known w name (supported_units (simulator_model w name)) _
                (atom_style (simulator_model w name)) Hall)
      as (params' & masses & Heq & _ & _ & _ & Hm & Hdom & Hlen & _).
    rewrite Hp in Heq. simplify_eq.
    destruct (lammpsrun_kwargs_lookup params' ∅
                (supported_species (simulator_model w name)) debug masses
                Hdom Hm) as (H1 & H2 & H3).
    rewrite (right_id_L ∅ (∪)) in H1, H2, H3.
    by eexists _, masses.
Qed.
End lammpsrun_species.

Section validation_first.
Context {Mass : Type} (w : World Mass).
Implicit Types (name : string) (simulator : option string)
  (options : option (gmap string pyval)) (debug : bool).

(** X19.  For a LAMMPS Simulator Model sent to the lammpsrun calculator,
    whenever the dispatcher returns, the LAMMPS calculator has the units
    of the metadata of the model (not metal, unless the metadata say so)
    in [units] and in the kim_init command, the atom style of the
    metadata when it is a string that is not empty, and no keyword
    argument besides those of the builder, [specorder] and
    [keep_tmp_files]. *)
Theorem sm_lammpsrun_uses_model_units name options debug c :
  get_item_type w name ≠ collection_item_type_portableModel →
  simulator_name (simulator_model w name) = "LAMMPS" →
  outcome (KIM w name (Some "lammpsrun") options debug) = inr c →
  ∃ kw,
    c = LAMMPS kw
    ∧ kw !! "units" = Some (PStr (supported_units (simulator_model w name)))
    ∧ kw !! "model_init"
      = Some (py_strs ["kim_init " +:+ name +:+ " "
                       +:+ supported_units (simulator_model w name) +:+ linesep w])
    ∧ kw !! "atom_style"
      = (if truthy (atom_style (simulator_model w name))
         then Some (PStr (str_opt (atom_style (simulator_model w name))))
         else None)
    ∧ dom kw ⊆ lammps_parameter_keys ∪ {[ "specorder"; "keep_tmp_files" ]}.
Proof.
  intros Hsm Hname Hret.
  destruct (KIM_sm_lammpsrun_inv w name options debug c Hsm Hname Hret)
    as (_ & params & Hp & ->).
  assert (Forall (known w) (supported_species (simulator_model w name))) as Hall.
  { apply (get_params_returns w name (supported_units (simulator_model w name)) _
             (atom_style (simulator_model w name)) params). by rewrite Hp. }
  destruct (get_params_known w name (supported_units (simulator_model w name)) _
              (atom_style (simulator_model w name)) Hall)
    as (params' & masses & Heq & Hu & Hmi & _ & _ & Hdom & _).
  destruct (get_params_dom w name (supported_units (simulator_model w name)) _
              (atom_style (simulator_model w name)) Hall)
    as (params'' & Heq' & _ & Hstyle).
  rewrite Hp in Heq, Heq'. simplify_eq.
  eexists. split; [reflexivity|]. split_and!.
  - by apply lookup_union_Some_l.
  - by apply lookup_union_Some_l.
  - destruct (truthy _).
    + by apply lookup_union_Some_l.
    + apply lookup_union_None. split; [done|].
      by unfold lammpsrun_kwargs; simplify_map_eq.
  - rewrite dom_union_L. unfold lammpsrun_kwargs.
    rewrite dom_insert_L, dom_singleton_L. set_solver.
Qed.

(** X20.  On the paths to the LAMMPS calculators and for an ASAP
    Simulator Model, options with a key of the disallow-list of the path
    make the dispatcher fail with the error of the validator before
    anything else is done: no species are asked for, asap3 is not
    imported, nothing is constructed; the only external calls are the
    classification and, for a model that is not portable, the reading of
    the metadata. *)
Theorem invalid_options_fail_first name simulator options debug :
  (get_item_type w name = collection_item_type_portableModel
   ∧ simulator = Some "lammpsrun"
   ∧ ¬ allowed options lammpsrun_not_allowed)
  ∨ (get_item_type w name ≠ collection_item_type_portableModel
     ∧ simulator_name (simulator_model w name) = "LAMMPS"
     ∧ simulator = Some "lammpsrun"
     ∧ ¬ allowed options lammpsrun_not_allowed)
  ∨ (get_item_type w name ≠ collection_item_type_portableModel
     ∧ simulator_name (simulator_model w name) = "LAMMPS"
     ∧ (simulator = None ∨ simulator = Some "lammpslib")
     ∧ ¬ allowed options lammpslib_not_allowed)
  ∨ (get_item_type w name ≠ collection_item_type_portableModel
     ∧ simulator_name (simulator_model w name) = "ASAP"
     ∧ ¬ allowed options asap_kimsm_not_allowed) →
  ∃ msg,
    KIM w name simulator options debug
    = (EvGetItemType name
       :: (if bool_decide (get_item_type w name = collection_item_type_portableModel)
           then [] else [EvSimulatorModel name]),
       inl (KIMCalculatorError msg))
    ∧ msg ≠ EmptyString.
Proof.
  intros [(Hpm & -> & Hbad) | [(Hsm & Hname & -> & Hbad)
          | [(Hsm & Hname & Hsim & Hbad) | (Hsm & Hname & Hbad)]]].
  - rewrite (KIM_pm_lammpsrun w name options debug Hpm), bool_decide_true by done.
    destruct (check_conflict_options_cases options lammpsrun_not_allowed
                (Some "lammpsrun")) as [[Hok _] | [_ (msg & Hne & Heq)]]; [done|].
    unfold lammpsrun_not_allowed in Heq. rewrite Heq. by exists msg.
  - rewrite (KIM_sm_lammpsrun w name options debug Hsm Hname),
      bool_decide_false by done.
    destruct (check_conflict_options_cases options lammpsrun_not_allowed
                (Some "lammpsrun")) as [[Hok _] | [_ (msg & Hne & Heq)]]; [done|].
    unfold lammpsrun_not_allowed in Heq. rewrite Heq. by exists msg.
  - rewrite (KIM_sm_lammpslib w name simulator options debug Hsm Hname Hsim),
      bool_decide_false by done.
    destruct (check_conflict_options_cases options lammpslib_not_allowed
                (Some "lammpslib")) as [[Hok _] | [_ (msg & Hne & Heq)]]; [done|].
    unfold lammpslib_not_allowed in Heq. rewrite Heq. by exists msg.
  - rewrite (KIM_sm_asap w name simulator options debug Hsm Hname),
      bool_decide_false by done.
    destruct (check_conflict_options_cases options asap_kimsm_not_allowed
                (match simulator with None => Some "asap" | Some _ => simulator end))
      as [[Hok _] | [_ (msg & Hne & Heq)]]; [done|].
    rewrite Heq. by exists msg.
Qed.
End validation_first.

(** ** Failures that tell what went wrong *)

Section descriptive_failures.
Context {Mass : Type} (w : World Mass).
Implicit Types (name : string) (simulator : option string)
  (options : option (gmap string pyval)) (debug : bool).

Lemma asap_emt_module_error first :
  startswith (strip first) "EMT" = true →
  fails_only (λ e, raised_by_module e = true) (asap_emt first).
Proof.
  intros Hemt e. unfold asap_emt. cbv zeta. rewrite Hemt.
  destruct (re_search_group1 (strip first)) as [pp|].
  - destruct (startswith pp "EMTRasmussenParameters"); [by intros [=]|].
    destruct (startswith pp "EMTMetalGlassParameters"); [by intros [=]|].
    by intros [= <-].
  - by intros [=].
Qed.

Lemma asap_sm_module_error name defn units :
  ¬ (import_asap3 w = None ∧ units = "ase"
     ∧ ∃ first, defn = [first] ∧ first ≠ EmptyString
         ∧ startswith (strip first) "EMT" = false) →
  fails_only (λ e, raised_by_module e = true) (_asap_calculator w name sm (sm_kwargs defn units)).
Proof.
  intros Hslip e.
  destruct (import_asap3 w) as [text|] eqn:Himp.
  { rewrite (asap_import_fails w name sm _ text Himp). by intros [= <-]. }
  destruct (decide (units = "ase")) as [->|Hu].
  2: { rewrite (asap_sm_unit_mismatch w name defn units Himp Hu). by intros [= <-]. }
  destruct (model_defn_shape defn) as [-> | [Hlen | [-> | (first & -> & Hne)]]].
  - rewrite (asap_sm_empty w name Himp). by intros [= <-].
  - rewrite (asap_sm_many w name defn Himp Hlen). by intros [= <-].
  - rewrite (asap_sm_empty_string w name Himp). by intros [= <-].
  - rewrite (asap_sm_line w name first Himp Hne).
    unfold emit. run_outcome.
    destruct (startswith (strip first) "EMT") eqn:Hemt.
    + by apply asap_emt_module_error.
    + destruct Hslip. split_and!; [done..|]. by exists first.
Qed.

Lemma asap_pm_module_error name verbose (o : gmap string pyval) :
  dom o ∩ list_to_set asap_kimpm_not_allowed = (∅ : gset string) →
  fails_only (λ e, raised_by_module e = true)
    (_asap_calculator w name pm
       {| kw_verbose := Some verbose; kw_options := Some o;
          kw_model_defn := None; kw_supported_units := None |}).
Proof.
  intros Hok e. unfold _asap_calculator, emit. run_outcome.
  destruct (import_asap3 w); [by intros [= <-]|].
  cbn [kw_verbose kw_options getitem]. rewrite !bind_ret_l.
  rewrite call_kwargs_2, decide_True.
  - unfold ret, construct, emit. by run_outcome.
  - unfold asap_kimpm_not_allowed in Hok.
    rewrite dom_insert_L, dom_singleton_L. set_solver.
Qed.

Lemma KIM_pm_kimmodel_module_error name simulator options debug :
  get_item_type w name = collection_item_type_portableModel →
  simulator = None ∨ simulator = Some "kimmodel" →
  fails_only (λ e, raised_by_module e = true) (KIM w name simulator options debug).
Proof.
  intros Hpm Hsim e.
  rewrite (KIM_pm_kimmodel w name simulator options debug Hpm Hsim).
  unfold emit. run_outcome.
  destruct (check_conflict_options_cases options kimmodel_not_allowed
              (Some "kimmodel")) as [[Hok Heq] | [_ (msg & _ & Heq)]];
    rewrite Heq; run_outcome; [|by intros [= <-]].
  rewrite call_kwargs_2, decide_True; [by intros [=]|].
  unfold allowed, kimmodel_not_allowed in Hok. rewrite dom_singleton_L. set_solver.
Qed.

Lemma KIM_pm_asap_module_error name options debug :
  get_item_type w name = collection_item_type_portableModel →
  fails_only (λ e, raised_by_module e = true)
    (KIM w name (Some "asap") options debug).
Proof.
  intros Hpm e. rewrite (KIM_pm_asap w name options debug Hpm).
  unfold emit. run_outcome.
  destruct (check_conflict_options_cases options asap_kimpm_not_allowed
              (Some "asap")) as [[Hok Heq] | [_ (msg & _ & Heq)]];
    rewrite Heq; run_outcome; [|by intros [= <-]].
  by apply (asap_pm_module_error name debug (default ∅ options)).
Qed.

Lemma KIM_pm_lammpsrun_module_error name options debug :
  get_item_type w name = collection_item_type_portableModel →
  ¬ repeats_lammps_parameter w name (Some "lammpsrun") options →
  fails_only (λ e, raised_by_module e = true)
    (KIM w name (Some "lammpsrun") options debug).
Proof.
  intros Hpm Hparam e. rewrite (KIM_pm_lammpsrun w name options debug Hpm).
  unfold emit. run_outcome.
  destruct (check_conflict_options_cases options lammpsrun_not_allowed
              (Some "lammpsrun")) as [[Hok Heq] | [_ (msg & _ & Heq)]];
    unfold lammpsrun_not_allowed in Heq; rewrite Heq; run_outcome;
    [|by intros [= <-]].
  rewrite kim_pm_supported_species_eq. run_outcome.
  destruct (first_unknown w (get_model_supported_species_and_codes w name).1)
    as [Hall | (p & sp & rest & Hsp & Hp & Hnone)].
  - destruct (get_params_dom w name "metal" _ None Hall)
      as (params & Hpeq & Hdom & _).
    simpl in Hdom. rewrite (right_id_L ∅ (∪)) in Hdom.
    rewrite Hpeq. run_outcome. rewrite call_kwargs_3.
    rewrite decide_True.
    2: { rewrite Hdom. unfold lammps_fixed_keys.
         rewrite dom_insert_L, dom_singleton_L. set_solver. }
    rewrite decide_True; [by intros [=]|].
    destruct (decide (dom (default ∅ options) ∩ lammps_fixed_keys = ∅))
      as [Hnone|Hclash]; [|by destruct Hparam].
    unfold allowed, lammpsrun_not_allowed in Hok.
    rewrite dom_union_L, Hdom, dom_insert_L, dom_singleton_L. set_solver.
  - rewrite Hsp, (get_params_unknown w name "metal" None p sp rest Hp Hnone).
    run_outcome. by intros [= <-].
Qed.

Lemma KIM_sm_asap_module_error name simulator options debug :
  get_item_type w name ≠ collection_item_type_portableModel →
  simulator_name (simulator_model w name) = "ASAP" →
  ¬ asap_definition_not_emt w name options →
  fails_only (λ e, raised_by_module e = true) (KIM w name simulator options debug).
Proof.
  intros Hsm Ha Hemt e.
  rewrite (KIM_sm_asap w name simulator options debug Hsm Ha).
  unfold emit. run_outcome.
  destruct (check_conflict_options_cases options asap_kimsm_not_allowed
              (match simulator with None => Some "asap" | Some _ => simulator end))
    as [[Hok Heq] | [_ (msg & _ & Heq)]];
    rewrite Heq; run_outcome; [|by intros [= <-]].
  apply asap_sm_module_error. intros (Himp & Hu & Hfirst).
  by apply Hemt.
Qed.

Lemma KIM_sm_lammpslib_module_error name simulator options debug :
  get_item_type w name ≠ collection_item_type_portableModel →
  simulator_name (simulator_model w name) = "LAMMPS" →
  simulator = None ∨ simulator = Some "lammpslib" →
  ¬ repeats_lammps_name w name simulator options →
  fails_only (λ e, raised_by_module e = true) (KIM w name simulator options debug).
Proof.
  intros Hsm Hl Hsim Hname e.
  rewrite (KIM_sm_lammpslib w name simulator options debug Hsm Hl Hsim).
  unfold emit. run_outcome.
  destruct (check_conflict_options_cases options lammpslib_not_allowed
              (Some "lammpslib")) as [[Hok Heq] | [_ (msg & _ & Heq)]];
    unfold lammpslib_not_allowed in Heq; rewrite Heq; run_outcome;
    [|by intros [= <-]].
  rewrite call_kwargs_2, decide_True; [by intros [=]|].
  destruct (decide ("lammps_name" ∈ dom (default ∅ options))) as [Hin|Hnin];
    [by destruct Hname|].
  unfold allowed, lammpslib_not_allowed in Hok.
  rewrite !dom_insert_L, dom_singleton_L. set_solver.
Qed.

Lemma KIM_sm_lammpsrun_module_error name options debug :
  get_item_type w name ≠ collection_item_type_portableModel →
  simulator_name (simulator_model w name) = "LAMMPS" →
  fails_only (λ e, raised_by_module e = true)
    (KIM w name (Some "lammpsrun") options debug).
Proof.
  intros Hsm Hl e. rewrite (KIM_sm_lammpsrun w name options debug Hsm Hl).
  unfold emit. run_outcome.
  destruct (check_conflict_options_cases options lammpsrun_not_allowed
              (Some "lammpsrun")) as [[Hok Heq] | [_ (msg & _ & Heq)]];
    unfold lammpsrun_not_allowed in Heq; rewrite Heq; run_outcome;
    [|by intros [= <-]].
  destruct (first_unknown w (supported_species (simulator_model w name)))
    as [Hall | (p & sp & rest & Hsp & Hp & Hnone)].
  - destruct (get_params_known w name (supported_units (simulator_model w name))
                _ (atom_style (simulator_model w name)) Hall)
      as (params & masses & Hpeq & _ & _ & _ & _ & Hdom & _).
    rewrite Hpeq. run_outcome. rewrite call_kwargs_2.
    rewrite decide_True; [by intros [=]|].
    unfold lammps_parameter_keys in Hdom.
    rewrite dom_insert_L, dom_singleton_L. set_solver.
  - rewrite Hsp at 1.
    rewrite (get_params_unknown w name _ _ p sp rest Hp Hnone).
    run_outcome. by intros [= <-].
Qed.

(** Away from the three kinds of inputs, the dispatcher does not fail in
    the Python runtime. *)
Lemma KIM_module_error name simulator options debug :
  ¬ repeats_lammps_parameter w name simulator options →
  ¬ repeats_lammps_name w name simulator options →
  ¬ asap_definition_not_emt w name options →
  fails_only (λ e, raised_by_module e = true) (KIM w name simulator options debug).
Proof.
  intros Hparam Hname Hemt.
  destruct (decide (get_item_type w name = collection_item_type_portableModel))
    as [Hpm|Hsm].
  - destruct (KIM_portable_cases simulator)
      as [Hs | [Hs | [-> | [-> | (s & -> & H1 & H2 & H3)]]]].
    + apply KIM_pm_kimmodel_module_error; [done | by left].
    + apply KIM_pm_kimmodel_module_error; [done | by right].
    + by apply KIM_pm_asap_module_error.
    + by apply KIM_pm_lammpsrun_module_error.
    + intros e. rewrite (KIM_pm_other w name s options debug Hpm H1 H2 H3).
      unfold emit. run_outcome. case_decide; by intros [= <-].
  - destruct (decide (simulator_name (simulator_model w name) = "ASAP")) as [Ha|Hna];
      [by apply KIM_sm_asap_module_error|].
    destruct (decide (simulator_name (simulator_model w name) = "LAMMPS")) as [Hl|Hnl].
    2: { intros e. rewrite (KIM_sm_other w name simulator options debug Hsm Hna Hnl).
         unfold emit. run_outcome. by intros [= <-]. }
    destruct (KIM_lammps_cases simulator)
      as [Hs | [Hs | [-> | (s & -> & H1 & H2)]]].
    + apply KIM_sm_lammpslib_module_error; [done | done | by left | done].
    + apply KIM_sm_lammpslib_module_error; [done | done | by right | done].
    + by apply KIM_sm_lammpsrun_module_error.
    + intros e. rewrite (KIM_sm_lammps_other w name s options debug Hsm Hl H1 H2).
      unfold emit. run_outcome. by intros [= <-].
Qed.

(** C8, as the code has it.  Away from three kinds of inputs, every
    failure of the dispatcher is a KIMCalculatorError with a message that
    is not empty, except the failure to import asap3, which is an
    ImportError whose message is the text of the failed import followed
    by the advice to install asap3.  The three kinds of inputs are those
    on which the Python runtime ends the dispatcher: a Portable Model sent
    to the lammpsrun calculator with an option that has the name of a
    parameter that the builder sets, a LAMMPS Simulator Model sent to the
    lammpslib calculator with an option called lammps_name, and an ASAP
    Simulator Model whose single non-empty line of definition does not
    start, stripped, with EMT. *)
Theorem failures_are_descriptive name simulator options debug e :
  ¬ repeats_lammps_parameter w name simulator options →
  ¬ repeats_lammps_name w name simulator options →
  ¬ asap_definition_not_emt w name options →
  outcome (KIM w name simulator options debug) = inl e →
  (∃ msg, e = KIMCalculatorError msg ∧ msg ≠ EmptyString)
  ∨ (∃ text, import_asap3 w = Some text
       ∧ e = ImportError (text +:+ " You need to install asap3 first.")).
Proof.
  intros Hparam Hname Hemt He.
  apply (KIM_fails_only w name simulator options debug e He).
  by apply (KIM_module_error name simulator options debug Hparam Hname Hemt e).
Qed.
End descriptive_failures.

(** ** The further properties at concrete inputs *)

Lemma pm_kimmodel_dispatch_witness :
  ∃ kw,
    KIM (example_world None) example_pm None (Some {[ "ase_neigh" := PBool true ]}) false
    = ([EvGetItemType example_pm; EvConstruct (KIMModelCalculator example_pm kw)],
       inr (KIMModelCalculator example_pm kw))
    ∧ kw !! "debug" = Some (PBool false)
    ∧ kw !! "ase_neigh" = Some (PBool true).
Proof.
  destruct (pm_kimmodel_dispatch (example_world None) example_pm None
              (Some {[ "ase_neigh" := PBool true ]}) false eq_refl (or_introl eq_refl))
    as [Hok _].
  destruct Hok as (kw & Heq & Hd & Hopt & _); [by vm_compute|].
  exists kw. split_and!; [done..|]. by apply Hopt.
Defined.

Lemma pm_asap_dispatch_witness :
  ∃ kw,
    outcome (KIM (example_world None) example_pm (Some "asap")
               (Some {[ "allow_mi_opbc" := PBool false ]}) true)
    = inr (OpenKIMcalculator kw)
    ∧ kw !! "verbose" = Some (PBool true)
    ∧ kw !! "allow_mi_opbc" = Some (PBool false).
Proof.
  destruct (pm_asap_dispatch (example_world None) example_pm
              (Some {[ "allow_mi_opbc" := PBool false ]}) true eq_refl)
    as (_ & Hok & _).
  destruct Hok as (kw & Heq & _ & Hv & Hopt); [by vm_compute | done |].
  exists kw. rewrite Heq. split_and!; [done..|]. by apply Hopt.
Defined.

Lemma pm_unsupported_simulator_witness :
  ∃ msg,
    KIM (example_world None) example_pm (Some "gulp") None false
    = ([EvGetItemType example_pm], inl (KIMCalculatorError msg))
    ∧ substring_of (dq +:+ "gulp" +:+ dq) msg.
Proof.
  by apply (pm_unsupported_simulator (example_world None) example_pm "gulp" None false).
Defined.

Lemma sm_unsupported_simulator_name_witness :
  outcome (KIM example_world_other_simulator example_lammps_sm (Some "lammpsrun")
             (Some {[ "files" := PNone ]}) false)
  = inl (KIMCalculatorError ("Unsupported simulator: " +:+ dq +:+ "GULP" +:+ dq +:+ ".")).
Proof.
  destruct (sm_unsupported_simulator_name example_world_other_simulator
              example_lammps_sm (Some "lammpsrun") (Some {[ "files" := PNone ]}) false)
    as [Heq _]; [done..|].
  by rewrite Heq.
Defined.

Lemma sm_lammps_unknown_calculator_witness :
  outcome (KIM (example_world None) example_lammps_sm (Some "kimmodel") None false)
  = inl (KIMCalculatorError
           ("Unknown LAMMPS calculator: " +:+ dq +:+ "kimmodel" +:+ dq +:+ ".")).
Proof.
  destruct (sm_lammps_unknown_calculator (example_world None) example_lammps_sm
              "kimmodel" None false) as [Heq _]; [done..|].
  by rewrite Heq.
Defined.

Lemma sm_asap_ignores_arguments_witness :
  KIM (example_world None) example_asap_sm (Some "lammpsrun")
    (Some {[ "tmp_dir" := PStr "scratch" ]}) true
  = KIM (example_world None) example_asap_sm None None false.
Proof.
  apply (sm_asap_ignores_arguments (example_world None) example_asap_sm);
    [done | done | by vm_compute].
Defined.

Lemma sm_lammpslib_options_witness :
  KIM (example_world None) example_lammps_sm None
    (Some {[ "lammps_name" := PStr "mpi" ]}) false
  = ([EvGetItemType example_lammps_sm; EvSimulatorModel example_lammps_sm],
     inl (TypeError_multiple_values (Some "lammps_name"))).
Proof.
  destruct (sm_lammpslib_options (example_world None) example_lammps_sm None
              (Some {[ "lammps_name" := PStr "mpi" ]}) false)
    as [Hclash _]; [done | done | by left | by vm_compute |].
  apply Hclash. by vm_compute.
Defined.

Lemma lammps_parameters_keys_witness :
  ∃ params,
    _get_params_for_LAMMPS_calculator (example_world None) example_lammps_sm
      "metal" ["Al"; "Ni"] (Some EmptyString) = ([], inr params)
    ∧ params !! "atom_style" = None.
Proof.
  destruct (lammps_parameters_keys (example_world None) example_lammps_sm
              "metal" ["Al"; "Ni"] (Some EmptyString) example_species_known)
    as (params & Heq & _ & _ & Hnone & _).
  exists params. split; [done|]. apply Hnone. by right.
Defined.

Lemma pm_lammpsrun_options_witness :
  outcome (KIM (example_world None) example_pm (Some "lammpsrun")
             (Some {[ "units" := PStr "real" ]}) false)
  = inl (TypeError_multiple_values (Some "units")).
Proof.
  destruct (pm_lammpsrun_options (example_world None) example_pm
              (Some {[ "units" := PStr "real" ]}) false)
    as [Hclash _]; [done | by vm_compute | apply example_species_known |].
  destruct Hclash as (key & -> & Hkey); [by vm_compute|].
  unfold outcome, snd. do 2 f_equal. apply Hkey.
  change (dom ({[ "units" := PStr "real" ]} : gmap string pyval) ∩ lammps_fixed_keys
          = ({[ "units" ]} : gset string)).
  rewrite dom_singleton_L. unfold lammps_fixed_keys. set_solver.
Defined.

Lemma re_search_group1_sound_witness :
  re_search_group1 "EMT" = None
  ∧ ∃ g, re_search_group1 "EMT(EMTRasmussenParameters())" = Some g
      ∧ g ≠ EmptyString.
Proof.
  split.
  - by apply (re_search_group1_sound "EMT").
  - destruct (re_search_group1 "EMT(EMTRasmussenParameters())") as [g|] eqn:Hg;
      [|by vm_compute in Hg].
    exists g. split; [done|].
    by destruct (proj1 (re_search_group1_sound "EMT(EMTRasmussenParameters())") g Hg).
Defined.

Lemma asap_emt_default_parameters_witness :
  _asap_calculator (example_world None) example_asap_sm sm
    (sm_kwargs ["  EMT "] "ase")
  = ([EvImportAsap3; EvConstruct (EMT None None)], inr (EMT None (Some false))).
Proof.
  by apply (asap_emt_default_parameters (example_world None) example_asap_sm "  EMT ").
Defined.

Lemma asap_emt_parameter_selection_witness :
  _asap_calculator (example_world None) example_asap_sm sm
    (sm_kwargs [" EMT(EMTMetalGlassParameters)"] "ase")
  = ([EvImportAsap3; EvConstruct (EMT (Some EMTMetalGlassParameters) None)],
     inr (EMT (Some EMTMetalGlassParameters) (Some false))).
Proof.
  destruct (asap_emt_parameter_selection (example_world None) example_asap_sm
              " EMT(EMTMetalGlassParameters)" "EMTMetalGlassParameters")
    as (_ & Hmg & _); [done..|].
  by apply Hmg.
Defined.

Lemma asap_non_emt_unbound_witness :
  _asap_calculator (example_world None) example_asap_sm sm
    (sm_kwargs ["LennardJones(1.0, 1.0)"] "ase")
  = ([EvImportAsap3], inl (UnboundLocalError "asap_calc")).
Proof.
  by apply (asap_non_emt_unbound (example_world None) example_asap_sm
              "LennardJones(1.0, 1.0)").
Defined.

Lemma dispatch_returns_by_kind_witness :
  ∃ parameters,
    outcome (KIM (example_world None) example_asap_sm (Some "lammpsrun") None true)
    = inr (EMT parameters (Some false)).
Proof.
  destruct (outcome (KIM (example_world None) example_asap_sm (Some "lammpsrun")
                       None true)) as [e|c] eqn:Hret; [by vm_compute in Hret|].
  destruct (dispatch_returns_by_kind (example_world None) example_asap_sm
              (Some "lammpsrun") None true c Hret)
    as [[Hpm _] | [_ [(_ & parameters & ->) | [(Hl & _) | (Hl & _)]]]].
  - by vm_compute in Hpm.
  - by exists parameters.
  - by vm_compute in Hl.
  - by vm_compute in Hl.
Defined.

Lemma failed_dispatch_constructs_no_backend_witness :
  trace_all (only_species_handle example_pm)
    (KIM (example_world None) example_pm (Some "lammpsrun")
       (Some {[ "units" := PStr "real" ]}) false).
Proof.
  apply failed_dispatch_constructs_no_backend.
  exists (TypeError_multiple_values (Some "units")). by vm_compute.
Defined.

Lemma asap3_imported_only_for_asap_witness :
  trace_all (λ ev, ev ≠ EvImportAsap3)
    (KIM (example_world None) example_lammps_sm None None false).
Proof.
  apply asap3_imported_only_for_asap; [done|]. intros _. by vm_compute.
Defined.

Lemma lammpsrun_specorder_matches_species_witness :
  ∃ kw,
    outcome (KIM (example_world None) example_lammps_sm (Some "lammpsrun") None true)
    = inr (LAMMPS kw)
    ∧ kw !! "specorder" = Some (py_strs ["Al"; "Ni"])
    ∧ kw !! "keep_tmp_files" = Some (PBool true).
Proof.
  destruct (outcome (KIM (example_world None) example_lammps_sm (Some "lammpsrun")
                       None true)) as [e|[| kw | | |]] eqn:Hret;
    try (by vm_compute in Hret).
  destruct (lammpsrun_specorder_matches_species (example_world None)
              example_lammps_sm None true kw Hret)
    as (species & masses & Hsp & Hso & Hk & _).
  vm_compute in Hsp. injection Hsp as <-.
  by exists kw.
Defined.

Lemma sm_lammpsrun_uses_model_units_witness :
  ∃ kw,
    outcome (KIM (example_world None) example_lammps_sm (Some "lammpsrun") None false)
    = inr (LAMMPS kw)
    ∧ kw !! "units" = Some (PStr "metal")
    ∧ kw !! "atom_style" = None.
Proof.
  destruct (outcome (KIM (example_world None) example_lammps_sm (Some "lammpsrun")
                       None false)) as [e|c] eqn:Hret; [by vm_compute in Hret|].
  destruct (sm_lammpsrun_uses_model_units (example_world None) example_lammps_sm
              None false c) as (kw & -> & Hu & _ & Hs & _); [done..|].
  by exists kw.
Defined.

Lemma invalid_options_fail_first_witness :
  ∃ msg,
    KIM (example_world None) example_pm (Some "lammpsrun")
      (Some {[ "files" := PNone ]}) false
    = ([EvGetItemType example_pm], inl (KIMCalculatorError msg)).
Proof.
  destruct (invalid_options_fail_first (example_world None) example_pm
              (Some "lammpsrun") (Some {[ "files" := PNone ]}) false)
    as (msg & Heq & _).
  - left. split_and!; [done | done | by vm_compute].
  - by exists msg.
Defined.

Lemma failures_are_descriptive_witness :
  ∃ msg,
    outcome (KIM (example_world None) example_pm (Some "lammpsrun")
               (Some {[ "files" := PSeq [] ]}) false)
    = inl (KIMCalculatorError msg)
    ∧ msg ≠ EmptyString.
Proof.
  destruct (outcome (KIM (example_world None) example_pm (Some "lammpsrun")
                       (Some {[ "files" := PSeq [] ]}) false))
    as [e|c] eqn:He; [|by vm_compute in He].
  destruct (failures_are_descriptive (example_world None) example_pm
              (Some "lammpsrun") (Some {[ "files" := PSeq [] ]}) false e)
    as [(msg & -> & Hne) | (text & Ht & _)].
  - intros (_ & _ & Hok & _). by vm_compute in Hok.
  - intros (Hsm & _). by apply Hsm.
  - intros (Hsm & _). by apply Hsm.
  - done.
  - by exists msg.
  - by vm_compute in Ht.
Defined.
